(** * Airport diagram tracker: extraction and change detection

    A shallow embedding of [backend/comparator.py] and of the classifiers of
    [backend/pdf_extractor.py], with the properties of the change-detection
    engine proved over it, and of what surrounds them: the cycle codes of
    [backend/downloader.py], the search of [backend/historical.py] and the
    alert of [backend/scheduled_check.py].

    Conventions of the embedding.
    - Python [str] is [string] (a sequence of 8-bit characters); the string
      methods the source calls ([upper], [replace], [split], [strip],
      [isdigit], [int]) are written out on ASCII in [PyStr].
    - Python [int] is [Z].  Python [float] (page coordinates, font sizes) is
      modelled by exact rationals [Q]: comparisons and midpoints are exact,
      and [sqrt(d) < t] is read as [d < t * t] for a positive [t].
    - A Python [set] of strings is a [gset string]; iterating over it visits
      [elements] of it, whose order is left unspecified, as the iteration
      order of a Python set is.
    - A Python [dict] used as an insertion-ordered map is an association
      list with in-place update ([PyDict]).
    - A JSON object read with [.get(key, default)] is a record of [option]
      fields; one read with [obj[key]] is a record of plain fields.
    - The clock and the file system are inputs: a function that reads the
      date takes the number of days since the reference date, one that
      looks for extractions takes the map from cycle to extraction.  A
      call that may raise returns an [option], [None] for the exception. *)

From Stdlib Require Import ZArith QArith Qround String Ascii List DecimalString Lqa.
From stdpp Require Import gmap strings list.
Import ListNotations.

Open Scope string_scope.
Open Scope Z_scope.

(* ===================================================================== *)
(** ** Python string methods *)
(* ===================================================================== *)

Module PyStr.

Definition code (c : ascii) : N := N_of_ascii c.

Definition in_range (lo hi : ascii) (c : ascii) : bool :=
  ((code lo <=? code c) && (code c <=? code hi))%N.

(** [c.isdigit()] *)
Definition isdigit (c : ascii) : bool := in_range "0" "9" c.

Definition islower (c : ascii) : bool := in_range "a" "z" c.

(** [c.isspace()] on ASCII: tab, newline, vertical tab, form feed,
    carriage return, the separators 0x1c-0x1f and the space. *)
Definition isspace (c : ascii) : bool :=
  ((9 <=? code c) && (code c <=? 13) || (28 <=? code c) && (code c <=? 32))%N.

Definition upper_char (c : ascii) : ascii :=
  if islower c then ascii_of_N (code c - 32) else c.

(** [s.upper()] *)
Fixpoint upper (s : string) : string :=
  match s with
  | EmptyString => EmptyString
  | String c s' => String (upper_char c) (upper s')
  end.

(** [s.replace(a, b)] for one-character [a] and [b] *)
Fixpoint replace (a b : ascii) (s : string) : string :=
  match s with
  | EmptyString => EmptyString
  | String c s' => String (if Ascii.eqb c a then b else c) (replace a b s')
  end.

(** [s.split(sep)] for a one-character separator: never empty, one more
    part than there are separators. *)
Fixpoint split (sep : ascii) (s : string) : list string :=
  match s with
  | EmptyString => [EmptyString]
  | String c s' =>
      if Ascii.eqb c sep then EmptyString :: split sep s'
      else match split sep s' with
           | p :: ps => String c p :: ps
           | [] => [String c EmptyString]
           end
  end.

(** [''.join(c for c in s if p(c))] *)
Fixpoint keep (p : ascii -> bool) (s : string) : string :=
  match s with
  | EmptyString => EmptyString
  | String c s' => if p c then String c (keep p s') else keep p s'
  end.

Definition digit_value (c : ascii) : Z := Z.of_N (code c - 48).

(** [int(s)] for a string of decimal digits, most significant first. *)
Fixpoint int_acc (acc : Z) (s : string) : Z :=
  match s with
  | EmptyString => acc
  | String c s' => int_acc (10 * acc + digit_value c) s'
  end.

Definition int (s : string) : Z := int_acc 0 s.

Fixpoint lstrip (s : string) : string :=
  match s with
  | EmptyString => EmptyString
  | String c s' => if isspace c then lstrip s' else s
  end.

Fixpoint rstrip (s : string) : string :=
  match s with
  | EmptyString => EmptyString
  | String c s' =>
      match rstrip s' with
      | EmptyString => if isspace c then EmptyString else String c EmptyString
      | r => String c r
      end
  end.

(** [s.strip()] *)
Definition strip (s : string) : string := rstrip (lstrip s).

(** [str(n)] for an [int] *)
Definition str_of_int (z : Z) : string := NilZero.string_of_int (Z.to_int z).

(** [s[:n]] *)
Fixpoint prefix_n (n : nat) (s : string) : string :=
  match n, s with
  | S n', String c s' => String c (prefix_n n' s')
  | _, _ => EmptyString
  end.

End PyStr.

(* ===================================================================== *)
(** ** Python dictionaries as insertion-ordered maps *)
(* ===================================================================== *)

Module PyDict.
Section Dict.
Context {V : Type}.

Definition dict : Type := list (string * V).

(** [d.get(k)] / [d[k]] *)
Fixpoint get (k : string) (d : dict) : option V :=
  match d with
  | [] => None
  | (k', v) :: d' => if String.eqb k' k then Some v else get k d'
  end.

(** [d[k] = v]: a known key keeps its place and takes the new value, a
    new key goes last. *)
Fixpoint set (k : string) (v : V) (d : dict) : dict :=
  match d with
  | [] => [(k, v)]
  | (k', v') :: d' =>
      if String.eqb k' k then (k', v) :: d' else (k', v') :: set k v d'
  end.

(** [k in d] *)
Definition contains (k : string) (d : dict) : bool :=
  match get k d with Some _ => true | None => false end.

(** [d.items()], in insertion order *)
Definition items (d : dict) : list (string * V) := d.

Definition keys (d : dict) : list string := map fst d.
End Dict.
Arguments dict : clear implicits.
End PyDict.

(* ===================================================================== *)
(** ** Numbers *)
(* ===================================================================== *)

Definition Qltb (a b : Q) : bool := negb (Qle_bool b a).

(* ===================================================================== *)
(** ** comparator.py *)
(* ===================================================================== *)

Module Comparator.
Import PyStr.

(** *** Data *)

(** One entry of [taxiway_labels] in an extraction, read with
    [label['designator']], [label['x']], [label['y']]. *)
Record label : Type := mkLabel {
  lbl_designator : string;
  lbl_x : Q;
  lbl_y : Q;
  lbl_bbox : Q * Q * Q * Q
}.

(** One entry of [runway_info], read with [rwy.get(key, default)]. *)
Record runway : Type := mkRunway {
  rw_designator : option string;
  rw_length_ft : option Z;
  rw_width_ft : option Z;
  rw_x : option Q;
  rw_y : option Q;
  rw_surface : option string;
  rw_raw_text : option string
}.

(** One entry of [paths]; the comparison only counts them. *)
Record path : Type := mkPath {
  p_x0 : Q; p_y0 : Q; p_x1 : Q; p_y1 : Q; p_width : Q
}.

Inductive taxiway_change_type : Type := ADDED | REMOVED | RENAMED.

Record TaxiwayChange : Type := mkTaxiwayChange {
  tc_change_type : taxiway_change_type;
  tc_designator : string;
  tc_old_designator : string;
  tc_x : Q;
  tc_y : Q;
  tc_description : string
}.

Inductive runway_change_type : Type :=
  LENGTH_CHANGED | WIDTH_CHANGED | RUNWAY_ADDED | RUNWAY_REMOVED.

Record RunwayChange : Type := mkRunwayChange {
  rc_change_type : runway_change_type;
  rc_designator : string;
  rc_old_length : Z;
  rc_new_length : Z;
  rc_old_width : Z;
  rc_new_width : Z;
  rc_old_x : Q;
  rc_old_y : Q;
  rc_new_x : Q;
  rc_new_y : Q;
  rc_description : string
}.

Inductive geometry_change_type : Type := GEOMETRY_ADDED | GEOMETRY_REMOVED.

Record GeometryChange : Type := mkGeometryChange {
  gc_change_type : geometry_change_type;
  gc_x : Q;
  gc_y : Q;
  gc_description : string
}.

Record Summary : Type := mkSummary {
  total_changes : nat;
  taxiways_added : nat;
  taxiways_removed : nat;
  taxiways_renamed : nat;
  sum_runway_changes : nat;
  runway_length_changes : nat;
  runway_width_changes : nat;
  sum_geometry_changes : nat;
  old_label_count : nat;
  new_label_count : nat;
  old_unique_designators : nat;
  new_unique_designators : nat;
  old_runway_count : nat;
  new_runway_count : nat
}.

Record ComparisonResult : Type := mkComparisonResult {
  airport_code : string;
  old_cycle : string;
  new_cycle : string;
  taxiway_changes : list TaxiwayChange;
  runway_changes : list RunwayChange;
  geometry_changes : list GeometryChange;
  summary : Summary
}.

(** An extraction as [compare_extractions] reads it: every key through
    [.get], so every key may be absent. *)
Record extraction : Type := mkExtraction {
  ex_airport_code : option string;
  ex_cycle : option string;
  ex_taxiway_labels : option (list label);
  ex_runway_info : option (list runway);
  ex_paths : option (list path)
}.

(** *** Taxiway labels *)

Definition LOCATION_THRESHOLD : Q := 15%Q.

(** The square of [distance(x1, y1, x2, y2)]. *)
Definition distance_sq (x1 y1 x2 y2 : Q) : Q :=
  ((x2 - x1) * (x2 - x1) + (y2 - y1) * (y2 - y1))%Q.

(** [distance(x1, y1, x2, y2) < threshold]: a square root is below a
    bound exactly when the bound is positive and its square is above the
    radicand. *)
Definition distance_lt (x1 y1 x2 y2 threshold : Q) : bool :=
  Qltb 0 threshold && Qltb (distance_sq x1 y1 x2 y2) (threshold * threshold).

Definition find_nearby_labels_within
    (l : label) (labels : list label) (threshold : Q) : list label :=
  List.filter (fun other =>
            distance_lt (lbl_x l) (lbl_y l) (lbl_x other) (lbl_y other) threshold)
         labels.

Definition find_nearby_labels (l : label) (labels : list label) : list label :=
  find_nearby_labels_within l labels LOCATION_THRESHOLD.

(** [{label['designator'] for label in labels}] *)
Definition designator_set (labels : list label) : gset string :=
  list_to_set (map lbl_designator labels).

(** The inner loop of the ADDED and REMOVED passes: the first label of
    the list carrying the designator, where the loop breaks. *)
Definition first_label (designator : string) (labels : list label) : option label :=
  find (fun l => String.eqb (lbl_designator l) designator) labels.

Definition added_change (designator : string) (l : label) : TaxiwayChange :=
  mkTaxiwayChange ADDED designator "" (lbl_x l) (lbl_y l)
    ("New taxiway '" ++ designator ++ "' added").

Definition removed_change (designator : string) (l : label) : TaxiwayChange :=
  mkTaxiwayChange REMOVED designator designator (lbl_x l) (lbl_y l)
    ("Taxiway '" ++ designator ++ "' removed").

Definition renamed_change (old_label new_label : label) : TaxiwayChange :=
  mkTaxiwayChange RENAMED (lbl_designator new_label) (lbl_designator old_label)
    (lbl_x new_label) (lbl_y new_label)
    ("Taxiway renamed from '" ++ lbl_designator old_label ++ "' to '"
       ++ lbl_designator new_label ++ "'").

Definition report_first
    (mk : string -> label -> TaxiwayChange) (labels : list label)
    (designator : string) : list TaxiwayChange :=
  match first_label designator labels with
  | Some l => [mk designator l]
  | None => []
  end.

Definition rename_test
    (old_designators new_designators : gset string)
    (old_label new_label : label) : bool :=
  negb (String.eqb (lbl_designator old_label) (lbl_designator new_label))
  && negb (bool_decide (lbl_designator old_label ∈ new_designators))
  && negb (bool_decide (lbl_designator new_label ∈ old_designators)).

Definition compare_taxiway_labels
    (old_labels new_labels : list label) : list TaxiwayChange :=
  let old_designators := designator_set old_labels in
  let new_designators := designator_set new_labels in
  let added := new_designators ∖ old_designators in
  let changes_added :=
    flat_map (report_first added_change new_labels) (elements added) in
  let removed := old_designators ∖ new_designators in
  let changes_removed :=
    flat_map (report_first removed_change old_labels) (elements removed) in
  let changes_renamed :=
    flat_map
      (fun old_label =>
         let nearby_new := find_nearby_labels old_label new_labels in
         flat_map
           (fun new_label =>
              if rename_test old_designators new_designators old_label new_label
              then [renamed_change old_label new_label]
              else [])
           nearby_new)
      old_labels in
  changes_added ++ changes_removed ++ changes_renamed.

(** *** Runways *)

Definition get_number (s : string) : Z :=
  let num := keep isdigit s in
  match num with
  | EmptyString => 0
  | _ => int num
  end.

Definition normalize_runway_designator (designator : string) : string :=
  let designator := replace "-" "/" designator in
  let parts := split "/" designator in
  match parts with
  | [p0; p1] =>
      let '(p0, p1) := if get_number p0 >? get_number p1 then (p1, p0) else (p0, p1) in
      upper p0 ++ "/" ++ upper p1
  | _ => upper designator
  end.

(** The loop that builds [old_by_designator] / [new_by_designator]. *)
Definition by_designator (runways : list runway) : PyDict.dict runway :=
  fold_left
    (fun (d : PyDict.dict runway) (rwy : runway) =>
       let norm := normalize_runway_designator (default "" (rw_designator rwy)) in
       if negb (String.eqb norm "") && negb (String.eqb norm "UNKNOWN")
       then PyDict.set norm rwy d
       else d)
    runways [].

Definition get_length (rwy : runway) : Z := default 0 (rw_length_ft rwy).
Definition get_width (rwy : runway) : Z := default 0 (rw_width_ft rwy).
Definition get_x (rwy : runway) : Q := default 0%Q (rw_x rwy).
Definition get_y (rwy : runway) : Q := default 0%Q (rw_y rwy).

Definition runway_added (designator : string) (rwy : runway) : RunwayChange :=
  mkRunwayChange RUNWAY_ADDED designator
    0 (get_length rwy) 0 (get_width rwy)
    0%Q 0%Q (get_x rwy) (get_y rwy)
    ("New runway " ++ designator ++ ": " ++ str_of_int (get_length rwy)
       ++ " x " ++ str_of_int (get_width rwy) ++ " ft").

Definition runway_removed (designator : string) (rwy : runway) : RunwayChange :=
  mkRunwayChange RUNWAY_REMOVED designator
    (get_length rwy) 0 (get_width rwy) 0
    (get_x rwy) (get_y rwy) 0%Q 0%Q
    ("Runway " ++ designator ++ " removed (was " ++ str_of_int (get_length rwy)
       ++ " x " ++ str_of_int (get_width rwy) ++ " ft)").

Definition length_changed (designator : string) (old_rwy new_rwy : runway) : RunwayChange :=
  let old_length := get_length old_rwy in
  let new_length := get_length new_rwy in
  let diff := new_length - old_length in
  let direction := if diff >? 0 then "extended" else "shortened" in
  mkRunwayChange LENGTH_CHANGED designator
    old_length new_length (get_width old_rwy) (get_width new_rwy)
    (get_x old_rwy) (get_y old_rwy) (get_x new_rwy) (get_y new_rwy)
    ("Runway " ++ designator ++ " " ++ direction ++ " by " ++ str_of_int (Z.abs diff)
       ++ " ft (" ++ str_of_int old_length ++ " → " ++ str_of_int new_length ++ " ft)").

Definition width_changed (designator : string) (old_rwy new_rwy : runway) : RunwayChange :=
  let old_width := get_width old_rwy in
  let new_width := get_width new_rwy in
  let diff := new_width - old_width in
  let direction := if diff >? 0 then "widened" else "narrowed" in
  mkRunwayChange WIDTH_CHANGED designator
    (get_length old_rwy) (get_length new_rwy) old_width new_width
    (get_x old_rwy) (get_y old_rwy) (get_x new_rwy) (get_y new_rwy)
    ("Runway " ++ designator ++ " " ++ direction ++ " by " ++ str_of_int (Z.abs diff)
       ++ " ft (" ++ str_of_int old_width ++ " → " ++ str_of_int new_width ++ " ft wide)").

(** [old != new and old > 0 and new > 0] *)
Definition dimension_differs (old_value new_value : Z) : bool :=
  negb (old_value =? new_value) && (old_value >? 0) && (new_value >? 0).

(** The body of the third loop, for a designator found on both sides. *)
Definition dimension_changes (designator : string) (old_rwy new_rwy : runway)
    : list RunwayChange :=
  (if dimension_differs (get_length old_rwy) (get_length new_rwy)
   then [length_changed designator old_rwy new_rwy] else [])
  ++
  (if dimension_differs (get_width old_rwy) (get_width new_rwy)
   then [width_changed designator old_rwy new_rwy] else []).

Definition compare_runway_dimensions
    (old_runways new_runways : list runway) : list RunwayChange :=
  let old_by_designator := by_designator old_runways in
  let new_by_designator := by_designator new_runways in
  let changes_added :=
    flat_map
      (fun '(designator, rwy) =>
         if negb (PyDict.contains designator old_by_designator)
         then [runway_added designator rwy] else [])
      (PyDict.items new_by_designator) in
  let changes_removed :=
    flat_map
      (fun '(designator, rwy) =>
         if negb (PyDict.contains designator new_by_designator)
         then [runway_removed designator rwy] else [])
      (PyDict.items old_by_designator) in
  let changes_dimensions :=
    flat_map
      (fun '(designator, new_rwy) =>
         match PyDict.get designator old_by_designator with
         | Some old_rwy => dimension_changes designator old_rwy new_rwy
         | None => []
         end)
      (PyDict.items new_by_designator) in
  changes_added ++ changes_removed ++ changes_dimensions.

(** *** Geometry *)

Definition geometry_added (path_diff : Z) : GeometryChange :=
  mkGeometryChange GEOMETRY_ADDED 0%Q 0%Q
    ("Approximately " ++ str_of_int path_diff
       ++ " new path segments added (possible new taxiway geometry)").

Definition geometry_removed (path_diff : Z) : GeometryChange :=
  mkGeometryChange GEOMETRY_REMOVED 0%Q 0%Q
    ("Approximately " ++ str_of_int (- path_diff)
       ++ " path segments removed (possible taxiway removal)").

Definition compare_geometry (old_paths new_paths : list path) : list GeometryChange :=
  let path_diff := Z.of_nat (length new_paths) - Z.of_nat (length old_paths) in
  if Z.abs path_diff >? 50 then
    if path_diff >? 0 then [geometry_added path_diff]
    else [geometry_removed path_diff]
  else [].

(** *** The whole comparison *)

(** [sum(1 for c in changes if p(c))] *)
Definition count {A : Type} (p : A -> bool) (l : list A) : nat :=
  length (List.filter p l).

Definition is_taxiway_kind (k : taxiway_change_type) (c : TaxiwayChange) : bool :=
  match k, tc_change_type c with
  | ADDED, ADDED | REMOVED, REMOVED | RENAMED, RENAMED => true
  | _, _ => false
  end.

Definition is_runway_kind (k : runway_change_type) (c : RunwayChange) : bool :=
  match k, rc_change_type c with
  | LENGTH_CHANGED, LENGTH_CHANGED | WIDTH_CHANGED, WIDTH_CHANGED
  | RUNWAY_ADDED, RUNWAY_ADDED | RUNWAY_REMOVED, RUNWAY_REMOVED => true
  | _, _ => false
  end.

Definition compare_extractions (old_data new_data : extraction) : ComparisonResult :=
  let old_labels := default [] (ex_taxiway_labels old_data) in
  let new_labels := default [] (ex_taxiway_labels new_data) in
  let taxiway_changes := compare_taxiway_labels old_labels new_labels in
  let old_runways := default [] (ex_runway_info old_data) in
  let new_runways := default [] (ex_runway_info new_data) in
  let runway_changes := compare_runway_dimensions old_runways new_runways in
  let old_paths := default [] (ex_paths old_data) in
  let new_paths := default [] (ex_paths new_data) in
  let geometry_changes := compare_geometry old_paths new_paths in
  let summary :=
    mkSummary
      (length taxiway_changes + length runway_changes + length geometry_changes)%nat
      (count (is_taxiway_kind ADDED) taxiway_changes)
      (count (is_taxiway_kind REMOVED) taxiway_changes)
      (count (is_taxiway_kind RENAMED) taxiway_changes)
      (length runway_changes)
      (count (is_runway_kind LENGTH_CHANGED) runway_changes)
      (count (is_runway_kind WIDTH_CHANGED) runway_changes)
      (length geometry_changes)
      (length old_labels)
      (length new_labels)
      (size (designator_set old_labels))
      (size (designator_set new_labels))
      (length old_runways)
      (length new_runways) in
  mkComparisonResult
    (default "UNKNOWN" (ex_airport_code new_data))
    (default "UNKNOWN" (ex_cycle old_data))
    (default "UNKNOWN" (ex_cycle new_data))
    taxiway_changes runway_changes geometry_changes summary.

(** *** The dictionary of [to_dict] *)

(** One entry of the flattened ['changes'] list. *)
Record FlatChange : Type := mkFlatChange {
  fc_change_type : string;
  fc_category : string;
  fc_old_text : string;
  fc_new_text : string;
  fc_old_position : Q * Q * Q * Q;
  fc_new_position : Q * Q * Q * Q;
  fc_description : string
}.

(** The strings that the source stores in [change_type]. *)
Definition taxiway_type_name (k : taxiway_change_type) : string :=
  match k with
  | ADDED => "ADDED"
  | REMOVED => "REMOVED"
  | RENAMED => "RENAMED"
  end.

Definition runway_type_name (k : runway_change_type) : string :=
  match k with
  | LENGTH_CHANGED => "LENGTH_CHANGED"
  | WIDTH_CHANGED => "WIDTH_CHANGED"
  | RUNWAY_ADDED => "RUNWAY_ADDED"
  | RUNWAY_REMOVED => "RUNWAY_REMOVED"
  end.

Definition geometry_type_name (k : geometry_change_type) : string :=
  match k with
  | GEOMETRY_ADDED => "GEOMETRY_ADDED"
  | GEOMETRY_REMOVED => "GEOMETRY_REMOVED"
  end.

Definition no_position : Q * Q * Q * Q := (0, 0, 0, 0)%Q.

(** [(c.x, c.y, c.x + 10, c.y + 10)] *)
Definition box_at (x y : Q) : Q * Q * Q * Q := (x, y, x + 10, y + 10)%Q.

Definition flat_taxiway (c : TaxiwayChange) : FlatChange :=
  let removed := is_taxiway_kind REMOVED c in
  mkFlatChange (taxiway_type_name (tc_change_type c)) "taxiway"
    (tc_old_designator c) (tc_designator c)
    (if removed then box_at (tc_x c) (tc_y c) else no_position)
    (if negb removed then box_at (tc_x c) (tc_y c) else no_position)
    (tc_description c).

Definition flat_runway (c : RunwayChange) : FlatChange :=
  mkFlatChange (runway_type_name (rc_change_type c)) "runway"
    (str_of_int (rc_old_length c) ++ " x " ++ str_of_int (rc_old_width c))
    (str_of_int (rc_new_length c) ++ " x " ++ str_of_int (rc_new_width c))
    no_position no_position (rc_description c).

Definition flat_geometry (c : GeometryChange) : FlatChange :=
  mkFlatChange (geometry_type_name (gc_change_type c)) "geometry"
    "" "" no_position no_position (gc_description c).

(** The dictionary; [asdict] of a change keeps its fields, so the three
    typed lists are carried as they are. *)
Record ResultDict : Type := mkResultDict {
  rd_airport_code : string;
  rd_old_cycle : string;
  rd_new_cycle : string;
  rd_taxiway_changes : list TaxiwayChange;
  rd_runway_changes : list RunwayChange;
  rd_geometry_changes : list GeometryChange;
  rd_summary : Summary;
  rd_changes : list FlatChange
}.

Definition to_dict (result : ComparisonResult) : ResultDict :=
  mkResultDict
    (airport_code result) (old_cycle result) (new_cycle result)
    (taxiway_changes result) (runway_changes result) (geometry_changes result)
    (summary result)
    (map flat_taxiway (taxiway_changes result)
     ++ map flat_runway (runway_changes result)
     ++ map flat_geometry (geometry_changes result))%list.

End Comparator.

(* ===================================================================== *)
(** ** Regular expressions, as [re] runs the patterns of pdf_extractor.py *)
(* ===================================================================== *)

Module Re.

(** The constructs the patterns of the source are written with.  A
    capturing group carries its number. *)
Inductive regex : Type :=
| Empty
| Class (p : ascii -> bool)
| Seq (r1 r2 : regex)
| Repeat (lo : nat) (hi : option nat) (r : regex)
| Group (i : nat) (r : regex)
| EndOfString.

Definition captures : Type := list (nat * string).

(** A backtracking matcher in continuation-passing style: [exec r s caps k]
    matches [r] against a prefix of [s] and hands the rest to [k]; when [k]
    refuses, the next alternative is tried.  [Repeat] is greedy: one more
    iteration is tried before stopping.  An unbounded repeat runs at most
    once per remaining character, each iteration having to consume one. *)
Fixpoint exec {A : Type} (r : regex) (s : string) (caps : captures)
    (k : string -> captures -> option A) {struct r} : option A :=
  match r with
  | Empty => k s caps
  | Class p =>
      match s with
      | String c s' => if p c then k s' caps else None
      | EmptyString => None
      end
  | Seq r1 r2 => exec r1 s caps (fun s' caps' => exec r2 s' caps' k)
  | Group i r1 =>
      exec r1 s caps
        (fun s' caps' =>
           k s' ((i, PyStr.prefix_n (String.length s - String.length s') s) :: caps'))
  | EndOfString =>
      match s with
      | EmptyString => k s caps
      | String c EmptyString => if Ascii.eqb c "010" then k s caps else None
      | _ => None
      end
  | Repeat lo hi r1 =>
      (fix iter (budget done : nat) (s : string) (caps : captures)
           {struct budget} : option A :=
         let stop := if (lo <=? done)%nat then k s caps else None in
         match budget with
         | O => stop
         | S budget' =>
             match exec r1 s caps
                     (fun s' caps' =>
                        if (String.length s' <? String.length s)%nat
                        then iter budget' (S done) s' caps'
                        else None)
             with
             | Some a => Some a
             | None => stop
             end
         end)
        (match hi with Some h => h | None => String.length s end) O s caps
  end.

(** A match object: [group(0)] and the numbered groups. *)
Record rmatch : Type := mkMatch {
  group0 : string;
  groups : captures
}.

Fixpoint lookup_group (i : nat) (caps : captures) : string :=
  match caps with
  | [] => EmptyString
  | (j, g) :: caps' => if (j =? i)%nat then g else lookup_group i caps'
  end.

(** [m.group(i)] for [i >= 1] *)
Definition group (i : nat) (m : rmatch) : string := lookup_group i (groups m).

(** A match anchored at the start of [s], with what is left after it. *)
Definition match_at (r : regex) (s : string) : option (string * rmatch) :=
  exec r s []
    (fun rest caps =>
       Some (rest, mkMatch (PyStr.prefix_n (String.length s - String.length rest) s) caps)).

(** [pattern.match(s)] as a truth value *)
Definition matches (r : regex) (s : string) : bool :=
  match match_at r s with Some _ => true | None => false end.

(** [pattern.finditer(s)]: the leftmost match, then the search resumes
    where it ended.  [skip] counts the characters of the last match still
    to step over. *)
Fixpoint scan (r : regex) (skip : nat) (s : string) : list rmatch :=
  match skip with
  | S skip' =>
      match s with
      | EmptyString => []
      | String _ s' => scan r skip' s'
      end
  | O =>
      match match_at r s with
      | Some (rest, m) =>
          m :: match s with
               | EmptyString => []
               | String _ s' =>
                   scan r (Nat.pred (String.length s - String.length rest)) s'
               end
      | None =>
          match s with
          | EmptyString => []
          | String _ s' => scan r O s'
          end
      end
  end.

Definition finditer (r : regex) (s : string) : list rmatch := scan r O s.

(** Pattern syntax *)
Definition lit (c : ascii) : regex := Class (Ascii.eqb c).
Definition one_of (cs : string) : regex :=
  Class (fun c => existsb (Ascii.eqb c) (list_ascii_of_string cs)).
Definition digit : regex := Class PyStr.isdigit.
Definition space : regex := Class PyStr.isspace.
Definition opt (r : regex) : regex := Repeat 0 (Some 1%nat) r.
Definition star (r : regex) : regex := Repeat 0 None r.
Definition plus (r : regex) : regex := Repeat 1 None r.
Definition between (lo hi : nat) (r : regex) : regex := Repeat lo (Some hi) r.
Fixpoint seq (rs : list regex) : regex :=
  match rs with
  | [] => Empty
  | [r] => r
  | r :: rs' => Seq r (seq rs')
  end.
Fixpoint word (s : string) : regex :=
  match s with
  | EmptyString => Empty
  | String c EmptyString => lit c
  | String c s' => Seq (lit c) (word s')
  end.

End Re.

(* ===================================================================== *)
(** ** pdf_extractor.py *)
(* ===================================================================== *)

Module PdfExtractor.
Import PyStr Re.

(** *** Data *)

Record TaxiwayLabel : Type := mkTaxiwayLabel {
  tl_designator : string;
  tl_x : Q;
  tl_y : Q;
  tl_bbox : Q * Q * Q * Q
}.

Record RunwayInfo : Type := mkRunwayInfo {
  ri_designator : string;
  ri_length_ft : Z;
  ri_width_ft : Z;
  ri_x : Q;
  ri_y : Q;
  ri_surface : string;
  ri_raw_text : string
}.

(** What the page library hands over: [page.rect], [page.get_text()] and
    the blocks of [page.get_text('dict')], a block holding lines of spans
    unless it is an image block, which has no ['lines']. *)
Record span : Type := mkSpan {
  sp_text : string;
  sp_bbox : Q * Q * Q * Q;
  sp_size : Q
}.

Record line : Type := mkLine { ln_spans : list span }.

Record block : Type := mkBlock { bl_lines : option (list line) }.

Record page : Type := mkPage {
  pg_width : Q;
  pg_height : Q;
  pg_text : string;
  pg_blocks : list block
}.

(** *** Patterns *)

Definition taxiway_letter (c : ascii) : bool :=
  in_range "A" "H" c || in_range "J" "N" c || in_range "P" "Z" c.

Definition capital_letter (c : ascii) : bool := in_range "A" "Z" c.

(** [^[A-HJ-NP-Z]{1,2}[A-Z]?$] *)
Definition TAXIWAY_PATTERN : regex :=
  seq [between 1 2 (Class taxiway_letter); opt (Class capital_letter); EndOfString].

(** [\d{1,2}[LCR]?] *)
Definition runway_end : regex := Seq (between 1 2 digit) (opt (one_of "LCR")).

(** [(\d{4,5})\s*[Xx]\s*(\d{2,3})] *)
Definition DIMENSION_PATTERN : regex :=
  seq [Group 1 (between 4 5 digit); star space; one_of "Xx"; star space;
       Group 2 (between 2 3 digit)].

(** [(\d{1,2}[LCR]?)\s*[-/]\s*(\d{1,2}[LCR]?)\s+(\d{4,5})\s*[Xx]\s*(\d{2,3})] *)
Definition RUNWAY_FULL_PATTERN : regex :=
  seq [Group 1 runway_end; star space; one_of "-/"; star space;
       Group 2 runway_end; plus space;
       Group 3 (between 4 5 digit); star space; one_of "Xx"; star space;
       Group 4 (between 2 3 digit)].

(** [\d{1,2}[LCR]?[-/]\d{1,2}[LCR]?] *)
Definition runway_pair : regex := seq [runway_end; one_of "-/"; runway_end].

(** [RWYS?\s+] and then group 1: a pair followed by any number of
    further pairs, each after a comma with optional blanks around it. *)
Definition rwy_pattern : regex :=
  seq [word "RWY"; opt (lit "S"); plus space;
       Group 1 (Seq runway_pair
                    (star (seq [star space; lit ","; star space; runway_pair])))].

(** [(\d{1,2}[LCR]?)[-/](\d{1,2}[LCR]?)] *)
Definition pair_pattern : regex :=
  seq [Group 1 runway_end; one_of "-/"; Group 2 runway_end].

(** *** Taxiway designators *)

Definition false_positives : list string :=
  ["TWY"; "RWY"; "TWR"; "GND"; "DEL"; "APP"; "DEP";
   "NOT"; "FOR"; "USE"; "THE"; "AND"; "FEB"; "JAN";
   "MAR"; "APR"; "MAY"; "JUN"; "JUL"; "AUG"; "SEP";
   "OCT"; "NOV"; "DEC"; "FAA"; "USA"; "NYC"; "LAX"].

Definition is_valid_taxiway_designator (text : string) : bool :=
  let text := upper (strip text) in
  if existsb (String.eqb text) false_positives then false
  else if negb (matches TAXIWAY_PATTERN text) then false
  else if (String.length text =? 1)%nat then true
  else if (String.length text =? 2)%nat then true
  else false.

(** *** Diagram bounds *)

Definition bounds : Type := (Q * Q * Q * Q)%type.

Definition extract_diagram_bounds (p : page) : bounds :=
  let width := pg_width p in
  let height := pg_height p in
  let margin_x := (width * (12 # 100))%Q in
  let margin_top := (height * (10 # 100))%Q in
  let margin_bottom := (height * (8 # 100))%Q in
  (margin_x, margin_top, width - margin_x, height - margin_bottom)%Q.

(** *** Taxiway labels *)

(** [round(q, 0)]: to the nearest whole number, a tie going to the even
    one. *)
Definition py_round (q : Q) : Z :=
  let f := Qfloor q in
  let r := (q - inject_Z f)%Q in
  if Qltb r (1 # 2) then f
  else if Qltb (1 # 2) r then f + 1
  else if Z.even f then f else f + 1.

Definition x_center (sp : span) : Q :=
  let '(b0, b1, b2, b3) := sp_bbox sp in ((b0 + b2) / 2)%Q.

Definition y_center (sp : span) : Q :=
  let '(b0, b1, b2, b3) := sp_bbox sp in ((b1 + b3) / 2)%Q.

(** [x_min < x_center < x_max and y_min < y_center < y_max] *)
Definition inside (b : bounds) (x y : Q) : bool :=
  let '(x_min, y_min, x_max, y_max) := b in
  Qltb x_min x && Qltb x x_max && Qltb y_min y && Qltb y y_max.

Definition pos_key (sp : span) : Z * Z :=
  (py_round (x_center sp), py_round (y_center sp)).

Definition label_of (sp : span) : TaxiwayLabel :=
  mkTaxiwayLabel (upper (strip (sp_text sp))) (x_center sp) (y_center sp) (sp_bbox sp).

(** The loop state: [labels] and [seen_positions]. *)
Definition scan_state : Type := (list TaxiwayLabel * gset (Z * Z))%type.

(** The body of the innermost loop; every [continue] leaves the state as
    it is. *)
Definition span_step (b : bounds) (st : scan_state) (sp : span) : scan_state :=
  let '(labels, seen_positions) := st in
  let text := upper (strip (sp_text sp)) in
  let font_size := sp_size sp in
  if negb (inside b (x_center sp) (y_center sp)) then st
  else if Qltb font_size 4 || Qltb 10 font_size then st
  else if negb (is_valid_taxiway_designator text) then st
  else if bool_decide (pos_key sp ∈ seen_positions) then st
  else ((labels ++ [label_of sp])%list, {[pos_key sp]} ∪ seen_positions).

Definition block_step (b : bounds) (st : scan_state) (bl : block) : scan_state :=
  match bl_lines bl with
  | None => st
  | Some lines =>
      fold_left (fun st ln => fold_left (span_step b) (ln_spans ln) st) lines st
  end.

Definition extract_taxiway_labels (blocks : list block) (b : bounds)
    : list TaxiwayLabel :=
  fst (fold_left (block_step b) blocks ([], ∅)).

(** *** Runways *)

(** [min(...)] and [max(...)] over a non-empty sequence: the first
    smallest (largest) element. *)
Definition min_of (x : Q) (xs : list Q) : Q :=
  fold_left (fun m v => if Qltb v m then v else m) xs x.

Definition max_of (x : Q) (xs : list Q) : Q :=
  fold_left (fun m v => if Qltb m v then v else m) xs x.

Definition bbox0 (sp : span) : Q := let '(b0, _, _, _) := sp_bbox sp in b0.
Definition bbox1 (sp : span) : Q := let '(_, b1, _, _) := sp_bbox sp in b1.
Definition bbox2 (sp : span) : Q := let '(_, _, b2, _) := sp_bbox sp in b2.
Definition bbox3 (sp : span) : Q := let '(_, _, _, b3) := sp_bbox sp in b3.

(** The centre of the box around all spans of a line; [None] for a line
    without spans, where the source records nothing. *)
Definition line_center (line_spans : list span) : option (Q * Q) :=
  match line_spans with
  | [] => None
  | sp :: rest =>
      let x0 := min_of (bbox0 sp) (map bbox0 rest) in
      let y0 := min_of (bbox1 sp) (map bbox1 rest) in
      let x1 := max_of (bbox2 sp) (map bbox2 rest) in
      let y1 := max_of (bbox3 sp) (map bbox3 rest) in
      Some ((x0 + x1) / 2, (y0 + y1) / 2)%Q
  end.

(** [dimension_positions]: keyed by [(length, width)], the first line
    showing a pair wins. *)
Definition positions : Type := gmap (Z * Z) (Q * Q).

Definition record_dimension (line_spans : list span) (d : positions) (m : rmatch)
    : positions :=
  let length := int (group 1 m) in
  let width := int (group 2 m) in
  if length >=? 2000 then
    match line_center line_spans with
    | Some center =>
        match d !! (length, width) with
        | None => <[(length, width) := center]> d
        | Some _ => d
        end
    | None => d
    end
  else d.

Definition line_text (ln : line) : string :=
  fold_left (fun acc sp => acc ++ sp_text sp) (ln_spans ln) "".

Definition line_dimensions (d : positions) (ln : line) : positions :=
  fold_left (record_dimension (ln_spans ln)) (finditer DIMENSION_PATTERN (line_text ln)) d.

Definition block_dimensions (d : positions) (bl : block) : positions :=
  match bl_lines bl with
  | None => d
  | Some lines => fold_left line_dimensions lines d
  end.

Definition dimension_positions (blocks : list block) : positions :=
  fold_left block_dimensions blocks ∅.

(** [dimension_positions.get(key, (0, 0))] *)
Definition position_of (d : positions) (key : Z * Z) : Q * Q :=
  default (0%Q, 0%Q) (d !! key).

(** Method 1: one record per match of the combined pattern. *)
Definition method1 (d : positions) (full_text : string) : list RunwayInfo :=
  map (fun m =>
         let designator := group 1 m ++ "/" ++ group 2 m in
         let length_int := int (group 3 m) in
         let width_int := int (group 4 m) in
         let pos := position_of d (length_int, width_int) in
         mkRunwayInfo designator length_int width_int (fst pos) (snd pos) "" (group0 m))
      (finditer RUNWAY_FULL_PATTERN full_text).

(** Method 2, first list: the designators after RWY / RWYS, each kept
    once, in order of first appearance. *)
Definition add_designator (all_designators : list string) (m : rmatch) : list string :=
  let designator := group 1 m ++ "/" ++ group 2 m in
  if existsb (String.eqb designator) all_designators then all_designators
  else (all_designators ++ [designator])%list.

Definition all_designators (full_text : string) : list string :=
  fold_left
    (fun acc m => fold_left add_designator (finditer pair_pattern (group 1 m)) acc)
    (finditer rwy_pattern full_text) [].

(** Method 2, second list, and the list method 3 walks again: the
    dimensions of at least 2000 ft with their positions. *)
Definition runway_sized (m : rmatch) : bool := int (group 1 m) >=? 2000.

Definition dimension_entry (d : positions) (m : rmatch) : Z * Z * Q * Q :=
  let length := int (group 1 m) in
  let width := int (group 2 m) in
  let pos := position_of d (length, width) in
  (length, width, fst pos, snd pos).

Definition all_dimensions (d : positions) (full_text : string) : list (Z * Z * Q * Q) :=
  map (dimension_entry d) (List.filter runway_sized (finditer DIMENSION_PATTERN full_text)).

Definition matched_runway (designator : string) (dim : Z * Z * Q * Q) : RunwayInfo :=
  let '(length, width, x, y) := dim in
  mkRunwayInfo designator length width x y ""
    (designator ++ ": " ++ str_of_int length ++ " x " ++ str_of_int width).

Definition unknown_runway (dim : Z * Z * Q * Q) : RunwayInfo :=
  let '(length, width, x, y) := dim in
  mkRunwayInfo "Unknown" length width x y ""
    ("Unknown: " ++ str_of_int length ++ " x " ++ str_of_int width).

(** [enumerate(l)] *)
Definition enumerate {A : Type} (l : list A) : list (nat * A) :=
  combine (List.seq 0 (length l)) l.

(** [range(a, b)] *)
Definition range (a b : nat) : list nat := List.seq a (b - a).

(** Method 2: the two loops over indices. *)
Definition method2 (designators : list string) (dimensions : list (Z * Z * Q * Q))
    : list RunwayInfo :=
  let matched :=
    flat_map
      (fun '(i, designator) =>
         if (i <? length dimensions)%nat then
           match dimensions !! i with
           | Some dim => [matched_runway designator dim]
           | None => []
           end
         else [])
      (enumerate designators) in
  let extra :=
    flat_map
      (fun i =>
         match dimensions !! i with
         | Some dim => [unknown_runway dim]
         | None => []
         end)
      (range (length designators) (length dimensions)) in
  (matched ++ extra)%list.

(** Method 3: every runway-sized dimension, without a designator. *)
Definition method3 (d : positions) (full_text : string) : list RunwayInfo :=
  map (fun m =>
         let length := int (group 1 m) in
         let width := int (group 2 m) in
         let pos := position_of d (length, width) in
         mkRunwayInfo "Unknown" length width (fst pos) (snd pos) "" (group0 m))
      (List.filter runway_sized (finditer DIMENSION_PATTERN full_text)).

(** [not runways] *)
Definition is_empty {A : Type} (l : list A) : bool :=
  match l with [] => true | _ => false end.

Definition extract_runway_info (p : page) : list RunwayInfo * list string :=
  let full_text := pg_text p in
  let raw_text := [prefix_n 1500 full_text] in
  let positions := dimension_positions (pg_blocks p) in
  let runways := method1 positions full_text in
  let runways :=
    if is_empty runways
    then (runways ++ method2 (all_designators full_text)
                             (all_dimensions positions full_text))%list
    else runways in
  let runways :=
    if is_empty runways
    then (runways ++ method3 positions full_text)%list
    else runways in
  (runways, raw_text).

(** *** Vector paths *)

Record PathSegment : Type := mkPathSegment {
  ps_x0 : Q;
  ps_y0 : Q;
  ps_x1 : Q;
  ps_y1 : Q;
  ps_width : Q
}.

Record point : Type := mkPoint { pt_x : Q; pt_y : Q }.

(** One entry of [drawing['items']], a tuple led by its kind: ['l'] a
    line between two points, ['c'] a curve, ['re'] a rectangle, ['qu'] a
    quad.  Only a line is looked into. *)
Inductive item : Type :=
  | Line (p1 p2 : point)
  | Curve
  | Rect
  | Quad.

(** One entry of [page.get_drawings()]: the keys ['items'] and ['width']
    may both be absent. *)
Record drawing : Type := mkDrawing {
  dr_items : option (list item);
  dr_width : option Q
}.

(** The body of the inner loop. *)
Definition item_paths (b : bounds) (d : drawing) (it : item) : list PathSegment :=
  let '(x_min, y_min, x_max, y_max) := b in
  match it with
  | Line p1 p2 =>
      let x0 := pt_x p1 in
      let y0 := pt_y p1 in
      let x1 := pt_x p2 in
      let y1 := pt_y p2 in
      if Qltb x_min x0 && Qltb x0 x_max && Qltb x_min x1 && Qltb x1 x_max
         && Qltb y_min y0 && Qltb y0 y_max && Qltb y_min y1 && Qltb y1 y_max
      then [mkPathSegment x0 y0 x1 y1 (default 1%Q (dr_width d))]
      else []
  | _ => []
  end.

Definition extract_vector_paths (drawings : list drawing) (b : bounds)
    : list PathSegment :=
  flat_map
    (fun d =>
       match dr_items d with
       | Some items => flat_map (item_paths b d) items
       | None => []
       end)
    drawings.

(** *** The whole extraction *)

Record ExtractedDiagram : Type := mkExtractedDiagram {
  ed_airport_code : string;
  ed_cycle : string;
  ed_source_file : string;
  ed_page_width : Q;
  ed_page_height : Q;
  ed_taxiway_labels : list TaxiwayLabel;
  ed_runway_info : list RunwayInfo;
  ed_paths : list PathSegment;
  ed_raw_runway_text : list string
}.

(** [extract_from_pdf] for a file that exists and opens: [source_file] is
    the path as given, [filename] its stem, [p] the first page and
    [drawings] what [page.get_drawings()] returns for it. *)
Definition extract_from_pdf
    (source_file filename : string) (p : page) (drawings : list drawing)
    : ExtractedDiagram :=
  let parts := split "_" filename in
  let airport_code := if (1 <=? length parts)%nat then nth 0 parts "" else "UNKNOWN" in
  let cycle := if (2 <=? length parts)%nat then nth 1 parts "" else "UNKNOWN" in
  let bounds := extract_diagram_bounds p in
  let taxiway_labels := extract_taxiway_labels (pg_blocks p) bounds in
  let '(runway_info, raw_runway_text) := extract_runway_info p in
  let paths := extract_vector_paths drawings bounds in
  mkExtractedDiagram airport_code cycle source_file (pg_width p) (pg_height p)
    taxiway_labels runway_info paths raw_runway_text.

(** [to_dict], as the comparison reads the dictionary back: the keys it
    looks up, each of them present.  ([source_file], the page size and
    [raw_runway_text] are written too and never read again.) *)
Definition to_dict (data : ExtractedDiagram) : Comparator.extraction :=
  Comparator.mkExtraction
    (Some (ed_airport_code data))
    (Some (ed_cycle data))
    (Some (map (fun t => Comparator.mkLabel (tl_designator t) (tl_x t) (tl_y t) (tl_bbox t))
               (ed_taxiway_labels data)))
    (Some (map (fun r => Comparator.mkRunway
                           (Some (ri_designator r)) (Some (ri_length_ft r))
                           (Some (ri_width_ft r)) (Some (ri_x r)) (Some (ri_y r))
                           (Some (ri_surface r)) (Some (ri_raw_text r)))
               (ed_runway_info data)))
    (Some (map (fun s => Comparator.mkPath (ps_x0 s) (ps_y0 s) (ps_x1 s) (ps_y1 s) (ps_width s))
               (ed_paths data))).

End PdfExtractor.

(* ===================================================================== *)
(** ** downloader.py *)
(* ===================================================================== *)

Module Downloader.
Import PyStr.

Definition AIRPORTS : PyDict.dict string :=
  [("JFK", "00610"); ("LGA", "00289"); ("EWR", "00285"); ("TEB", "00890");
   ("SWF", "00450"); ("SYR", "00411"); ("YIP", "00467")].

(** [f"{n:02d}"]: at least two characters, a zero put before a lone
    digit; the sign of a negative number counts as a character. *)
Definition fmt02d (n : Z) : string :=
  let s := str_of_int n in
  if (String.length s <? 2)%nat then "0" ++ s else s.

(** [s[n:]] *)
Fixpoint suffix_from (n : nat) (s : string) : string :=
  match n, s with
  | S n', String _ s' => suffix_from n' s'
  | _, _ => s
  end.

(** The digits of [int(s)]: one underscore may stand between two digits,
    nowhere else. *)
Fixpoint int_digits (acc : Z) (after_digit : bool) (s : string) : option Z :=
  match s with
  | EmptyString => if after_digit then Some acc else None
  | String c s' =>
      if isdigit c then int_digits (10 * acc + digit_value c) true s'
      else if Ascii.eqb c "_" && after_digit then int_digits acc false s'
      else None
  end.

(** The blanks that [int] skips: tab to carriage return, and the space
    (fewer than [isspace] knows). *)
Definition int_blank (c : ascii) : bool :=
  ((9 <=? code c) && (code c <=? 13) || (code c =? 32))%N.

Fixpoint skip_blanks (s : string) : string :=
  match s with
  | EmptyString => EmptyString
  | String c s' => if int_blank c then skip_blanks s' else s
  end.

Fixpoint drop_blanks_at_end (s : string) : string :=
  match s with
  | EmptyString => EmptyString
  | String c s' =>
      match drop_blanks_at_end s' with
      | EmptyString => if int_blank c then EmptyString else String c EmptyString
      | r => String c r
      end
  end.

(** [int(s)] for any string: blanks around the number are dropped and one
    sign may lead; [None] stands for [ValueError]. *)
Definition int_of (s : string) : option Z :=
  match drop_blanks_at_end (skip_blanks s) with
  | String "-" r => option_map Z.opp (int_digits 0 false r)
  | String "+" r => int_digits 0 false r
  | r => int_digits 0 false r
  end.

(** The loop [while current_cycle > 13]: every round takes 13 off the
    cycle number, so the cycle number itself bounds the rounds. *)
Fixpoint rollover (rounds : nat) (current_cycle current_year : Z) : Z * Z :=
  match rounds with
  | O => (current_cycle, current_year)
  | S rounds' =>
      if current_cycle >? 13
      then rollover rounds' (current_cycle - 13) (current_year + 1)
      else (current_cycle, current_year)
  end.

(** The cycle number and the year that [get_current_cycle] arrives at,
    [days_since_reference] being the whole days from 2025-12-26 to now. *)
Definition current_cycle_and_year (days_since_reference : Z) : Z * Z :=
  let reference_cycle := 1 in
  let reference_year := 26 in
  let cycles_passed := days_since_reference / 28 in
  let current_cycle := reference_cycle + cycles_passed in
  let current_year := reference_year in
  rollover (Z.to_nat current_cycle) current_cycle current_year.

Definition get_current_cycle (days_since_reference : Z) : string :=
  let '(current_cycle, current_year) := current_cycle_and_year days_since_reference in
  fmt02d current_year ++ fmt02d current_cycle.

Definition get_previous_cycle (current_cycle : string) : option string :=
  match int_of (prefix_n 2 current_cycle), int_of (suffix_from 2 current_cycle) with
  | Some year, Some cycle =>
      if cycle =? 1 then Some (fmt02d (year - 1) ++ "13")
      else Some (fmt02d year ++ fmt02d (cycle - 1))
  | _, _ => None
  end.



End Downloader.

(* ===================================================================== *)
(** ** historical.py *)
(* ===================================================================== *)

Module Historical.
Import PyStr Comparator Downloader.

(** What [find_last_change] returns: the dictionary with ['error'], the
    one with ['found': True] and the one with ['found': False] and a
    message. *)
Inductive outcome : Type :=
  | Failed (error : string)
  | Found (current_cycle last_change_cycle : string) (cycles_searched : Z)
          (taxiways_added taxiways_removed : list string)
          (runway_changes : list string) (comparison : ResultDict)
  | NotFound (current_cycle : string) (cycles_searched : Z) (message : string).

(** [set(label['designator'] for label in data.get('taxiway_labels', []))] *)
Definition designators (data : extraction) : gset string :=
  designator_set (default [] (ex_taxiway_labels data)).

(** The dictionary comprehension over [runway_info]: designators as they
    are written, all but ['Unknown'], each with its pair of length and
    width. *)
Definition runway_dimensions (data : extraction) : PyDict.dict (Z * Z) :=
  fold_left
    (fun (d : PyDict.dict (Z * Z)) (rwy : runway) =>
       let designator := default "" (rw_designator rwy) in
       if negb (String.eqb designator "Unknown")
       then PyDict.set designator (get_length rwy, get_width rwy) d
       else d)
    (default [] (ex_runway_info data)) [].

(** The body of the loop over [current_runways.items()]. *)
Definition dimension_notes (old_runways : PyDict.dict (Z * Z))
    (entry : string * (Z * Z)) : list string :=
  let '(rwy, (cur_len, cur_wid)) := entry in
  match PyDict.get rwy old_runways with
  | Some (old_len, old_wid) =>
      List.app
        (if negb (old_len =? cur_len)
         then [rwy ++ " length: " ++ str_of_int old_len ++ " → "
                 ++ str_of_int cur_len ++ " ft"]
         else [])
        (if negb (old_wid =? cur_wid)
         then [rwy ++ " width: " ++ str_of_int old_wid ++ " → "
                 ++ str_of_int cur_wid ++ " ft"]
         else [])
  | None => []
  end.

Definition key_set (d : PyDict.dict (Z * Z)) : gset string :=
  list_to_set (PyDict.keys d).

(** The list [runway_changes] of one round. *)
Definition runway_notes (old_runways current_runways : PyDict.dict (Z * Z))
    : list string :=
  List.app
    (flat_map (dimension_notes old_runways) (PyDict.items current_runways))
    (List.app
       (map (fun rwy => rwy ++ " added")
            (elements (key_set current_runways ∖ key_set old_runways)))
       (map (fun rwy => rwy ++ " removed")
            (elements (key_set old_runways ∖ key_set current_runways)))).

(** [taxiway_added or taxiway_removed or runway_changes] *)
Definition differs (old_data current_data : extraction) : bool :=
  negb (PdfExtractor.is_empty (elements (designators current_data ∖ designators old_data)))
  || negb (PdfExtractor.is_empty (elements (designators old_data ∖ designators current_data)))
  || negb (PdfExtractor.is_empty
             (runway_notes (runway_dimensions old_data) (runway_dimensions current_data))).

Definition not_found (current_cycle : string) (cycles_searched : Z) : outcome :=
  NotFound current_cycle cycles_searched
    ("No changes found in last " ++ str_of_int cycles_searched ++ " cycles (~"
       ++ str_of_int (cycles_searched * 28) ++ " days)").

Definition found (current_cycle cycle : string) (cycles_searched : Z)
    (old_data current_data : extraction) : outcome :=
  Found current_cycle cycle cycles_searched
    (elements (designators current_data ∖ designators old_data))
    (elements (designators old_data ∖ designators current_data))
    (runway_notes (runway_dimensions old_data) (runway_dimensions current_data))
    (to_dict (compare_extractions old_data current_data)).

Section FindLastChange.

(** [get_extraction], read as the code tests its result: [Some] of a
    dictionary that is there and not empty, [None] for whatever [not]
    takes for missing. *)
Variable get_extraction : string -> string -> option extraction.

(** The whole days from 2025-12-26 to the day of the call. *)
Variable days_since_reference : Z.

(** The loop [while cycles_searched < max_cycles], with [rounds] rounds
    left; [None] is the [ValueError] of [get_previous_cycle]. *)
Fixpoint search (airport_code current_cycle : string) (current_data : extraction)
    (rounds : nat) (cycles_searched : Z) (cycle : string) : option outcome :=
  match rounds with
  | O => Some (not_found current_cycle cycles_searched)
  | S rounds' =>
      let cycles_searched := cycles_searched + 1 in
      match get_extraction airport_code cycle with
      | None => Some (not_found current_cycle cycles_searched)
      | Some old_data =>
          if differs old_data current_data
          then Some (found current_cycle cycle cycles_searched old_data current_data)
          else
            match get_previous_cycle cycle with
            | Some cycle' =>
                search airport_code current_cycle current_data
                  rounds' cycles_searched cycle'
            | None => None
            end
      end
  end.

Definition find_last_change (airport_code : string) (max_cycles : Z) : option outcome :=
  let airport_code := upper airport_code in
  if negb (PyDict.contains airport_code AIRPORTS)
  then Some (Failed ("Unknown airport: " ++ airport_code))
  else
    let current_cycle := get_current_cycle days_since_reference in
    match get_extraction airport_code current_cycle with
    | None => Some (Failed "Could not extract current diagram")
    | Some current_data =>
        match get_previous_cycle current_cycle with
        | Some cycle =>
            search airport_code current_cycle current_data
              (Z.to_nat max_cycles) 0 cycle
        | None => None
        end
    end.

End FindLastChange.

End Historical.

(* ===================================================================== *)
(** ** scheduled_check.py *)
(* ===================================================================== *)

Module ScheduledCheck.
Import PyStr Comparator Downloader.

(** What ends up in [result['error']]. *)
Inductive check_error : Type :=
  | NoError
  | CouldNotExtract
  | Raised.

Record check_result : Type := mkCheckResult {
  cr_airport_code : string;
  cr_has_changes : bool;
  cr_taxiway_changes : list TaxiwayChange;
  cr_runway_changes : list RunwayChange;
  cr_old_cycle : string;
  cr_new_cycle : string;
  cr_error : check_error
}.

(** [check_airport_for_changes], from the point where the downloads and
    extractions have been tried: [extracted cycle] is the content of the
    extraction file of that cycle, if there is one by then. *)
Definition check_airport_for_changes
    (airport_code : string) (days_since_reference : Z)
    (extracted : string -> option extraction) : check_result :=
  let current_cycle := get_current_cycle days_since_reference in
  match get_previous_cycle current_cycle with
  | None => mkCheckResult airport_code false [] [] "" "" Raised
  | Some previous_cycle =>
      match extracted current_cycle, extracted previous_cycle with
      | Some new_data, Some old_data =>
          let comparison := compare_extractions old_data new_data in
          let comparison_dict := to_dict comparison in
          let taxiway_changes := rd_taxiway_changes comparison_dict in
          let runway_changes := rd_runway_changes comparison_dict in
          mkCheckResult airport_code
            ((0 <? length taxiway_changes)%nat || (0 <? length runway_changes)%nat)
            taxiway_changes runway_changes previous_cycle current_cycle NoError
      | _, _ =>
          mkCheckResult airport_code false [] [] previous_cycle current_cycle
            CouldNotExtract
      end
  end.

End ScheduledCheck.


(* ===================================================================== *)
(** ** Vocabulary of the properties *)
(* ===================================================================== *)

Module Spec.
Import PyStr Comparator PdfExtractor.

(** The changes of one kind that a report holds for one designator. *)
Definition taxiway_changes_for
    (k : taxiway_change_type) (d : string) (changes : list TaxiwayChange)
    : list TaxiwayChange :=
  List.filter (fun c => is_taxiway_kind k c && String.eqb (tc_designator c) d) changes.

(** [l] is the first label of [labels] that carries designator [d]. *)
Definition first_occurrence (d : string) (labels : list label) (l : label) : Prop :=
  exists pre post,
    labels = (pre ++ l :: post)%list /\ lbl_designator l = d /\
    Forall (fun l' => lbl_designator l' <> d) pre.



(** [c in s] for a character [c] *)
Fixpoint has_char (c : ascii) (s : string) : bool :=
  match s with
  | EmptyString => false
  | String c' s' => Ascii.eqb c' c || has_char c s'
  end.

(** One end of a runway designator: a string without dash and slash. *)
Definition is_end (s : string) : Prop :=
  has_char "-" s = false /\ has_char "/" s = false.

(** The separator between the two ends: a dash or a slash. *)
Definition is_separator (c : ascii) : Prop := c = "-"%char \/ c = "/"%char.




(** The runway changes that a report holds for one designator. *)
Definition runway_changes_for (d : string) (changes : list RunwayChange)
    : list RunwayChange :=
  List.filter (fun c => String.eqb (rc_designator c) d) changes.

(** A change of kind [k] is reported for designator [d]. *)
Definition reports (k : runway_change_type) (d : string) (changes : list RunwayChange)
    : Prop :=
  exists c, In c changes /\ rc_change_type c = k /\ rc_designator c = d.

(** The shape of a designator that the classifier lets through: one
    letter of A-Z other than I and O, or two letters, the first of A-Z
    other than I and O and the second any of A-Z. *)
Definition code_shape (t : string) : bool :=
  match t with
  | String c1 EmptyString => taxiway_letter c1
  | String c1 (String c2 EmptyString) => taxiway_letter c1 && capital_letter c2
  | _ => false
  end.

(** The shape as the description of the classifier words it: one to three
    letters, each of A-Z other than I and O. *)
Definition claimed_shape (t : string) : bool :=
  (1 <=? String.length t)%nat && (String.length t <=? 3)%nat
  && forallb taxiway_letter (list_ascii_of_string t).

(** A page whose text is the one span [sp]. *)
Definition single_span_page (sp : span) : list block :=
  [mkBlock (Some [mkLine [sp]])].

(** The spans of a page in the order the loops visit them. *)
Definition all_spans (blocks : list block) : list span :=
  flat_map
    (fun bl =>
       match bl_lines bl with
       | None => []
       | Some lines => flat_map ln_spans lines
       end)
    blocks.

(** The conditions under which the classifier lets a span through. *)
Definition passes (sp : span) : Prop :=
  (4 <= sp_size sp)%Q /\ (sp_size sp <= 10)%Q /\
  code_shape (upper (strip (sp_text sp))) = true /\
  ~ In (upper (strip (sp_text sp))) false_positives.

(** The same conditions as a test. *)
Definition passes_test (sp : span) : bool :=
  Qle_bool 4 (sp_size sp) && Qle_bool (sp_size sp) 10
  && code_shape (upper (strip (sp_text sp))).

(** A string that does not start, respectively end, with white space. *)
Definition starts_clean (s : string) : Prop :=
  match s with
  | EmptyString => True
  | String c _ => isspace c = false
  end.

Fixpoint ends_clean (s : string) : Prop :=
  match s with
  | EmptyString => True
  | String c EmptyString => isspace c = false
  | String _ s' => ends_clean s'
  end.

(** Tier 2 in the words of its description: the designators and the
    dimensions zipped by position, then every dimension beyond the
    designator count as an unknown runway. *)
Definition zipped_runways
    (designators : list string) (dimensions : list (Z * Z * Q * Q))
    : list RunwayInfo :=
  (map (fun '(designator, dim) => matched_runway designator dim)
       (combine designators dimensions)
   ++ map unknown_runway (drop (length designators) dimensions))%list.






(** [diff = count(new paths) - count(old paths)] *)
Definition path_diff (old_paths new_paths : list path) : Z :=
  Z.of_nat (length new_paths) - Z.of_nat (length old_paths).

(** *** Vocabulary of the further properties *)

(** Some change of kind [k] is reported for the designator [d] at the
    point [(x, y)]. *)
Definition reports_taxiway (k : taxiway_change_type) (d : string) (x y : Q)
    (changes : list TaxiwayChange) : Prop :=
  exists c, In c changes /\ tc_change_type c = k /\ tc_designator c = d /\
            tc_x c = x /\ tc_y c = y.

(** Some rename from [o] to [d] is reported at the point [(x, y)]. *)
Definition reports_rename (o d : string) (x y : Q)
    (changes : list TaxiwayChange) : Prop :=
  exists c, In c changes /\ tc_change_type c = RENAMED /\
            tc_old_designator c = o /\ tc_designator c = d /\
            tc_x c = x /\ tc_y c = y.

(** The place of a kind in the report: ADDED entries, then REMOVED ones,
    then RENAMED ones. *)
Definition kind_rank (k : taxiway_change_type) : nat :=
  match k with ADDED => 0 | REMOVED => 1 | RENAMED => 2 end.

(** The key under which a runway record is compared. *)
Definition normalized_designator (rwy : runway) : string :=
  normalize_runway_designator (default "" (rw_designator rwy)).

(** The record has a designator to be compared under. *)
Definition is_named (rwy : runway) : bool :=
  negb (String.eqb (normalized_designator rwy) "")
  && negb (String.eqb (normalized_designator rwy) "UNKNOWN").

(** The last record of the list that is compared under [d]. *)
Definition last_named (d : string) (runways : list runway) : option runway :=
  find (fun r => String.eqb (normalized_designator r) d)
       (rev (List.filter is_named runways)).

(** Some record of the list is compared under [d]. *)
Definition knows (runways : list runway) (d : string) : Prop :=
  exists r, In r runways /\ is_named r = true /\ normalized_designator r = d.

(** The whole-number position under which a label was checked against
    [seen_positions]. *)
Definition label_key (l : TaxiwayLabel) : Z * Z :=
  (py_round (tl_x l), py_round (tl_y l)).

(** The dimension and position that a runway record carries. *)
Definition dimension_of (r : RunwayInfo) : Z * Z * Q * Q :=
  (ri_length_ft r, ri_width_ft r, ri_x r, ri_y r).

(** A line segment of a drawing that lies inside the bounds, as the
    segment recorded for it. *)
Definition segment_of (d : drawing) (p1 p2 : point) : PathSegment :=
  mkPathSegment (pt_x p1) (pt_y p1) (pt_x p2) (pt_y p2) (default 1%Q (dr_width d)).

(** All the line items of the drawings. *)
Definition line_items (drawings : list drawing) : list item :=
  flat_map
    (fun d => List.filter (fun it => match it with Line _ _ => true | _ => false end)
                          (default [] (dr_items d)))
    drawings.

(** The state of the label loop once the spans [done] have been gone
    through: every label comes from one of them, which lay inside the
    bounds and passed the tests; [seen_positions] holds the positions of
    the labels and nothing else; no position occurs twice. *)
Definition label_state_ok (b : bounds) (done : list span) (st : scan_state) : Prop :=
  let '(labels, seen) := st in
  Forall (fun l => exists sp, In sp done /\ l = label_of sp /\
                     inside b (x_center sp) (y_center sp) = true /\
                     passes_test sp = true) labels /\
  (forall k, k ∈ seen <-> In k (map label_key labels)) /\
  List.NoDup (map label_key labels) /\
  (length labels <= length done)%nat.

(** The code of a year and a cycle number, [f"{year:02d}{cycle:02d}"]. *)
Definition cycle_code (year cycle : Z) : string := Downloader.fmt02d year ++ Downloader.fmt02d cycle.

(** The cycle before cycle [cycle] of year [year]: a year has 13. *)
Definition cycle_before (year cycle : Z) : Z * Z :=
  if cycle =? 1 then (year - 1, 13) else (year, cycle - 1).

(** [get_previous_cycle] applied [n] times. *)
Fixpoint nth_previous (n : nat) (cycle : string) : option string :=
  match n with
  | O => Some cycle
  | S n' =>
      match Downloader.get_previous_cycle cycle with
      | Some previous => nth_previous n' previous
      | None => None
      end
  end.

(** [get_previous_cycle] answers for year [year] and cycle [cycle] as
    [cycle_before] says. *)
Definition previous_agrees (year cycle : Z) : bool :=
  match Downloader.get_previous_cycle (cycle_code year cycle) with
  | Some s =>
      String.eqb s (cycle_code (fst (cycle_before year cycle))
                               (snd (cycle_before year cycle)))
  | None => false
  end.

(** The whole numbers from 0 up to, not including, [n]. *)
Definition below (n : nat) : list Z := map Z.of_nat (List.seq 0 n).

(** The cycle [j] steps before [cycle] has an extraction, and the quick
    check finds it no different from the current one. *)
Definition same_as_current (get_extraction : string -> string -> option extraction)
    (airport_code : string) (current_data : extraction) (cycle : string) (j : nat)
    : Prop :=
  exists cycle_j data_j,
    nth_previous j cycle = Some cycle_j /\
    get_extraction airport_code cycle_j = Some data_j /\
    Historical.differs data_j current_data = false.

End Spec.

(* ===================================================================== *)
(** ** Lists *)
(* ===================================================================== *)

Module ListFacts.

Lemma flat_map_nil_all {A B : Type} (f : A -> list B) (l : list A) :
  (forall a, In a l -> f a = []) -> flat_map f l = [].
Proof.
  induction l as [|a l IH]; intros H; simpl; [reflexivity|].
  rewrite (H a) by (left; reflexivity).
  apply IH. intros b Hb. apply H. right. exact Hb.
Qed.

Lemma filter_nil_all {A : Type} (p : A -> bool) (l : list A) :
  (forall a, In a l -> p a = false) -> List.filter p l = [].
Proof.
  induction l as [|a l IH]; intros H; simpl; [reflexivity|].
  rewrite (H a) by (left; reflexivity).
  apply IH. intros b Hb. apply H. right. exact Hb.
Qed.

Lemma filter_id_all {A : Type} (p : A -> bool) (l : list A) :
  (forall a, In a l -> p a = true) -> List.filter p l = l.
Proof.
  induction l as [|a l IH]; intros H; simpl; [reflexivity|].
  rewrite (H a) by (left; reflexivity).
  f_equal. apply IH. intros b Hb. apply H. right. exact Hb.
Qed.

Lemma filter_flat_map {A B : Type} (p : B -> bool) (f : A -> list B) (l : list A) :
  List.filter p (flat_map f l) = flat_map (fun a => List.filter p (f a)) l.
Proof.
  induction l as [|a l IH]; simpl; [reflexivity|].
  rewrite List.filter_app, IH. reflexivity.
Qed.

(** Of a list without repetition, only the entry [a] contributes when
    every other entry contributes nothing. *)
Lemma flat_map_single {A B : Type} (g : A -> list B) (l : list A) (a : A) :
  List.NoDup l -> In a l ->
  (forall b, In b l -> b <> a -> g b = []) ->
  flat_map g l = g a.
Proof.
  induction l as [|x l IH]; intros Hnd Hin Hg; [destruct Hin|].
  inversion Hnd as [|? ? Hx Hnd']; subst. simpl.
  destruct Hin as [->|Hin].
  - rewrite (flat_map_nil_all g l), List.app_nil_r; [reflexivity|].
    intros b Hb. apply Hg; [right; exact Hb|].
    intros ->. exact (Hx Hb).
  - rewrite (Hg x); [|left; reflexivity|intros ->; exact (Hx Hin)].
    simpl. apply IH; [exact Hnd'|exact Hin|].
    intros b Hb. apply Hg. right. exact Hb.
Qed.

End ListFacts.

(* ===================================================================== *)
(** ** Geometry changes *)
(* ===================================================================== *)

Module GeometryFacts.
Import PyStr Comparator Spec ListFacts.

Lemma compare_geometry_cases (old_paths new_paths : list path) :
  compare_geometry old_paths new_paths =
    if 50 <? path_diff old_paths new_paths
    then [geometry_added (path_diff old_paths new_paths)]
    else if path_diff old_paths new_paths <? -50
         then [geometry_removed (path_diff old_paths new_paths)]
         else [].
Proof.
  unfold compare_geometry, path_diff.
  set (d := Z.of_nat (length new_paths) - Z.of_nat (length old_paths)).
  destruct (Z.ltb_spec 50 d), (Z.ltb_spec d (-50)),
    (Z.gtb_spec (Z.abs d) 50), (Z.gtb_spec d 0); try reflexivity; lia.
Qed.

(** C5: with [diff = count(new paths) - count(old paths)], the geometry
    comparison reports exactly one change when [|diff| > 50]: a
    GEOMETRY_ADDED whose text carries the magnitude [diff] when [diff > 0],
    a GEOMETRY_REMOVED whose text carries [-diff] when [diff < 0]; it
    reports nothing when [|diff| <= 50].  100 old paths against 150 new
    ones give no change, 100 against 151 give one GEOMETRY_ADDED of
    magnitude 51. *)
Theorem compare_geometry_threshold :
  (forall old_paths new_paths : list path,
     let diff := path_diff old_paths new_paths in
     (Z.abs diff <= 50 -> compare_geometry old_paths new_paths = []) /\
     (50 < diff ->
      compare_geometry old_paths new_paths =
        [mkGeometryChange GEOMETRY_ADDED 0%Q 0%Q
           ("Approximately " ++ str_of_int diff
              ++ " new path segments added (possible new taxiway geometry)")]) /\
     (diff < -50 ->
      compare_geometry old_paths new_paths =
        [mkGeometryChange GEOMETRY_REMOVED 0%Q 0%Q
           ("Approximately " ++ str_of_int (- diff)
              ++ " path segments removed (possible taxiway removal)")])) /\
  (forall old_paths new_paths : list path,
     length old_paths = 100%nat -> length new_paths = 150%nat ->
     compare_geometry old_paths new_paths = []) /\
  (forall old_paths new_paths : list path,
     length old_paths = 100%nat -> length new_paths = 151%nat ->
     compare_geometry old_paths new_paths =
       [mkGeometryChange GEOMETRY_ADDED 0%Q 0%Q
          "Approximately 51 new path segments added (possible new taxiway geometry)"]).
Proof.
  split; [|split].
  - intros old_paths new_paths diff. rewrite compare_geometry_cases. fold diff.
    repeat split; intros H;
      destruct (Z.ltb_spec 50 diff), (Z.ltb_spec diff (-50)); try reflexivity; lia.
  - intros old_paths new_paths Ho Hn. rewrite compare_geometry_cases.
    unfold path_diff. rewrite Ho, Hn. reflexivity.
  - intros old_paths new_paths Ho Hn. rewrite compare_geometry_cases.
    unfold path_diff. rewrite Ho, Hn. reflexivity.
Qed.

(** The threshold at work on lists of 100, 150 and 151 segments. *)
Lemma compare_geometry_threshold_witness :
  let seg := mkPath 0 0 1 1 1 in
  compare_geometry (repeat seg 100) (repeat seg 150) = [] /\
  compare_geometry (repeat seg 100) (repeat seg 151) =
    [mkGeometryChange GEOMETRY_ADDED 0%Q 0%Q
       "Approximately 51 new path segments added (possible new taxiway geometry)"] /\
  compare_geometry (repeat seg 151) (repeat seg 100) =
    [mkGeometryChange GEOMETRY_REMOVED 0%Q 0%Q
       "Approximately 51 path segments removed (possible taxiway removal)"].
Proof.
  intros seg.
  split; [|split].
  - apply (proj1 (proj2 compare_geometry_threshold)); apply List.repeat_length.
  - apply (proj2 (proj2 compare_geometry_threshold)); apply List.repeat_length.
  - apply (proj2 (proj2 (proj1 compare_geometry_threshold
                           (repeat seg 151) (repeat seg 100)))).
    vm_compute. reflexivity.
Defined.

(** C10: every geometry change is placed at the origin, whatever the
    paths are. *)
Theorem compare_geometry_position_origin (old_paths new_paths : list path) :
  Forall (fun c => gc_x c = 0%Q /\ gc_y c = 0%Q)
         (compare_geometry old_paths new_paths).
Proof.
  rewrite compare_geometry_cases.
  destruct (50 <? path_diff old_paths new_paths);
    [|destruct (path_diff old_paths new_paths <? -50)];
    repeat constructor.
Qed.

End GeometryFacts.

(* ===================================================================== *)
(** ** Taxiway changes *)
(* ===================================================================== *)

Module TaxiwayFacts.
Import PyStr Comparator Spec ListFacts.

Lemma elem_of_designator_set (d : string) (labels : list label) :
  d ∈ designator_set labels <-> exists l, In l labels /\ lbl_designator l = d.
Proof.
  unfold designator_set. rewrite elem_of_list_to_set, list_elem_of_In, in_map_iff.
  split; intros [l [H1 H2]]; exists l; auto.
Qed.

Lemma first_label_first (d : string) (labels : list label) (l : label) :
  first_label d labels = Some l -> first_occurrence d labels l.
Proof.
  unfold first_label, first_occurrence.
  induction labels as [|x labels IH]; simpl; [discriminate|].
  destruct (String.eqb_spec (lbl_designator x) d) as [E|E].
  - intros [= <-]. exists [], labels. repeat split; [exact E|constructor].
  - intros H. destruct (IH H) as (pre & post & -> & Hd & Hpre).
    exists (x :: pre), post. repeat split; [exact Hd|].
    constructor; assumption.
Qed.

Lemma first_label_found (d : string) (labels : list label) :
  d ∈ designator_set labels -> exists l, first_label d labels = Some l.
Proof.
  rewrite elem_of_designator_set. intros (l & Hin & Hd).
  unfold first_label.
  destruct (find _ labels) as [l'|] eqn:F; [eauto|].
  apply (find_none _ _ F) in Hin. rewrite Hd, String.eqb_refl in Hin. discriminate.
Qed.

(** What one pass of the ADDED / REMOVED loops contributes for [d]. *)
Lemma report_first_for (k : taxiway_change_type)
    (mk : string -> label -> TaxiwayChange) (labels : list label) (d d' : string) :
  (forall e l, tc_designator (mk e l) = e) ->
  d' <> d ->
  List.filter (fun c => is_taxiway_kind k c && String.eqb (tc_designator c) d)
              (report_first mk labels d') = [].
Proof.
  intros Hmk Hne. unfold report_first.
  destruct (first_label d' labels); [|reflexivity].
  simpl. rewrite Hmk.
  destruct (String.eqb_spec d' d); [contradiction|].
  rewrite andb_false_r. reflexivity.
Qed.

Lemma pass_for (k : taxiway_change_type)
    (mk : string -> label -> TaxiwayChange) (labels : list label)
    (X : gset string) (d : string) :
  (forall e l, tc_designator (mk e l) = e) ->
  (forall e l, tc_change_type (mk e l) = k) ->
  taxiway_changes_for k d (flat_map (report_first mk labels) (elements X)) =
    if bool_decide (d ∈ X)
    then match first_label d labels with Some l => [mk d l] | None => [] end
    else [].
Proof.
  intros Hd Hk. unfold taxiway_changes_for. rewrite filter_flat_map.
  case_bool_decide as Hin.
  - rewrite (flat_map_single _ (elements X) d).
    + unfold report_first.
      destruct (first_label d labels) as [l|]; [|reflexivity].
      simpl. rewrite Hd, String.eqb_refl.
      unfold is_taxiway_kind. rewrite Hk. destruct k; reflexivity.
    + apply NoDup_ListNoDup, NoDup_elements.
    + apply list_elem_of_In, elem_of_elements, Hin.
    + intros b _ Hb. apply report_first_for; assumption.
  - apply flat_map_nil_all. intros b Hb.
    apply report_first_for; [assumption|].
    intros ->. apply Hin, elem_of_elements, list_elem_of_In, Hb.
Qed.

Lemma pass_other (k k' : taxiway_change_type)
    (mk : string -> label -> TaxiwayChange) (labels : list label)
    (ds : list string) (d : string) :
  (forall e l, tc_change_type (mk e l) = k') ->
  k <> k' ->
  taxiway_changes_for k d (flat_map (report_first mk labels) ds) = [].
Proof.
  intros Hk Hne. unfold taxiway_changes_for. apply filter_nil_all.
  intros c Hc. apply in_flat_map in Hc as (e & _ & Hc).
  unfold report_first in Hc. destruct (first_label e labels); [|destruct Hc].
  destruct Hc as [<-|[]].
  unfold is_taxiway_kind. rewrite Hk.
  destruct k, k'; try reflexivity; contradiction.
Qed.

(** The members of the RENAMED pass. *)
Lemma in_renamed_pass (Dold Dnew : gset string) (old_labels new_labels : list label)
    (c : TaxiwayChange) :
  In c (flat_map
          (fun old_label =>
             flat_map
               (fun new_label =>
                  if rename_test Dold Dnew old_label new_label
                  then [renamed_change old_label new_label] else [])
               (find_nearby_labels old_label new_labels))
          old_labels) <->
  exists o n,
    In o old_labels /\ In n new_labels /\
    distance_lt (lbl_x o) (lbl_y o) (lbl_x n) (lbl_y n) LOCATION_THRESHOLD = true /\
    rename_test Dold Dnew o n = true /\ c = renamed_change o n.
Proof.
  rewrite in_flat_map. split.
  - intros (o & Ho & Hc). apply in_flat_map in Hc as (n & Hn & Hc).
    unfold find_nearby_labels, find_nearby_labels_within in Hn.
    apply List.filter_In in Hn as [Hn Hnear].
    destruct (rename_test Dold Dnew o n) eqn:T; [|destruct Hc].
    destruct Hc as [<-|[]]. exists o, n. auto.
  - intros (o & n & Ho & Hn & Hnear & T & ->). exists o. split; [exact Ho|].
    apply in_flat_map. exists n. split.
    + apply List.filter_In. split; assumption.
    + rewrite T. left. reflexivity.
Qed.

Lemma rename_test_true (Dold Dnew : gset string) (o n : label) :
  rename_test Dold Dnew o n = true <->
  lbl_designator o <> lbl_designator n /\
  (lbl_designator o ∉ Dnew) /\ (lbl_designator n ∉ Dold).
Proof.
  unfold rename_test. rewrite !andb_true_iff, !negb_true_iff.
  rewrite !bool_decide_eq_false.
  destruct (String.eqb_spec (lbl_designator o) (lbl_designator n)); intuition congruence.
Qed.

Lemma renamed_pass_other (k : taxiway_change_type) (d : string)
    (Dold Dnew : gset string) (old_labels new_labels : list label) :
  k <> RENAMED ->
  taxiway_changes_for k d
    (flat_map
       (fun old_label =>
          flat_map
            (fun new_label =>
               if rename_test Dold Dnew old_label new_label
               then [renamed_change old_label new_label] else [])
            (find_nearby_labels old_label new_labels))
       old_labels) = [].
Proof.
  intros Hk. unfold taxiway_changes_for. apply filter_nil_all.
  intros c Hc. apply in_renamed_pass in Hc as (o & n & _ & _ & _ & _ & ->).
  destruct k; try reflexivity. contradiction.
Qed.

Lemma taxiway_changes_for_app (k : taxiway_change_type) (d : string)
    (l1 l2 : list TaxiwayChange) :
  taxiway_changes_for k d (l1 ++ l2) =
  (taxiway_changes_for k d l1 ++ taxiway_changes_for k d l2)%list.
Proof. apply List.filter_app. Qed.

Lemma added_for (old_labels new_labels : list label) (d : string) :
  taxiway_changes_for ADDED d (compare_taxiway_labels old_labels new_labels) =
    if bool_decide (d ∈ designator_set new_labels ∖ designator_set old_labels)
    then match first_label d new_labels with
         | Some l => [added_change d l]
         | None => []
         end
    else [].
Proof.
  unfold compare_taxiway_labels. cbv zeta.
  rewrite !taxiway_changes_for_app.
  rewrite (pass_for ADDED added_change); [|reflexivity|reflexivity].
  rewrite (pass_other ADDED REMOVED removed_change); [|reflexivity|discriminate].
  rewrite renamed_pass_other by discriminate.
  rewrite !List.app_nil_r. reflexivity.
Qed.

Lemma removed_for (old_labels new_labels : list label) (d : string) :
  taxiway_changes_for REMOVED d (compare_taxiway_labels old_labels new_labels) =
    if bool_decide (d ∈ designator_set old_labels ∖ designator_set new_labels)
    then match first_label d old_labels with
         | Some l => [removed_change d l]
         | None => []
         end
    else [].
Proof.
  unfold compare_taxiway_labels. cbv zeta.
  rewrite !taxiway_changes_for_app.
  rewrite (pass_other REMOVED ADDED added_change); [|reflexivity|discriminate].
  rewrite (pass_for REMOVED removed_change); [|reflexivity|reflexivity].
  rewrite renamed_pass_other by discriminate.
  rewrite List.app_nil_r. reflexivity.
Qed.

(** C1: for every pair of label lists and every designator [d], the report
    holds exactly one ADDED change for [d] when [d] is in the new
    designator set and not in the old one, placed at the first label of the
    new list that carries [d], and no ADDED change for [d] otherwise (so
    none for a designator of the old set); and the same for REMOVED with
    the two lists exchanged. *)
Theorem added_removed_once (old_labels new_labels : list label) (d : string) :
  let changes := compare_taxiway_labels old_labels new_labels in
  let Dold := designator_set old_labels in
  let Dnew := designator_set new_labels in
  (d ∈ Dnew ∖ Dold ->
   exists l, first_occurrence d new_labels l /\
     taxiway_changes_for ADDED d changes =
       [mkTaxiwayChange ADDED d "" (lbl_x l) (lbl_y l)
          ("New taxiway '" ++ d ++ "' added")]) /\
  (d ∉ Dnew ∖ Dold -> taxiway_changes_for ADDED d changes = []) /\
  (d ∈ Dold ∖ Dnew ->
   exists l, first_occurrence d old_labels l /\
     taxiway_changes_for REMOVED d changes =
       [mkTaxiwayChange REMOVED d d (lbl_x l) (lbl_y l)
          ("Taxiway '" ++ d ++ "' removed")]) /\
  (d ∉ Dold ∖ Dnew -> taxiway_changes_for REMOVED d changes = []).
Proof.
  intros changes Dold Dnew. subst changes Dold Dnew.
  rewrite added_for, removed_for.
  repeat split; intros H.
  - rewrite bool_decide_eq_true_2 by exact H.
    destruct (first_label_found d new_labels) as [l Hl];
      [apply elem_of_difference in H; tauto|].
    exists l. rewrite Hl. split; [apply first_label_first, Hl|reflexivity].
  - rewrite bool_decide_eq_false_2 by exact H. reflexivity.
  - rewrite bool_decide_eq_true_2 by exact H.
    destruct (first_label_found d old_labels) as [l Hl];
      [apply elem_of_difference in H; tauto|].
    exists l. rewrite Hl. split; [apply first_label_first, Hl|reflexivity].
  - rewrite bool_decide_eq_false_2 by exact H. reflexivity.
Qed.

(** A set with the members shown is given by its membership test. *)
Ltac by_membership :=
  match goal with
  | |- ?x ∉ ?X => apply (proj1 (bool_decide_eq_false (x ∈ X))); vm_compute; reflexivity
  | |- ?P => apply (bool_decide_unpack P); vm_compute; exact I
  end.

(** One new designator, one removed one and one kept one. *)
Lemma added_removed_once_witness :
  let lab := fun d x y => mkLabel d (inject_Z x) (inject_Z y) (0, 0, 0, 0)%Q in
  let old_labels := [lab "Z" 50 50; lab "C" 10 10] in
  let new_labels := [lab "C" 10 10; lab "Y" 100 200; lab "Y" 300 400] in
  let changes := compare_taxiway_labels old_labels new_labels in
  (exists l, first_occurrence "Y" new_labels l /\
     taxiway_changes_for ADDED "Y" changes =
       [mkTaxiwayChange ADDED "Y" "" (lbl_x l) (lbl_y l) "New taxiway 'Y' added"]) /\
  (exists l, first_occurrence "Z" old_labels l /\
     taxiway_changes_for REMOVED "Z" changes =
       [mkTaxiwayChange REMOVED "Z" "Z" (lbl_x l) (lbl_y l) "Taxiway 'Z' removed"]) /\
  taxiway_changes_for ADDED "C" changes = [] /\
  taxiway_changes_for REMOVED "C" changes = [].
Proof.
  intros lab old_labels new_labels changes.
  pose proof (added_removed_once old_labels new_labels "Y") as (HY & _).
  pose proof (added_removed_once old_labels new_labels "Z") as (_ & _ & HZ & _).
  pose proof (added_removed_once old_labels new_labels "C") as (_ & HC1 & _ & HC2).
  split; [|split; [|split]].
  - apply HY. by_membership.
  - apply HZ. by_membership.
  - apply HC1. by_membership.
  - apply HC2. by_membership.
Defined.


Lemma in_report_first_kind (k : taxiway_change_type)
    (mk : string -> label -> TaxiwayChange) (labels : list label)
    (ds : list string) (c : TaxiwayChange) :
  (forall e l, tc_change_type (mk e l) = k) ->
  In c (flat_map (report_first mk labels) ds) -> tc_change_type c = k.
Proof.
  intros Hk Hc. apply in_flat_map in Hc as (e & _ & Hc).
  unfold report_first in Hc. destruct (first_label e labels); [|destruct Hc].
  destruct Hc as [<-|[]]. apply Hk.
Qed.

(** The RENAMED changes of a report are those of the third pass. *)
Lemma in_compare_renamed (old_labels new_labels : list label) (c : TaxiwayChange) :
  In c (compare_taxiway_labels old_labels new_labels) /\ tc_change_type c = RENAMED <->
  exists o n,
    In o old_labels /\ In n new_labels /\
    distance_lt (lbl_x o) (lbl_y o) (lbl_x n) (lbl_y n) LOCATION_THRESHOLD = true /\
    rename_test (designator_set old_labels) (designator_set new_labels) o n = true /\
    c = renamed_change o n.
Proof.
  unfold compare_taxiway_labels. cbv zeta. rewrite !in_app_iff, in_renamed_pass.
  split.
  - intros [[H|[H|H]] Hk]; [| |exact H].
    + apply (in_report_first_kind ADDED) in H; [congruence|reflexivity].
    + apply (in_report_first_kind REMOVED) in H; [congruence|reflexivity].
  - intros H. split; [right; right; exact H|].
    destruct H as (o & n & _ & _ & _ & _ & ->). reflexivity.
Qed.



(** A label list compared with itself: nothing to report. *)
Lemma compare_taxiway_labels_self (labels : list label) :
  compare_taxiway_labels labels labels = [].
Proof.
  unfold compare_taxiway_labels. cbv zeta.
  rewrite difference_diag_L, elements_empty. simpl.
  apply flat_map_nil_all. intros o Ho.
  apply flat_map_nil_all. intros n Hn.
  destruct (rename_test _ _ o n) eqn:T; [|reflexivity].
  apply rename_test_true in T as (_ & T & _).
  exfalso. apply T. apply elem_of_designator_set. exists o. auto.
Qed.

End TaxiwayFacts.

(* ===================================================================== *)
(** ** Dictionaries *)
(* ===================================================================== *)

Module PyDictFacts.
Import PyDict.

Section Facts.
Context {V : Type}.
Implicit Types (d : dict V) (k : string) (v : V).

Lemma get_set_eq k v d : get k (set k v d) = Some v.
Proof.
  induction d as [|[k' v'] d IH]; simpl.
  - rewrite String.eqb_refl. reflexivity.
  - destruct (String.eqb k' k) eqn:E; simpl; rewrite E; [reflexivity|exact IH].
Qed.

Lemma get_set_ne k k' v d : k <> k' -> get k' (set k v d) = get k' d.
Proof.
  intros Hne. induction d as [|[k0 v0] d IH]; simpl.
  - destruct (String.eqb_spec k k'); [contradiction|reflexivity].
  - destruct (String.eqb_spec k0 k) as [->|E]; simpl.
    + destruct (String.eqb_spec k k'); [contradiction|reflexivity].
    + rewrite IH. reflexivity.
Qed.

Lemma in_keys_set k k' v d : In k' (keys (set k v d)) <-> k' = k \/ In k' (keys d).
Proof.
  unfold keys. induction d as [|[k0 v0] d IH]; simpl.
  - intuition.
  - destruct (String.eqb_spec k0 k) as [->|E]; simpl; [intuition|].
    rewrite IH. intuition.
Qed.

Lemma NoDup_keys_set k v d : List.NoDup (keys d) -> List.NoDup (keys (set k v d)).
Proof.
  unfold keys. induction d as [|[k0 v0] d IH]; simpl; intros Hnd.
  - constructor; [intros []|constructor].
  - inversion Hnd as [|? ? Hk0 Hnd']; subst.
    destruct (String.eqb_spec k0 k) as [->|E]; simpl.
    + constructor; assumption.
    + constructor; [|apply IH, Hnd'].
      intros Hin. apply (in_keys_set k k0 v d) in Hin as [->|Hin]; auto.
Qed.

Lemma get_In k v d : get k d = Some v -> In (k, v) d.
Proof.
  induction d as [|[k0 v0] d IH]; simpl; [discriminate|].
  destruct (String.eqb_spec k0 k) as [->|E].
  - intros [= ->]. left. reflexivity.
  - intros H. right. apply IH, H.
Qed.

Lemma In_get k v d : List.NoDup (keys d) -> In (k, v) d -> get k d = Some v.
Proof.
  unfold keys. induction d as [|[k0 v0] d IH]; simpl; intros Hnd Hin; [destruct Hin|].
  inversion Hnd as [|? ? Hk0 Hnd']; subst.
  destruct Hin as [[= -> ->]|Hin].
  - rewrite String.eqb_refl. reflexivity.
  - destruct (String.eqb_spec k0 k) as [->|E]; [|apply IH; assumption].
    exfalso. apply Hk0. apply in_map_iff. exists (k, v). auto.
Qed.

Lemma NoDup_items d : List.NoDup (keys d) -> List.NoDup (items d).
Proof.
  unfold keys, items. induction d as [|[k0 v0] d IH]; simpl; intros Hnd; [constructor|].
  inversion Hnd as [|? ? Hk0 Hnd']; subst.
  constructor; [|apply IH, Hnd'].
  intros Hin. apply Hk0. apply in_map_iff. exists (k0, v0). auto.
Qed.

Lemma contains_true k d : contains k d = true <-> exists v, get k d = Some v.
Proof.
  unfold contains. destruct (get k d) as [v|].
  - split; [eauto|reflexivity].
  - split; [discriminate|intros [v [=]]].
Qed.

End Facts.
End PyDictFacts.

(* ===================================================================== *)
(** ** Runway changes *)
(* ===================================================================== *)

Module RunwayFacts.
Import PyStr Comparator Spec ListFacts PyDictFacts.

Lemma NoDup_by_designator (runways : list runway) :
  List.NoDup (PyDict.keys (by_designator runways)).
Proof.
  unfold by_designator.
  assert (G : forall (acc : PyDict.dict runway),
             List.NoDup (PyDict.keys acc) ->
             List.NoDup (PyDict.keys
               (fold_left
                  (fun (d : PyDict.dict runway) (rwy : runway) =>
                     let norm := normalize_runway_designator (default "" (rw_designator rwy)) in
                     if negb (String.eqb norm "") && negb (String.eqb norm "UNKNOWN")
                     then PyDict.set norm rwy d
                     else d)
                  runways acc))).
  { induction runways as [|r runways IH]; intros acc Hacc; simpl; [exact Hacc|].
    apply IH. destruct (negb _ && negb _); [apply NoDup_keys_set|]; exact Hacc. }
  apply G. constructor.
Qed.

Lemma dimension_differs_true (a b : Z) :
  dimension_differs a b = true <-> a <> b /\ 0 < a /\ 0 < b.
Proof.
  unfold dimension_differs. rewrite !andb_true_iff, negb_true_iff, Z.eqb_neq.
  rewrite !Z.gtb_ltb, !Z.ltb_lt. tauto.
Qed.

Lemma dimension_differs_same (a : Z) : dimension_differs a a = false.
Proof. unfold dimension_differs. rewrite Z.eqb_refl. reflexivity. Qed.

Lemma dimension_changes_designator (d : string) (o n : runway) (c : RunwayChange) :
  In c (dimension_changes d o n) -> rc_designator c = d.
Proof.
  unfold dimension_changes. rewrite in_app_iff.
  intros [H|H];
    [destruct (dimension_differs (get_length o) (get_length n))
    |destruct (dimension_differs (get_width o) (get_width n))];
    try destruct H as [<-|[]]; try destruct H; reflexivity.
Qed.

(** Filtering a pass keyed by designator: entries under another key drop
    out. *)
Lemma keyed_pass_other (d : string) (g : string * runway -> list RunwayChange)
    (kv : string * runway) :
  (forall c, In c (g kv) -> rc_designator c = fst kv) ->
  fst kv <> d ->
  runway_changes_for d (g kv) = [].
Proof.
  intros Hg Hne. apply filter_nil_all. intros c Hc.
  rewrite (Hg c Hc). destruct (String.eqb_spec (fst kv) d); [contradiction|reflexivity].
Qed.

Lemma keyed_pass_same (d : string) (l : list RunwayChange) :
  (forall c, In c l -> rc_designator c = d) -> runway_changes_for d l = l.
Proof.
  intros Hl. apply filter_id_all. intros c Hc.
  rewrite (Hl c Hc). apply String.eqb_refl.
Qed.

(** For a designator of both lookup maps, the report holds the dimension
    changes of its two records and nothing else. *)
Lemma changes_for_common (old_runways new_runways : list runway)
    (d : string) (o n : runway) :
  PyDict.get d (by_designator old_runways) = Some o ->
  PyDict.get d (by_designator new_runways) = Some n ->
  runway_changes_for d (compare_runway_dimensions old_runways new_runways) =
    dimension_changes d o n.
Proof.
  intros Ho Hn. unfold compare_runway_dimensions. cbv zeta.
  set (old_by := by_designator old_runways) in *.
  set (new_by := by_designator new_runways) in *.
  unfold runway_changes_for at 1. rewrite !List.filter_app.
  fold (runway_changes_for d). rewrite !filter_flat_map.
  fold (runway_changes_for d).
  rewrite (flat_map_nil_all _ (PyDict.items new_by)).
  2:{ intros [k v] _. destruct (String.eqb_spec k d) as [->|E].
      - unfold PyDict.contains. rewrite Ho. reflexivity.
      - destruct (negb (PyDict.contains k old_by)); [|reflexivity].
        simpl. destruct (String.eqb_spec k d); [contradiction|reflexivity]. }
  rewrite (flat_map_nil_all _ (PyDict.items old_by)).
  2:{ intros [k v] _. destruct (String.eqb_spec k d) as [->|E].
      - unfold PyDict.contains. rewrite Hn. reflexivity.
      - destruct (negb (PyDict.contains k new_by)); [|reflexivity].
        simpl. destruct (String.eqb_spec k d); [contradiction|reflexivity]. }
  simpl.
  rewrite (flat_map_single _ (PyDict.items new_by) (d, n)).
  - rewrite Ho. apply keyed_pass_same. apply dimension_changes_designator.
  - apply NoDup_items, NoDup_by_designator.
  - apply get_In, Hn.
  - intros [k v] Hin Hne.
    apply (keyed_pass_other d
             (fun '(designator, new_rwy) =>
                match PyDict.get designator old_by with
                | Some old_rwy => dimension_changes designator old_rwy new_rwy
                | None => []
                end) (k, v)).
    + intros c. destruct (PyDict.get k old_by); [|intros []].
      apply dimension_changes_designator.
    + simpl. intros ->. apply Hne. f_equal.
      apply (In_get d v new_by (NoDup_by_designator new_runways)) in Hin.
      congruence.
Qed.

Lemma reports_for (k : runway_change_type) (d : string) (changes : list RunwayChange) :
  reports k d changes <->
  exists c, In c (runway_changes_for d changes) /\ rc_change_type c = k.
Proof.
  unfold reports, runway_changes_for. split.
  - intros (c & Hc & Hk & Hd). exists c. split; [|exact Hk].
    apply List.filter_In. split; [exact Hc|]. rewrite Hd. apply String.eqb_refl.
  - intros (c & Hc & Hk). apply List.filter_In in Hc as [Hc Hd].
    exists c. repeat split; try assumption. apply String.eqb_eq, Hd.
Qed.

Lemma reports_dimension_changes (k : runway_change_type) (d : string) (o n : runway) :
  (exists c, In c (dimension_changes d o n) /\ rc_change_type c = k) <->
  (k = LENGTH_CHANGED /\ dimension_differs (get_length o) (get_length n) = true) \/
  (k = WIDTH_CHANGED /\ dimension_differs (get_width o) (get_width n) = true).
Proof.
  unfold dimension_changes. split.
  - intros (c & Hc & Hk). apply in_app_iff in Hc as [Hc|Hc].
    + destruct (dimension_differs (get_length o) (get_length n)); [|destruct Hc].
      destruct Hc as [<-|[]]. left. split; [symmetry; exact Hk|reflexivity].
    + destruct (dimension_differs (get_width o) (get_width n)); [|destruct Hc].
      destruct Hc as [<-|[]]. right. split; [symmetry; exact Hk|reflexivity].
  - intros [[-> H]|[-> H]]; rewrite H.
    + exists (length_changed d o n). split; [left; reflexivity|reflexivity].
    + exists (width_changed d o n). split; [|reflexivity].
      apply in_app_iff. right. left. reflexivity.
Qed.

(** C3: for a designator held by both lookup maps, with records [o] (old)
    and [n] (new), a LENGTH_CHANGED change is reported exactly when the two
    lengths differ and both are above zero, and a WIDTH_CHANGED change
    exactly when the two widths differ and both are above zero; the
    designator is never reported as added or removed.  So a dimension
    that is 0 on either side gives no change for that dimension, and with
    the other dimension unchanged the designator has no change at all. *)
Theorem dimension_change_iff (old_runways new_runways : list runway)
    (d : string) (o n : runway) :
  PyDict.get d (by_designator old_runways) = Some o ->
  PyDict.get d (by_designator new_runways) = Some n ->
  let changes := compare_runway_dimensions old_runways new_runways in
  (reports LENGTH_CHANGED d changes <->
   get_length o <> get_length n /\ 0 < get_length o /\ 0 < get_length n) /\
  (reports WIDTH_CHANGED d changes <->
   get_width o <> get_width n /\ 0 < get_width o /\ 0 < get_width n) /\
  ~ reports RUNWAY_ADDED d changes /\
  ~ reports RUNWAY_REMOVED d changes /\
  (get_length o = 0 \/ get_length n = 0 -> ~ reports LENGTH_CHANGED d changes) /\
  (get_width o = 0 \/ get_width n = 0 -> ~ reports WIDTH_CHANGED d changes) /\
  (get_length o = 0 \/ get_length n = 0 -> get_width o = get_width n ->
   runway_changes_for d changes = []) /\
  (get_width o = 0 \/ get_width n = 0 -> get_length o = get_length n ->
   runway_changes_for d changes = []).
Proof.
  intros Ho Hn changes. subst changes.
  assert (R : forall k,
             reports k d (compare_runway_dimensions old_runways new_runways) <->
             (k = LENGTH_CHANGED /\ get_length o <> get_length n /\
              0 < get_length o /\ 0 < get_length n) \/
             (k = WIDTH_CHANGED /\ get_width o <> get_width n /\
              0 < get_width o /\ 0 < get_width n)).
  { intros k. rewrite reports_for, (changes_for_common _ _ d o n Ho Hn).
    rewrite reports_dimension_changes, !dimension_differs_true. reflexivity. }
  assert (N : forall a b, a = 0 \/ b = 0 \/ a = b -> dimension_differs a b = false).
  { intros a b H. apply not_true_is_false. rewrite dimension_differs_true. lia. }
  split; [|split; [|split; [|split; [|split; [|split; [|split]]]]]].
  - split.
    + intros H. apply R in H as [[_ H]|[[=] _]]. exact H.
    + intros H. apply R. left. split; [reflexivity|exact H].
  - split.
    + intros H. apply R in H as [[[=] _]|[_ H]]. exact H.
    + intros H. apply R. right. split; [reflexivity|exact H].
  - intros H. apply R in H as [[[=] _]|[[=] _]].
  - intros H. apply R in H as [[[=] _]|[[=] _]].
  - intros Hz H. apply R in H as [[_ H]|[[=] _]]. lia.
  - intros Hz H. apply R in H as [[[=] _]|[_ H]]. lia.
  - intros Hz Hw. rewrite (changes_for_common _ _ d o n Ho Hn).
    unfold dimension_changes. rewrite !N by tauto. reflexivity.
  - intros Hz Hl. rewrite (changes_for_common _ _ d o n Ho Hn).
    unfold dimension_changes. rewrite !N by tauto. reflexivity.
Qed.

(** Runway 10/28 from 7200 to 7499 ft, written with either end first. *)
Lemma dimension_change_iff_witness :
  let rwy := fun d l w => mkRunway (Some d) (Some l) (Some w) None None None None in
  reports LENGTH_CHANGED "10/28"
    (compare_runway_dimensions [rwy "10/28" 7200 150] [rwy "28-10" 7499 150]) /\
  ~ reports LENGTH_CHANGED "4L/22R"
    (compare_runway_dimensions [rwy "4L-22R" 0 150] [rwy "22R/4L" 8000 150]).
Proof.
  intros rwy. split.
  - apply (proj1 (dimension_change_iff
                    [rwy "10/28" 7200 150] [rwy "28-10" 7499 150] "10/28"
                    (rwy "10/28" 7200 150) (rwy "28-10" 7499 150)
                    eq_refl eq_refl)).
    vm_compute. repeat split; discriminate.
  - apply (proj1 (proj2 (proj2 (proj2 (proj2 (dimension_change_iff
                    [rwy "4L-22R" 0 150] [rwy "22R/4L" 8000 150] "4L/22R"
                    (rwy "4L-22R" 0 150) (rwy "22R/4L" 8000 150)
                    eq_refl eq_refl)))))).
    left. reflexivity.
Defined.

(** A runway list compared with itself: nothing to report. *)
Lemma compare_runway_dimensions_self (runways : list runway) :
  compare_runway_dimensions runways runways = [].
Proof.
  unfold compare_runway_dimensions. cbv zeta.
  set (by_d := by_designator runways).
  assert (Hget : forall k v, In (k, v) (PyDict.items by_d) -> PyDict.get k by_d = Some v).
  { intros k v. apply In_get, NoDup_by_designator. }
  rewrite (flat_map_nil_all _ (PyDict.items by_d)).
  2:{ intros [k v] Hin. unfold PyDict.contains. rewrite (Hget k v Hin). reflexivity. }
  rewrite (flat_map_nil_all _ (PyDict.items by_d)).
  2:{ intros [k v] Hin. unfold PyDict.contains. rewrite (Hget k v Hin). reflexivity. }
  simpl. apply flat_map_nil_all.
  intros [k v] Hin. rewrite (Hget k v Hin).
  unfold dimension_changes. rewrite !dimension_differs_same. reflexivity.
Qed.

End RunwayFacts.

(* ===================================================================== *)
(** ** The whole comparison *)
(* ===================================================================== *)

Module ComparisonFacts.
Import Comparator Spec.

(** C6: comparing an extraction with itself gives a result whose taxiway,
    runway and geometry change lists are all empty. *)
Theorem compare_extractions_self (data : extraction) :
  taxiway_changes (compare_extractions data data) = [] /\
  runway_changes (compare_extractions data data) = [] /\
  geometry_changes (compare_extractions data data) = [].
Proof.
  unfold compare_extractions. cbv zeta. simpl.
  split; [|split].
  - apply TaxiwayFacts.compare_taxiway_labels_self.
  - apply RunwayFacts.compare_runway_dimensions_self.
  - rewrite GeometryFacts.compare_geometry_cases.
    unfold path_diff. rewrite Z.sub_diag. reflexivity.
Qed.

End ComparisonFacts.

(* ===================================================================== *)
(** ** Strings *)
(* ===================================================================== *)

Module PyStrFacts.
Import PyStr Spec.

(** Facts about one character are settled on its eight bits. *)
Ltac by_bits c := destruct c as [[] [] [] [] [] [] [] []]; vm_compute; reflexivity.

Lemma upper_char_idem (c : ascii) : upper_char (upper_char c) = upper_char c.
Proof. by_bits c. Qed.

Lemma upper_char_dash (c : ascii) : Ascii.eqb (upper_char c) "-" = Ascii.eqb c "-".
Proof. by_bits c. Qed.

Lemma upper_char_slash (c : ascii) : Ascii.eqb (upper_char c) "/" = Ascii.eqb c "/".
Proof. by_bits c. Qed.

Lemma upper_char_isdigit (c : ascii) : isdigit (upper_char c) = isdigit c.
Proof. by_bits c. Qed.

Lemma upper_char_digit (c : ascii) : isdigit c = true -> upper_char c = c.
Proof. destruct c as [[] [] [] [] [] [] [] []]; vm_compute; congruence. Qed.

Lemma upper_idem (s : string) : upper (upper s) = upper s.
Proof.
  induction s as [|c s IH]; simpl; [reflexivity|].
  rewrite upper_char_idem, IH. reflexivity.
Qed.

Lemma upper_app (s t : string) : upper (s ++ t) = upper s ++ upper t.
Proof.
  induction s as [|c s IH]; simpl; [reflexivity|]. rewrite IH. reflexivity.
Qed.

Lemma has_char_upper_dash (s : string) : has_char "-" (upper s) = has_char "-" s.
Proof.
  induction s as [|c s IH]; simpl; [reflexivity|].
  rewrite upper_char_dash, IH. reflexivity.
Qed.

Lemma has_char_upper_slash (s : string) : has_char "/" (upper s) = has_char "/" s.
Proof.
  induction s as [|c s IH]; simpl; [reflexivity|].
  rewrite upper_char_slash, IH. reflexivity.
Qed.

Lemma has_char_app (c : ascii) (s t : string) :
  has_char c (s ++ t) = has_char c s || has_char c t.
Proof.
  induction s as [|c' s IH]; simpl; [reflexivity|].
  rewrite IH, orb_assoc. reflexivity.
Qed.

Lemma is_end_upper (s : string) : is_end s -> is_end (upper s).
Proof.
  unfold is_end. rewrite has_char_upper_dash, has_char_upper_slash. tauto.
Qed.

Lemma keep_isdigit_upper (s : string) : keep isdigit (upper s) = keep isdigit s.
Proof.
  induction s as [|c s IH]; simpl; [reflexivity|].
  rewrite upper_char_isdigit. destruct (isdigit c) eqn:D; [|exact IH].
  rewrite (upper_char_digit c D), IH. reflexivity.
Qed.

(** [replace] *)

Lemma replace_absent (a b : ascii) (s : string) :
  has_char a s = false -> replace a b s = s.
Proof.
  induction s as [|c s IH]; simpl; [reflexivity|].
  intros H. apply orb_false_iff in H as [Hc Hs].
  rewrite Hc, (IH Hs). reflexivity.
Qed.

Lemma has_char_replace (a b : ascii) (s : string) :
  a <> b -> has_char a (replace a b s) = false.
Proof.
  intros Hab. induction s as [|c s IH]; simpl; [reflexivity|].
  rewrite IH, orb_false_r.
  destruct (Ascii.eqb_spec c a) as [->|E].
  - apply Ascii.eqb_neq. congruence.
  - apply Ascii.eqb_neq, E.
Qed.

Lemma replace_app (a b : ascii) (s t : string) :
  replace a b (s ++ t) = replace a b s ++ replace a b t.
Proof.
  induction s as [|c s IH]; simpl; [reflexivity|]. rewrite IH. reflexivity.
Qed.

(** [split] *)

Lemma split_absent (sep : ascii) (s : string) :
  has_char sep s = false -> split sep s = [s].
Proof.
  induction s as [|c s IH]; simpl; [reflexivity|].
  intros H. apply orb_false_iff in H as [Hc Hs].
  rewrite Hc, (IH Hs). reflexivity.
Qed.

Lemma split_app_sep (sep : ascii) (s t : string) :
  has_char sep s = false -> split sep (s ++ String sep t) = s :: split sep t.
Proof.
  induction s as [|c s IH]; simpl.
  - intros _. rewrite Ascii.eqb_refl. reflexivity.
  - intros H. apply orb_false_iff in H as [Hc Hs].
    rewrite Hc, (IH Hs). reflexivity.
Qed.

Lemma split_not_nil (sep : ascii) (s : string) : split sep s <> [].
Proof.
  destruct s as [|c s]; simpl; [discriminate|].
  destruct (Ascii.eqb c sep); [discriminate|].
  destruct (split sep s); discriminate.
Qed.

(** The parts hold no separator, and joined by it they give the string
    back. *)
Lemma split_two (sep : ascii) (s p0 p1 : string) :
  split sep s = [p0; p1] ->
  has_char sep p0 = false /\ has_char sep p1 = false /\ s = p0 ++ String sep p1.
Proof.
  revert p0. induction s as [|c s IH]; simpl; intros p0; [discriminate|].
  destruct (Ascii.eqb_spec c sep) as [->|E].
  - intros [= <- H]. split; [reflexivity|].
    assert (Hs : has_char sep s = false /\ p1 = s).
    { clear IH. revert p1 H. induction s as [|c s IH]; simpl; intros p1.
      - intros [= <-]. auto.
      - destruct (Ascii.eqb_spec c sep) as [->|E].
        { intros [= _ H]. exfalso. exact (split_not_nil sep s H). }
        destruct (split sep s) as [|q qs] eqn:S; [intros [= <-]|].
        + exfalso. exact (split_not_nil sep s S).
        + intros [= <- Hq]. subst qs. destruct (IH q eq_refl) as [H1 H2].
          simpl. rewrite H1.
          destruct (Ascii.eqb_spec c sep); [contradiction|].
          split; [reflexivity|congruence]. }
    destruct Hs as [Hs ->]. auto.
  - destruct (split sep s) as [|q qs] eqn:S; [discriminate|].
    intros [= <- Hq]. subst qs. destruct (IH q eq_refl) as (H0 & H1 & ->).
    simpl. rewrite H0. destruct (Ascii.eqb_spec c sep); [contradiction|]. auto.
Qed.

Lemma split_upper (s : string) : split "/" (upper s) = map upper (split "/" s).
Proof.
  induction s as [|c s IH]; simpl; [reflexivity|].
  rewrite upper_char_slash, IH.
  destruct (Ascii.eqb c "/"); [reflexivity|].
  destruct (split "/" s); reflexivity.
Qed.

Lemma has_char_split_two (c sep : ascii) (s p0 p1 : string) :
  split sep s = [p0; p1] -> has_char c s = false ->
  has_char c p0 = false /\ has_char c p1 = false.
Proof.
  intros H Hc. apply split_two in H as (_ & _ & ->).
  rewrite has_char_app in Hc. simpl in Hc.
  apply orb_false_iff in Hc as [H0 H1]. apply orb_false_iff in H1 as [_ H1]. auto.
Qed.

End PyStrFacts.
(* ===================================================================== *)
(** ** Runway designators *)
(* ===================================================================== *)

Module NormalizeFacts.
Import PyStr Comparator Spec PyStrFacts.

Lemma get_number_upper (s : string) : get_number (upper s) = get_number s.
Proof. unfold get_number. rewrite keep_isdigit_upper. reflexivity. Qed.

Lemma replace_upper (s : string) :
  replace "-" "/" (upper s) = upper (replace "-" "/" s).
Proof.
  induction s as [|c s IH]; simpl; [reflexivity|].
  rewrite IH. f_equal. by_bits c.
Qed.

(** The function on an input that falls into two ends. *)
Lemma normalize_two_parts (s p0 p1 : string) :
  split "/" (replace "-" "/" s) = [p0; p1] ->
  normalize_runway_designator s =
    if get_number p0 >? get_number p1
    then upper p1 ++ "/" ++ upper p0
    else upper p0 ++ "/" ++ upper p1.
Proof.
  intros H. unfold normalize_runway_designator. cbv zeta. rewrite H.
  destruct (get_number p0 >? get_number p1); reflexivity.
Qed.

(** The function on any other input. *)
Lemma normalize_other (s : string) :
  length (split "/" (replace "-" "/" s)) <> 2%nat ->
  normalize_runway_designator s = upper (replace "-" "/" s).
Proof.
  intros H. unfold normalize_runway_designator. cbv zeta.
  destruct (split "/" (replace "-" "/" s)) as [|p0 [|p1 [|p2 ps]]];
    try reflexivity.
  exfalso. apply H. reflexivity.
Qed.

Lemma split_two_ends (a b : string) (sep : ascii) :
  is_end a -> is_end b -> is_separator sep ->
  split "/" (replace "-" "/" (a ++ String sep b)) = [a; b].
Proof.
  intros [Ha1 Ha2] [Hb1 Hb2] Hsep.
  rewrite replace_app. simpl.
  rewrite (replace_absent _ _ a Ha1), (replace_absent _ _ b Hb1).
  assert (E : (if Ascii.eqb sep "-" then "/"%char else sep) = "/"%char)
    by (destruct Hsep as [->| ->]; reflexivity).
  rewrite E, (split_app_sep "/" a b Ha2), (split_absent "/" b Hb2). reflexivity.
Qed.

Lemma normalize_two_ends (a b : string) (sep : ascii) :
  is_end a -> is_end b -> is_separator sep ->
  normalize_runway_designator (a ++ String sep b) =
    if get_number a >? get_number b
    then upper b ++ "/" ++ upper a
    else upper a ++ "/" ++ upper b.
Proof.
  intros Ha Hb Hsep. apply normalize_two_parts, split_two_ends; assumption.
Qed.

(** The two parts of a split input are ends. *)
Lemma parts_are_ends (s p0 p1 : string) :
  split "/" (replace "-" "/" s) = [p0; p1] -> is_end p0 /\ is_end p1.
Proof.
  intros H.
  destruct (has_char_split_two "-" "/" _ p0 p1 H) as [D0 D1];
    [apply has_char_replace; discriminate|].
  destruct (split_two "/" _ p0 p1 H) as (S0 & S1 & _).
  unfold is_end. auto.
Qed.

Lemma normalize_idempotent (s : string) :
  normalize_runway_designator (normalize_runway_designator s) =
  normalize_runway_designator s.
Proof.
  destruct (split "/" (replace "-" "/" s)) as [|p0 [|p1 [|p2 ps]]] eqn:S.
  - exfalso. exact (split_not_nil _ _ S).
  - rewrite (normalize_other s) by (rewrite S; discriminate).
    rewrite normalize_other; rewrite replace_upper, replace_absent
      by (apply has_char_replace; discriminate).
    + apply upper_idem.
    + rewrite split_upper, S. discriminate.
  - destruct (parts_are_ends s p0 p1 S) as [E0 E1].
    rewrite (normalize_two_parts s p0 p1 S).
    destruct (get_number p0 >? get_number p1) eqn:G.
    + change (upper p1 ++ "/" ++ upper p0) with (upper p1 ++ String "/" (upper p0)).
      rewrite normalize_two_ends;
        [|apply is_end_upper, E1|apply is_end_upper, E0|right; reflexivity].
      rewrite !get_number_upper, !upper_idem.
      destruct (Z.gtb_spec (get_number p1) (get_number p0)); [|reflexivity].
      apply Z.gtb_lt in G. lia.
    + change (upper p0 ++ "/" ++ upper p1) with (upper p0 ++ String "/" (upper p1)).
      rewrite normalize_two_ends;
        [|apply is_end_upper, E0|apply is_end_upper, E1|right; reflexivity].
      rewrite !get_number_upper, !upper_idem, G. reflexivity.
  - rewrite (normalize_other s) by (rewrite S; discriminate).
    rewrite normalize_other; rewrite replace_upper, replace_absent
      by (apply has_char_replace; discriminate).
    + apply upper_idem.
    + rewrite split_upper, S. discriminate.
Qed.







(** C8, as the code has it: when the string with its dashes turned into
    slashes does not split into exactly two parts on the slash, the result
    is that string, dashes turned into slashes, in upper case; it is the
    original string in upper case when the original holds no dash. *)
Theorem normalize_not_two_parts (s : string) :
  length (split "/" (replace "-" "/" s)) <> 2%nat ->
  normalize_runway_designator s = upper (replace "-" "/" s) /\
  (has_char "-" s = false -> normalize_runway_designator s = upper s).
Proof.
  intros H. split; [apply normalize_other, H|].
  intros Hd. rewrite (normalize_other s H), (replace_absent _ _ s Hd). reflexivity.
Qed.

(** The placeholder designator, and a string of three parts. *)
Lemma normalize_not_two_parts_witness :
  normalize_runway_designator "Unknown" = "UNKNOWN" /\
  normalize_runway_designator "9-27-x" = "9/27/X".
Proof.
  split.
  - apply (proj2 (normalize_not_two_parts "Unknown" ltac:(vm_compute; discriminate))).
    reflexivity.
  - apply (proj1 (normalize_not_two_parts "9-27-x" ltac:(vm_compute; discriminate))).
Defined.

(** C8 as stated does not hold: a string with two dashes splits into three
    parts and comes back with slashes, not as the original in upper case. *)
Lemma normalize_not_two_parts_counterexample :
  length (split "/" (replace "-" "/" "1-2-3")) <> 2%nat /\
  normalize_runway_designator "1-2-3" = "1/2/3" /\
  normalize_runway_designator "1-2-3" <> upper "1-2-3".
Proof.
  split; [vm_compute; discriminate|].
  split; [reflexivity|vm_compute; discriminate].
Qed.

End NormalizeFacts.

(* ===================================================================== *)
(** ** Taxiway label classification *)
(* ===================================================================== *)

Module TaxiwayLabelFacts.
Import PyStr Re PdfExtractor Spec ListFacts PyStrFacts.

(** *** Stripped strings *)

Lemma lstrip_clean (s : string) : starts_clean s -> lstrip s = s.
Proof. destruct s as [|c s]; simpl; [reflexivity|]. intros ->. reflexivity. Qed.

Lemma rstrip_clean (s : string) : ends_clean s -> rstrip s = s.
Proof.
  induction s as [|c s IH]; [reflexivity|].
  destruct s as [|c' s'].
  - simpl. intros ->. reflexivity.
  - intros H. change (ends_clean (String c' s')) in H.
    change (rstrip (String c (String c' s')))
      with (match rstrip (String c' s') with
            | EmptyString => if isspace c then EmptyString else String c EmptyString
            | r => String c r
            end).
    rewrite (IH H). reflexivity.
Qed.

Lemma lstrip_starts_clean (s : string) : starts_clean (lstrip s).
Proof.
  induction s as [|c s IH]; simpl; [exact I|].
  destruct (isspace c) eqn:E; [exact IH|exact E].
Qed.

Lemma rstrip_ends_clean (s : string) : ends_clean (rstrip s).
Proof.
  induction s as [|c s IH]; simpl; [exact I|].
  destruct (rstrip s) as [|c' r] eqn:R.
  - destruct (isspace c) eqn:E; [exact I|exact E].
  - exact IH.
Qed.

Lemma rstrip_starts_clean (s : string) : starts_clean s -> starts_clean (rstrip s).
Proof.
  destruct s as [|c s]; simpl; [intros _; exact I|].
  intros E. destruct (rstrip s); [rewrite E|]; exact E.
Qed.

Lemma strip_clean (s : string) : starts_clean s -> ends_clean s -> strip s = s.
Proof.
  intros H1 H2. unfold strip. rewrite (lstrip_clean s H1). apply rstrip_clean, H2.
Qed.

Lemma strip_is_clean (s : string) : starts_clean (strip s) /\ ends_clean (strip s).
Proof.
  unfold strip. split.
  - apply rstrip_starts_clean, lstrip_starts_clean.
  - apply rstrip_ends_clean.
Qed.

Lemma upper_char_isspace (c : ascii) : isspace (upper_char c) = isspace c.
Proof. by_bits c. Qed.

Lemma upper_starts_clean (s : string) : starts_clean s -> starts_clean (upper s).
Proof. destruct s as [|c s]; simpl; [auto|]. rewrite upper_char_isspace. auto. Qed.

Lemma upper_ends_clean (s : string) : ends_clean s -> ends_clean (upper s).
Proof.
  induction s as [|c s IH]; [auto|].
  destruct s as [|c' s'].
  - simpl. rewrite upper_char_isspace. auto.
  - intros H. change (ends_clean (upper (String c' s'))). apply IH, H.
Qed.

(** The text that the span loop hands to the validity test comes out of
    the test's own strip and upper unchanged. *)
Lemma upper_strip_fixed (text : string) :
  upper (strip (upper (strip text))) = upper (strip text).
Proof.
  destruct (strip_is_clean text) as [H1 H2].
  rewrite (strip_clean (upper (strip text))).
  - apply upper_idem.
  - apply upper_starts_clean, H1.
  - apply upper_ends_clean, H2.
Qed.

(** *** The pattern on one and on two characters *)

Lemma taxiway_letter_capital (c : ascii) :
  taxiway_letter c = true -> capital_letter c = true.
Proof. destruct c as [[] [] [] [] [] [] [] []]; vm_compute; congruence. Qed.

Lemma newline_isspace (c : ascii) : Ascii.eqb c "010" = true -> isspace c = true.
Proof. intros H. apply Ascii.eqb_eq in H. subst c. reflexivity. Qed.

Lemma matches_one (c1 : ascii) :
  matches TAXIWAY_PATTERN (String c1 "") = taxiway_letter c1.
Proof.
  unfold matches, match_at, TAXIWAY_PATTERN. simpl.
  destruct (taxiway_letter c1); reflexivity.
Qed.

Lemma matches_two (c1 c2 : ascii) :
  isspace c2 = false ->
  matches TAXIWAY_PATTERN (String c1 (String c2 "")) =
  taxiway_letter c1 && capital_letter c2.
Proof.
  intros Hsp. unfold matches, match_at, TAXIWAY_PATTERN. simpl.
  destruct (taxiway_letter c1); [|reflexivity].
  destruct (taxiway_letter c2) eqn:T2.
  - rewrite (taxiway_letter_capital c2 T2). reflexivity.
  - destruct (capital_letter c2); [reflexivity|].
    destruct (Ascii.eqb c2 "010") eqn:N; [|reflexivity].
    apply newline_isspace in N. congruence.
Qed.

(** *** The excluded tokens *)

Lemma false_positives_length (t : string) :
  In t false_positives -> String.length t = 3%nat.
Proof.
  unfold false_positives. simpl.
  intros H. repeat (destruct H as [<-|H]; [reflexivity|]). destruct H.
Qed.

Lemma existsb_false_positives (t : string) :
  existsb (String.eqb t) false_positives = true <-> In t false_positives.
Proof.
  rewrite existsb_exists. split.
  - intros (x & Hx & E). apply String.eqb_eq in E. subst x. exact Hx.
  - intros H. exists t. split; [exact H|apply String.eqb_refl].
Qed.

Lemma code_shape_length (t : string) :
  code_shape t = true -> (String.length t = 1 \/ String.length t = 2)%nat.
Proof.
  destruct t as [|c1 [|c2 [|c3 r]]]; simpl; try discriminate; auto.
Qed.

Lemma code_shape_not_excluded (t : string) :
  code_shape t = true -> ~ In t false_positives.
Proof.
  intros H Hin. apply false_positives_length in Hin.
  apply code_shape_length in H. lia.
Qed.

(** *** The validity test *)

Lemma is_valid_clean (t : string) :
  upper (strip t) = t -> ends_clean t ->
  is_valid_taxiway_designator t = code_shape t.
Proof.
  intros Ht Hclean. unfold is_valid_taxiway_designator. cbv zeta. rewrite Ht.
  destruct (existsb (String.eqb t) false_positives) eqn:F.
  - apply existsb_false_positives, false_positives_length in F.
    destruct t as [|c1 [|c2 [|c3 [|c4 r]]]]; try discriminate. reflexivity.
  - destruct t as [|c1 [|c2 [|c3 r]]].
    + reflexivity.
    + rewrite matches_one. simpl. destruct (taxiway_letter c1); reflexivity.
    + rewrite matches_two by exact Hclean.
      simpl. destruct (taxiway_letter c1 && capital_letter c2); reflexivity.
    + simpl code_shape. simpl String.length.
      destruct (negb (matches TAXIWAY_PATTERN _)); reflexivity.
Qed.

Lemma is_valid_text (text : string) :
  is_valid_taxiway_designator (upper (strip text)) = code_shape (upper (strip text)).
Proof.
  apply is_valid_clean.
  - apply upper_strip_fixed.
  - apply upper_ends_clean, strip_is_clean.
Qed.

(** *** The span loop *)

Lemma passes_test_true (sp : span) : passes_test sp = true <-> passes sp.
Proof.
  unfold passes_test, passes. rewrite !andb_true_iff, !Qle_bool_iff.
  split.
  - intros [[H1 H2] H3]. repeat split; try assumption.
    apply code_shape_not_excluded, H3.
  - intros (H1 & H2 & H3 & _). auto.
Qed.

Lemma span_step_inside (b : bounds) (labels : list TaxiwayLabel)
    (seen : gset (Z * Z)) (sp : span) :
  inside b (x_center sp) (y_center sp) = true ->
  span_step b (labels, seen) sp =
    if passes_test sp && negb (bool_decide (pos_key sp ∈ seen))
    then ((labels ++ [label_of sp])%list, {[pos_key sp]} ∪ seen)
    else (labels, seen).
Proof.
  intros Hin. unfold span_step, passes_test. rewrite Hin, is_valid_text.
  unfold Qltb. simpl negb at 1. cbv iota.
  destruct (Qle_bool 4 (sp_size sp)), (Qle_bool (sp_size sp) 10),
    (code_shape (upper (strip (sp_text sp)))),
    (bool_decide (pos_key sp ∈ seen)); reflexivity.
Qed.

Lemma app_one_not_same {A : Type} (l : list A) (x : A) : (l ++ [x])%list <> l.
Proof.
  intros H. apply (f_equal (@length A)) in H.
  rewrite List.length_app in H. simpl in H. lia.
Qed.

Lemma extract_single_span (b : bounds) (sp : span) :
  extract_taxiway_labels (single_span_page sp) b = fst (span_step b ([], ∅) sp).
Proof. reflexivity. Qed.

(** The three nested loops visit the spans of the page one after the
    other. *)
Lemma extract_as_fold (blocks : list block) (b : bounds) :
  extract_taxiway_labels blocks b =
  fst (fold_left (span_step b) (all_spans blocks) ([], ∅)).
Proof.
  unfold extract_taxiway_labels, all_spans. f_equal.
  generalize (@nil TaxiwayLabel, (∅ : gset (Z * Z))).
  induction blocks as [|bl blocks IH]; intros st; simpl; [reflexivity|].
  rewrite List.fold_left_app, IH. f_equal.
  unfold block_step. destruct (bl_lines bl) as [lines|]; [|reflexivity].
  revert st. induction lines as [|ln lines IHl]; intros st; simpl; [reflexivity|].
  rewrite List.fold_left_app. apply IHl.
Qed.

(** C7, as the code has it: a span whose centre lies strictly inside the
    bounds passes the classifier exactly when its font size is in [4, 10],
    its stripped text in upper case is one letter of A-Z other than I and
    O, or two letters, the first of A-Z other than I and O and the second
    any of A-Z, and that text is not an excluded token.  A passing span
    becomes a label unless the rounded position of its centre is already
    taken by an earlier label; a span that does not pass leaves the labels
    as they are.  Alone on its page, the span becomes the one label exactly
    when it passes. *)
Theorem taxiway_label_accepted (b : bounds) (sp : span) :
  inside b (x_center sp) (y_center sp) = true ->
  (forall labels seen, pos_key sp ∉ seen ->
     (span_step b (labels, seen) sp =
        ((labels ++ [label_of sp])%list, {[pos_key sp]} ∪ seen) <->
      passes sp)) /\
  (forall labels seen, ~ passes sp \/ pos_key sp ∈ seen ->
     span_step b (labels, seen) sp = (labels, seen)) /\
  (extract_taxiway_labels (single_span_page sp) b = [label_of sp] <-> passes sp) /\
  (~ passes sp -> extract_taxiway_labels (single_span_page sp) b = []).
Proof.
  intros Hin.
  assert (Hfresh : forall labels seen, pos_key sp ∉ seen ->
            span_step b (labels, seen) sp =
              if passes_test sp
              then ((labels ++ [label_of sp])%list, {[pos_key sp]} ∪ seen)
              else (labels, seen)).
  { intros labels seen Hseen. rewrite (span_step_inside b labels seen sp Hin).
    rewrite (bool_decide_eq_false_2 _ Hseen), andb_true_r. reflexivity. }
  split; [|split; [|split]].
  - intros labels seen Hseen. rewrite (Hfresh labels seen Hseen).
    rewrite <- passes_test_true. destruct (passes_test sp).
    + split; reflexivity.
    + split; [|discriminate].
      intros [= H _]. symmetry in H. exfalso. exact (app_one_not_same _ _ H).
  - intros labels seen H. rewrite (span_step_inside b labels seen sp Hin).
    destruct H as [H|H].
    + rewrite <- passes_test_true in H. apply not_true_is_false in H.
      rewrite H. reflexivity.
    + rewrite (bool_decide_eq_true_2 _ H), andb_false_r. reflexivity.
  - rewrite extract_single_span, (Hfresh [] ∅) by apply not_elem_of_empty.
    rewrite <- passes_test_true. destruct (passes_test sp); simpl.
    + split; reflexivity.
    + split; discriminate.
  - intros H. rewrite extract_single_span, (Hfresh [] ∅) by apply not_elem_of_empty.
    rewrite <- passes_test_true in H. apply not_true_is_false in H.
    rewrite H. reflexivity.
Qed.

(** A span " ai " of size 6 inside the bounds of a 600 by 800 page. *)
Lemma taxiway_label_accepted_witness :
  let b := extract_diagram_bounds (mkPage 600 800 "" []) in
  let sp := mkSpan " ai " (100, 100, 104, 108)%Q 6 in
  extract_taxiway_labels (single_span_page sp) b = [label_of sp] /\
  tl_designator (label_of sp) = "AI".
Proof.
  intros b sp. split; [|reflexivity].
  apply (proj1 (proj2 (proj2 (taxiway_label_accepted b sp eq_refl)))).
  split; [apply Qle_bool_iff; reflexivity|].
  split; [apply Qle_bool_iff; reflexivity|].
  split; [reflexivity|].
  apply code_shape_not_excluded. reflexivity.
Defined.

(** C7 as stated does not hold.  The span "ABC" in size 6, inside the
    bounds, has a font size in [4, 10], a text of three letters other than
    I and O, and is no excluded token, yet it gives no label; the span
    "AI" has the letter I, yet it gives a label. *)
Lemma taxiway_label_counterexample :
  let b := extract_diagram_bounds (mkPage 600 800 "" []) in
  let sp3 := mkSpan "ABC" (100, 100, 104, 108)%Q 6 in
  let sp2 := mkSpan "AI" (100, 100, 104, 108)%Q 6 in
  (inside b (x_center sp3) (y_center sp3) = true /\
   (4 <= sp_size sp3)%Q /\ (sp_size sp3 <= 10)%Q /\
   claimed_shape (upper (strip (sp_text sp3))) = true /\
   ~ In (upper (strip (sp_text sp3))) false_positives /\
   extract_taxiway_labels (single_span_page sp3) b = []) /\
  (inside b (x_center sp2) (y_center sp2) = true /\
   claimed_shape (upper (strip (sp_text sp2))) = false /\
   extract_taxiway_labels (single_span_page sp2) b = [label_of sp2]).
Proof.
  intros b sp3 sp2. split.
  - split; [reflexivity|].
    split; [apply Qle_bool_iff; reflexivity|].
    split; [apply Qle_bool_iff; reflexivity|].
    split; [reflexivity|].
    split; [|reflexivity].
    unfold false_positives. simpl.
    intros H. repeat (destruct H as [H|H]; [discriminate H|]). destruct H.
  - split; [reflexivity|]. split; reflexivity.
Qed.

End TaxiwayLabelFacts.

(* ===================================================================== *)
(** ** Runway extraction *)
(* ===================================================================== *)

Module RunwayInfoFacts.
Import PyStr Re PdfExtractor Spec ListFacts.

(** The first loop of method 2, started at index [k]. *)
Lemma matched_loop (designators : list string) (dimensions : list (Z * Z * Q * Q))
    (k : nat) :
  flat_map
    (fun '(i, designator) =>
       if (i <? length dimensions)%nat then
         match dimensions !! i with
         | Some dim => [matched_runway designator dim]
         | None => []
         end
       else [])
    (combine (List.seq k (length designators)) designators) =
  map (fun '(designator, dim) => matched_runway designator dim)
      (combine designators (drop k dimensions)).
Proof.
  revert k. induction designators as [|d designators IH]; intros k; [reflexivity|].
  simpl. rewrite IH.
  destruct (dimensions !! k) as [dim|] eqn:L.
  - rewrite (drop_S _ _ _ L). simpl.
    apply lookup_lt_Some in L. apply Nat.ltb_lt in L. rewrite L. reflexivity.
  - apply lookup_ge_None in L.
    rewrite (drop_ge dimensions k L), (drop_ge dimensions (S k)) by lia.
    rewrite combine_nil. destruct (k <? length dimensions)%nat; reflexivity.
Qed.

(** The second loop of method 2, over the [n] indices from [a] on. *)
Lemma extra_loop (dimensions : list (Z * Z * Q * Q)) (n a : nat) :
  n = (length dimensions - a)%nat ->
  flat_map
    (fun i =>
       match dimensions !! i with
       | Some dim => [unknown_runway dim]
       | None => []
       end)
    (List.seq a n) =
  map unknown_runway (drop a dimensions).
Proof.
  revert a. induction n as [|n IH]; intros a Hn; simpl.
  - rewrite drop_ge by lia. reflexivity.
  - destruct (dimensions !! a) as [dim|] eqn:L.
    + rewrite (drop_S _ _ _ L). simpl. rewrite IH by lia. reflexivity.
    + apply lookup_ge_None in L. lia.
Qed.

(** Method 2 is the zip of its two lists followed by the dimensions left
    over. *)
Lemma method2_zipped (designators : list string) (dimensions : list (Z * Z * Q * Q)) :
  method2 designators dimensions = zipped_runways designators dimensions.
Proof.
  unfold method2, zipped_runways, enumerate, range. cbv zeta.
  rewrite (matched_loop designators dimensions 0), drop_0.
  rewrite (extra_loop dimensions _ (length designators) eq_refl). reflexivity.
Qed.

Lemma zipped_nil (designators : list string) (dimensions : list (Z * Z * Q * Q)) :
  zipped_runways designators dimensions = [] -> dimensions = [].
Proof.
  unfold zipped_runways. intros H. apply app_eq_nil in H as [H1 H2].
  destruct designators as [|d designators].
  - simpl in H2. destruct dimensions; [reflexivity|discriminate].
  - destruct dimensions; [reflexivity|discriminate].
Qed.


Lemma method3_unknown (d : positions) (full_text : string) :
  Forall (fun r => ri_designator r = "Unknown" /\ 2000 <= ri_length_ft r)
         (method3 d full_text).
Proof.
  unfold method3. apply List.Forall_map, List.Forall_forall.
  intros m Hm. apply List.filter_In in Hm as [_ Hm].
  unfold runway_sized in Hm. simpl. apply Z.geb_le in Hm. auto.
Qed.

(** *** The designators of method 2 *)












(** Method 3 walks the dimensions that method 2 has already turned into
    records: when methods 1 and 2 yield nothing, it yields nothing, and the
    records are always those of method 1 or of method 2. *)
Theorem method3_adds_nothing (p : page) :
  let positions := dimension_positions (pg_blocks p) in
  let tier1 := method1 positions (pg_text p) in
  let tier2 := method2 (all_designators (pg_text p))
                       (all_dimensions positions (pg_text p)) in
  (tier1 = [] -> tier2 = [] -> method3 positions (pg_text p) = []) /\
  fst (extract_runway_info p) = if is_empty tier1 then tier2 else tier1.
Proof.
  intros positions tier1 tier2.
  assert (H3 : tier2 = [] -> method3 positions (pg_text p) = []).
  { unfold tier2. rewrite method2_zipped. intros H. apply zipped_nil in H.
    unfold all_dimensions in H. apply map_eq_nil in H.
    unfold method3. rewrite H. reflexivity. }
  split; [intros _; exact H3|].
  unfold extract_runway_info. cbv zeta. simpl fst.
  fold positions. fold tier1. fold tier2.
  destruct tier1; [|reflexivity]. simpl.
  destruct tier2; [|reflexivity]. simpl. apply H3. reflexivity.
Qed.

(** A page that names a runway and shows no dimension. *)
Lemma method3_adds_nothing_witness :
  let p := mkPage 600 800 "RWY 04L-22R S100 1500 x 60" [] in
  method3 (dimension_positions (pg_blocks p)) (pg_text p) = [].
Proof.
  intros p.
  apply (proj1 (method3_adds_nothing p)); vm_compute; reflexivity.
Defined.

End RunwayInfoFacts.

(* ===================================================================== *)
(** ** The taxiway report as a whole *)
(* ===================================================================== *)

Module TaxiwayReportFacts.
Import PyStr Comparator Spec ListFacts TaxiwayFacts.

Lemma is_taxiway_kind_true (k : taxiway_change_type) (c : TaxiwayChange) :
  is_taxiway_kind k c = true <-> tc_change_type c = k.
Proof.
  unfold is_taxiway_kind. destruct k, (tc_change_type c); split; congruence.
Qed.

Lemma is_taxiway_kind_false (k : taxiway_change_type) (c : TaxiwayChange) :
  is_taxiway_kind k c = false <-> tc_change_type c <> k.
Proof.
  unfold is_taxiway_kind. destruct k, (tc_change_type c); split; congruence.
Qed.

Lemma count_app {A : Type} (p : A -> bool) (l1 l2 : list A) :
  count p (l1 ++ l2) = (count p l1 + count p l2)%nat.
Proof. unfold count. rewrite List.filter_app, List.length_app. reflexivity. Qed.

Lemma count_all {A : Type} (p : A -> bool) (l : list A) :
  (forall a, In a l -> p a = true) -> count p l = length l.
Proof. intros H. unfold count. rewrite filter_id_all; auto. Qed.

Lemma count_none {A : Type} (p : A -> bool) (l : list A) :
  (forall a, In a l -> p a = false) -> count p l = 0%nat.
Proof. intros H. unfold count. rewrite filter_nil_all; auto. Qed.

(** A pass over designators that all occur among the labels reports
    each of them once. *)
Lemma length_report_pass (mk : string -> label -> TaxiwayChange)
    (labels : list label) (ds : list string) :
  (forall d, In d ds -> d ∈ designator_set labels) ->
  length (flat_map (report_first mk labels) ds) = length ds.
Proof.
  induction ds as [|d ds IH]; intros H; [reflexivity|].
  cbn [flat_map]. rewrite List.length_app, IH by (intros; apply H; now right).
  unfold report_first.
  destruct (first_label_found d labels) as [l ->]; [apply H; now left|reflexivity].
Qed.

Lemma length_pass_difference (mk : string -> label -> TaxiwayChange)
    (labels : list label) (Y : gset string) :
  length (flat_map (report_first mk labels) (elements (designator_set labels ∖ Y)))
  = size (designator_set labels ∖ Y).
Proof.
  rewrite length_report_pass; [reflexivity|].
  intros d Hd. apply list_elem_of_In, elem_of_elements, elem_of_difference in Hd.
  apply Hd.
Qed.

(** The list of changes is the ADDED pass, then the REMOVED pass, then
    the RENAMED pass. *)
Lemma compare_taxiway_labels_passes (old_labels new_labels : list label) :
  exists A R N,
    compare_taxiway_labels old_labels new_labels = (A ++ R ++ N)%list /\
    A = flat_map (report_first added_change new_labels)
          (elements (designator_set new_labels ∖ designator_set old_labels)) /\
    R = flat_map (report_first removed_change old_labels)
          (elements (designator_set old_labels ∖ designator_set new_labels)) /\
    (forall c, In c A -> tc_change_type c = ADDED) /\
    (forall c, In c R -> tc_change_type c = REMOVED) /\
    (forall c, In c N -> tc_change_type c = RENAMED).
Proof.
  eexists _, _, _. split; [reflexivity|]. split; [reflexivity|]. split; [reflexivity|].
  split; [|split].
  - intros c. apply in_report_first_kind. reflexivity.
  - intros c. apply in_report_first_kind. reflexivity.
  - intros c Hc. apply in_renamed_pass in Hc as (o & n & _ & _ & _ & _ & ->). reflexivity.
Qed.

Lemma taxiway_counts (old_labels new_labels : list label) :
  let changes := compare_taxiway_labels old_labels new_labels in
  count (is_taxiway_kind ADDED) changes
    = size (designator_set new_labels ∖ designator_set old_labels) /\
  count (is_taxiway_kind REMOVED) changes
    = size (designator_set old_labels ∖ designator_set new_labels) /\
  (count (is_taxiway_kind ADDED) changes + count (is_taxiway_kind REMOVED) changes
   + count (is_taxiway_kind RENAMED) changes)%nat = length changes.
Proof.
  intros changes. subst changes.
  destruct (compare_taxiway_labels_passes old_labels new_labels)
    as (A & R & N & -> & HA & HR & kA & kR & kN).
  assert (lA : length A = size (designator_set new_labels ∖ designator_set old_labels))
    by (subst A; apply length_pass_difference).
  assert (lR : length R = size (designator_set old_labels ∖ designator_set new_labels))
    by (subst R; apply length_pass_difference).
  clear HA HR.
  rewrite !count_app, !List.length_app.
  rewrite (count_all (is_taxiway_kind ADDED) A)
    by (intros c Hc; apply is_taxiway_kind_true; auto).
  rewrite (count_none (is_taxiway_kind ADDED) R)
    by (intros c Hc; apply is_taxiway_kind_false; rewrite (kR c Hc); discriminate).
  rewrite (count_none (is_taxiway_kind ADDED) N)
    by (intros c Hc; apply is_taxiway_kind_false; rewrite (kN c Hc); discriminate).
  rewrite (count_none (is_taxiway_kind REMOVED) A)
    by (intros c Hc; apply is_taxiway_kind_false; rewrite (kA c Hc); discriminate).
  rewrite (count_all (is_taxiway_kind REMOVED) R)
    by (intros c Hc; apply is_taxiway_kind_true; auto).
  rewrite (count_none (is_taxiway_kind REMOVED) N)
    by (intros c Hc; apply is_taxiway_kind_false; rewrite (kN c Hc); discriminate).
  rewrite (count_none (is_taxiway_kind RENAMED) A)
    by (intros c Hc; apply is_taxiway_kind_false; rewrite (kA c Hc); discriminate).
  rewrite (count_none (is_taxiway_kind RENAMED) R)
    by (intros c Hc; apply is_taxiway_kind_false; rewrite (kR c Hc); discriminate).
  rewrite (count_all (is_taxiway_kind RENAMED) N)
    by (intros c Hc; apply is_taxiway_kind_true; auto).
  rewrite <- lA, <- lR. repeat split; lia.
Qed.

Lemma size_difference_balance (X Y : gset string) :
  (size Y + size (X ∖ Y) = size X + size (Y ∖ X))%nat.
Proof.
  rewrite <- (size_union_alt Y X), <- (size_union_alt X Y).
  f_equal. apply union_comm_L.
Qed.

(** X2: the taxiway figures of the summary are set sizes: as many ADDED
    entries as there are designators only in the new extraction, as many
    REMOVED entries as there are designators only in the old one; the
    three taxiway figures add up to the length of the change list, the
    counts of distinct designators of the two sides differ by added
    minus removed, and the total is the sum of all the figures. *)
Theorem summary_figures (old_data new_data : extraction) :
  let result := compare_extractions old_data new_data in
  let s := summary result in
  let Dold := designator_set (default [] (ex_taxiway_labels old_data)) in
  let Dnew := designator_set (default [] (ex_taxiway_labels new_data)) in
  taxiways_added s = size (Dnew ∖ Dold) /\
  taxiways_removed s = size (Dold ∖ Dnew) /\
  (taxiways_added s + taxiways_removed s + taxiways_renamed s)%nat
    = length (taxiway_changes result) /\
  (new_unique_designators s + taxiways_removed s
   = old_unique_designators s + taxiways_added s)%nat /\
  total_changes s
    = (taxiways_added s + taxiways_removed s + taxiways_renamed s
       + sum_runway_changes s + sum_geometry_changes s)%nat.
Proof.
  intros result s Dold Dnew. subst result s. cbn.
  destruct (taxiway_counts (default [] (ex_taxiway_labels old_data))
                           (default [] (ex_taxiway_labels new_data)))
    as (Ha & Hr & Hsum).
  cbv zeta in Ha, Hr, Hsum. fold Dold Dnew in Ha, Hr.
  rewrite Hsum, Ha, Hr.
  split; [reflexivity|]. split; [reflexivity|]. split; [reflexivity|].
  split; [apply size_difference_balance|reflexivity].
Qed.

(** X3: a rename never comes alone: a RENAMED entry from [o] to [n] is
    in the list together with a REMOVED entry for [o] and an ADDED entry
    for [n]. *)
Theorem rename_comes_with_added_and_removed
    (old_labels new_labels : list label) (c : TaxiwayChange) :
  let changes := compare_taxiway_labels old_labels new_labels in
  In c changes -> tc_change_type c = RENAMED ->
  (exists a, In a changes /\ tc_change_type a = ADDED /\
             tc_designator a = tc_designator c) /\
  (exists r, In r changes /\ tc_change_type r = REMOVED /\
             tc_designator r = tc_old_designator c).
Proof.
  intros changes Hc Hk.
  destruct (proj1 (in_compare_renamed old_labels new_labels c) (conj Hc Hk))
    as (o & n & Ho & Hn & _ & Ht & ->).
  apply rename_test_true in Ht as (_ & Hon & Hno).
  assert (Hadd : lbl_designator n ∈ designator_set new_labels ∖ designator_set old_labels).
  { apply elem_of_difference. split; [|exact Hno].
    apply elem_of_designator_set. eauto. }
  assert (Hrem : lbl_designator o ∈ designator_set old_labels ∖ designator_set new_labels).
  { apply elem_of_difference. split; [|exact Hon].
    apply elem_of_designator_set. eauto. }
  split.
  - pose proof (added_for old_labels new_labels (lbl_designator n)) as E.
    rewrite bool_decide_true in E by exact Hadd.
    destruct (first_label_found (lbl_designator n) new_labels) as [l Hl];
      [apply elem_of_designator_set; eauto|].
    rewrite Hl in E. exists (added_change (lbl_designator n) l).
    assert (Hin : In (added_change (lbl_designator n) l)
                     (taxiway_changes_for ADDED (lbl_designator n) changes))
      by (subst changes; rewrite E; now left).
    apply List.filter_In in Hin as [Hin _]. split; [exact Hin|split; reflexivity].
  - pose proof (removed_for old_labels new_labels (lbl_designator o)) as E.
    rewrite bool_decide_true in E by exact Hrem.
    destruct (first_label_found (lbl_designator o) old_labels) as [l Hl];
      [apply elem_of_designator_set; eauto|].
    rewrite Hl in E. exists (removed_change (lbl_designator o) l).
    assert (Hin : In (removed_change (lbl_designator o) l)
                     (taxiway_changes_for REMOVED (lbl_designator o) changes))
      by (subst changes; rewrite E; now left).
    apply List.filter_In in Hin as [Hin _]. split; [exact Hin|split; reflexivity].
Qed.

Lemma rename_comes_with_added_and_removed_witness :
  let o := mkLabel "A" 0 0 (0, 0, 0, 0)%Q in
  let n := mkLabel "B" 1 0 (0, 0, 0, 0)%Q in
  let changes := compare_taxiway_labels [o] [n] in
  (exists a, In a changes /\ tc_change_type a = ADDED /\ tc_designator a = "B") /\
  (exists r, In r changes /\ tc_change_type r = REMOVED /\ tc_designator r = "A").
Proof.
  intros o n changes.
  apply (rename_comes_with_added_and_removed [o] [n] (renamed_change o n)).
  - vm_compute. right. right. left. reflexivity.
  - reflexivity.
Defined.


(** Where an entry of each kind can come from. *)
Lemma in_compare_kind (old_labels new_labels : list label) (c : TaxiwayChange) :
  In c (compare_taxiway_labels old_labels new_labels) ->
  (tc_change_type c = ADDED /\
   tc_designator c ∈ designator_set new_labels ∖ designator_set old_labels) \/
  (tc_change_type c = REMOVED /\
   tc_designator c ∈ designator_set old_labels ∖ designator_set new_labels) \/
  (tc_change_type c = RENAMED /\
   tc_old_designator c ∈ designator_set old_labels ∖ designator_set new_labels /\
   tc_designator c ∈ designator_set new_labels ∖ designator_set old_labels).
Proof.
  intros Hc.
  destruct (tc_change_type c) eqn:Hk.
  - left. split; [reflexivity|].
    assert (Hin : In c (taxiway_changes_for ADDED (tc_designator c)
                          (compare_taxiway_labels old_labels new_labels))).
    { apply List.filter_In. split; [exact Hc|].
      rewrite String.eqb_refl, andb_true_r. apply is_taxiway_kind_true, Hk. }
    rewrite added_for in Hin. case_bool_decide as Hd; [exact Hd|destruct Hin].
  - right. left. split; [reflexivity|].
    assert (Hin : In c (taxiway_changes_for REMOVED (tc_designator c)
                          (compare_taxiway_labels old_labels new_labels))).
    { apply List.filter_In. split; [exact Hc|].
      rewrite String.eqb_refl, andb_true_r. apply is_taxiway_kind_true, Hk. }
    rewrite removed_for in Hin. case_bool_decide as Hd; [exact Hd|destruct Hin].
  - right. right. split; [reflexivity|].
    destruct (proj1 (in_compare_renamed old_labels new_labels c) (conj Hc Hk))
      as (o & n & Ho & Hn & _ & Ht & ->).
    apply rename_test_true in Ht as (_ & Hon & Hno). cbn.
    split; apply elem_of_difference; (split; [apply elem_of_designator_set; eauto|assumption]).
Qed.

(** X4: compared with an extraction that has no taxiway labels (none
    found, or the key missing), every designator of the other side is
    reported once, as ADDED when the old side is the empty one and as
    REMOVED when the new side is, and nothing is reported as renamed. *)
Theorem empty_side_all_added_or_removed (old_data new_data : extraction) :
  let result := compare_extractions old_data new_data in
  (default [] (ex_taxiway_labels old_data) = [] ->
   Forall (fun c => tc_change_type c = ADDED) (taxiway_changes result) /\
   length (taxiway_changes result) = new_unique_designators (summary result)) /\
  (default [] (ex_taxiway_labels new_data) = [] ->
   Forall (fun c => tc_change_type c = REMOVED) (taxiway_changes result) /\
   length (taxiway_changes result) = old_unique_designators (summary result)).
Proof.
  intros result. subst result. cbn.
  set (old_labels := default [] (ex_taxiway_labels old_data)).
  set (new_labels := default [] (ex_taxiway_labels new_data)).
  destruct (taxiway_counts old_labels new_labels) as (Ha & Hr & Hsum).
  cbv zeta in Ha, Hr, Hsum.
  split; intros E.
  - assert (Hall : forall c, In c (compare_taxiway_labels old_labels new_labels) ->
                             tc_change_type c = ADDED).
    { intros c Hc. apply in_compare_kind in Hc as [[Hk _]|[[_ Hd]|[_ [Hd _]]]];
        [exact Hk| |]; rewrite E in Hd; apply elem_of_difference in Hd as [Hd _];
        apply elem_of_designator_set in Hd as (l & [] & _). }
    split; [apply List.Forall_forall, Hall|].
    rewrite <- (count_all (is_taxiway_kind ADDED))
      by (intros c Hc; apply is_taxiway_kind_true, Hall, Hc).
    rewrite Ha, E. f_equal. apply leibniz_equiv.
    change (designator_set []) with (∅ : gset string). apply difference_empty.
  - assert (Hall : forall c, In c (compare_taxiway_labels old_labels new_labels) ->
                             tc_change_type c = REMOVED).
    { intros c Hc. apply in_compare_kind in Hc as [[_ Hd]|[[Hk _]|[_ [_ Hd]]]];
        [|exact Hk|]; rewrite E in Hd; apply elem_of_difference in Hd as [Hd _];
        apply elem_of_designator_set in Hd as (l & [] & _). }
    split; [apply List.Forall_forall, Hall|].
    rewrite <- (count_all (is_taxiway_kind REMOVED))
      by (intros c Hc; apply is_taxiway_kind_true, Hall, Hc).
    rewrite Hr, E. f_equal. apply leibniz_equiv.
    change (designator_set []) with (∅ : gset string). apply difference_empty.
Qed.

Lemma empty_side_all_added_or_removed_witness :
  let lab := fun d x y => mkLabel d (inject_Z x) (inject_Z y) (0, 0, 0, 0)%Q in
  let old_data := mkExtraction (Some "JFK") (Some "2513") None None None in
  let new_data :=
    mkExtraction (Some "JFK") (Some "2601")
      (Some [lab "A" 10 10; lab "B" 20 20; lab "A" 30 30]) None None in
  let result := compare_extractions old_data new_data in
  Forall (fun c => tc_change_type c = ADDED) (taxiway_changes result) /\
  length (taxiway_changes result) = new_unique_designators (summary result).
Proof.
  intros lab old_data new_data result.
  apply (empty_side_all_added_or_removed old_data new_data). reflexivity.
Defined.

Lemma distance_sq_sym (x1 y1 x2 y2 : Q) :
  (distance_sq x1 y1 x2 y2 == distance_sq x2 y2 x1 y1)%Q.
Proof. unfold distance_sq. ring. Qed.

Lemma Qltb_proper (a a' b : Q) : (a == a')%Q -> Qltb a b = Qltb a' b.
Proof.
  intros E. unfold Qltb. f_equal.
  destruct (Qle_bool b a) eqn:H1, (Qle_bool b a') eqn:H2; try reflexivity.
  - apply Qle_bool_iff in H1. rewrite E in H1. apply Qle_bool_iff in H1. congruence.
  - apply Qle_bool_iff in H2. rewrite <- E in H2. apply Qle_bool_iff in H2. congruence.
Qed.

Lemma distance_lt_sym (x1 y1 x2 y2 t : Q) :
  distance_lt x1 y1 x2 y2 t = distance_lt x2 y2 x1 y1 t.
Proof.
  unfold distance_lt. f_equal. apply Qltb_proper, distance_sq_sym.
Qed.

Lemma rename_test_sym (Da Db : gset string) (o n : label) :
  rename_test Da Db o n = rename_test Db Da n o.
Proof.
  unfold rename_test. rewrite (String.eqb_sym (lbl_designator o)).
  destruct (negb (lbl_designator n =? lbl_designator o)%string),
           (bool_decide (lbl_designator o ∈ Db)),
           (bool_decide (lbl_designator n ∈ Da)); reflexivity.
Qed.

Lemma reports_added_iff (old_labels new_labels : list label) (d : string) (x y : Q) :
  reports_taxiway ADDED d x y (compare_taxiway_labels old_labels new_labels) <->
  d ∈ designator_set new_labels ∖ designator_set old_labels /\
  exists l, first_label d new_labels = Some l /\ lbl_x l = x /\ lbl_y l = y.
Proof.
  split.
  - intros (c & Hc & Hk & Hd & Hx & Hy).
    assert (Hin : In c (taxiway_changes_for ADDED d
                          (compare_taxiway_labels old_labels new_labels))).
    { apply List.filter_In. split; [exact Hc|].
      rewrite Hd, String.eqb_refl, andb_true_r. apply is_taxiway_kind_true, Hk. }
    rewrite added_for in Hin. case_bool_decide as HD; [|destruct Hin].
    split; [exact HD|].
    destruct (first_label d new_labels) as [l|]; [|destruct Hin].
    destruct Hin as [<-|[]]. exists l. auto.
  - intros (HD & l & Hl & Hx & Hy).
    pose proof (added_for old_labels new_labels d) as E.
    rewrite bool_decide_true, Hl in E by exact HD.
    exists (added_change d l).
    assert (Hin : In (added_change d l)
                     (taxiway_changes_for ADDED d
                        (compare_taxiway_labels old_labels new_labels)))
      by (rewrite E; now left).
    apply List.filter_In in Hin as [Hin _]. repeat (split; [assumption || reflexivity|]).
    exact Hy.
Qed.

Lemma reports_removed_iff (old_labels new_labels : list label) (d : string) (x y : Q) :
  reports_taxiway REMOVED d x y (compare_taxiway_labels old_labels new_labels) <->
  d ∈ designator_set old_labels ∖ designator_set new_labels /\
  exists l, first_label d old_labels = Some l /\ lbl_x l = x /\ lbl_y l = y.
Proof.
  split.
  - intros (c & Hc & Hk & Hd & Hx & Hy).
    assert (Hin : In c (taxiway_changes_for REMOVED d
                          (compare_taxiway_labels old_labels new_labels))).
    { apply List.filter_In. split; [exact Hc|].
      rewrite Hd, String.eqb_refl, andb_true_r. apply is_taxiway_kind_true, Hk. }
    rewrite removed_for in Hin. case_bool_decide as HD; [|destruct Hin].
    split; [exact HD|].
    destruct (first_label d old_labels) as [l|]; [|destruct Hin].
    destruct Hin as [<-|[]]. exists l. auto.
  - intros (HD & l & Hl & Hx & Hy).
    pose proof (removed_for old_labels new_labels d) as E.
    rewrite bool_decide_true, Hl in E by exact HD.
    exists (removed_change d l).
    assert (Hin : In (removed_change d l)
                     (taxiway_changes_for REMOVED d
                        (compare_taxiway_labels old_labels new_labels)))
      by (rewrite E; now left).
    apply List.filter_In in Hin as [Hin _]. repeat (split; [assumption || reflexivity|]).
    exact Hy.
Qed.

Lemma reports_rename_iff (old_labels new_labels : list label) (od nd : string) (x y : Q) :
  reports_rename od nd x y (compare_taxiway_labels old_labels new_labels) <->
  exists o n,
    In o old_labels /\ In n new_labels /\
    distance_lt (lbl_x o) (lbl_y o) (lbl_x n) (lbl_y n) LOCATION_THRESHOLD = true /\
    rename_test (designator_set old_labels) (designator_set new_labels) o n = true /\
    lbl_designator o = od /\ lbl_designator n = nd /\ lbl_x n = x /\ lbl_y n = y.
Proof.
  split.
  - intros (c & Hc & Hk & Ho & Hn & Hx & Hy).
    destruct (proj1 (in_compare_renamed old_labels new_labels c) (conj Hc Hk))
      as (o & n & Hio & Hin & Hd & Ht & ->).
    exists o, n. cbn in *. auto 10.
  - intros (o & n & Hio & Hin & Hd & Ht & Ho & Hn & Hx & Hy).
    exists (renamed_change o n).
    destruct (proj2 (in_compare_renamed old_labels new_labels (renamed_change o n)))
      as [Hc Hk]; [exists o, n; auto|].
    cbn. auto 10.
Qed.

(** X5: exchanging the two extractions exchanges the reading: a
    designator is reported ADDED at a point exactly when the exchanged
    comparison reports it REMOVED at that point, and a rename from [o]
    to [n] is reported exactly when the exchanged comparison reports one
    from [n] to [o]. *)
Theorem compare_taxiway_labels_exchanged (a b : list label) :
  (forall d x y,
     reports_taxiway ADDED d x y (compare_taxiway_labels a b) <->
     reports_taxiway REMOVED d x y (compare_taxiway_labels b a)) /\
  (forall o n,
     (exists x y, reports_rename o n x y (compare_taxiway_labels a b)) <->
     (exists x y, reports_rename n o x y (compare_taxiway_labels b a))).
Proof.
  split.
  - intros d x y. rewrite reports_added_iff, reports_removed_iff. reflexivity.
  - intros o n. split.
    + intros (x & y & H). apply reports_rename_iff in H
        as (lo & ln & Hio & Hin & Hd & Ht & Ho & Hn & _ & _).
      exists (lbl_x lo), (lbl_y lo). apply reports_rename_iff.
      exists ln, lo. rewrite distance_lt_sym, rename_test_sym. auto 10.
    + intros (x & y & H). apply reports_rename_iff in H
        as (ln & lo & Hin & Hio & Hd & Ht & Hn & Ho & _ & _).
      exists (lbl_x ln), (lbl_y ln). apply reports_rename_iff.
      exists lo, ln. rewrite distance_lt_sym, rename_test_sym. auto 10.
Qed.

End TaxiwayReportFacts.

(* ===================================================================== *)
(** ** The runway report as a whole *)
(* ===================================================================== *)

Module RunwayReportFacts.
Import PyStr Comparator Spec ListFacts PyDictFacts RunwayFacts PyStrFacts NormalizeFacts.

Lemma by_designator_fold (runways : list runway) :
  by_designator runways =
  fold_left (fun (d : PyDict.dict runway) (rwy : runway) =>
               if is_named rwy then PyDict.set (normalized_designator rwy) rwy d else d)
            runways [].
Proof. reflexivity. Qed.

Lemma find_snoc {A : Type} (p : A -> bool) (l : list A) (a : A) :
  find p (l ++ [a]) =
  match find p l with
  | Some x => Some x
  | None => if p a then Some a else None
  end.
Proof.
  induction l as [|b l IH]; simpl; [reflexivity|].
  destruct (p b); [reflexivity|exact IH].
Qed.

(** Of the records compared under one designator the last one is kept. *)
Lemma get_by_designator (d : string) (runways : list runway) :
  PyDict.get d (by_designator runways) = last_named d runways.
Proof.
  rewrite by_designator_fold.
  assert (G : forall acc,
    PyDict.get d
      (fold_left (fun (d : PyDict.dict runway) (rwy : runway) =>
                    if is_named rwy then PyDict.set (normalized_designator rwy) rwy d else d)
                 runways acc) =
    match last_named d runways with
    | Some r => Some r
    | None => PyDict.get d acc
    end).
  { induction runways as [|r runways IH]; intros acc; [reflexivity|].
    cbn [fold_left]. rewrite IH. unfold last_named. cbn [List.filter].
    destruct (is_named r) eqn:En.
    - cbn [rev]. rewrite find_snoc.
      destruct (find _ (rev (List.filter is_named runways))); [reflexivity|].
      destruct (String.eqb_spec (normalized_designator r) d) as [<-|Hne].
      + apply get_set_eq.
      + apply get_set_ne, Hne.
    - reflexivity. }
  rewrite G. destruct (last_named d runways); reflexivity.
Qed.

Lemma last_named_some (d : string) (runways : list runway) (r : runway) :
  last_named d runways = Some r ->
  In r runways /\ is_named r = true /\ normalized_designator r = d.
Proof.
  unfold last_named. intros H. apply find_some in H as [Hin Hd].
  apply in_rev, List.filter_In in Hin as [Hin Hn].
  repeat split; try assumption. apply String.eqb_eq, Hd.
Qed.

Lemma last_named_none (d : string) (runways : list runway) :
  last_named d runways = None <->
  forall r, In r runways -> is_named r = true -> normalized_designator r <> d.
Proof.
  unfold last_named. split.
  - intros H r Hin Hn E.
    assert (F : String.eqb (normalized_designator r) d = false).
    { apply (find_none _ _ H r). apply -> in_rev. apply List.filter_In. auto. }
    apply String.eqb_neq in F. contradiction.
  - intros H. destruct (find _ _) as [r|] eqn:E; [|reflexivity].
    apply find_some in E as [Hin Hd].
    apply in_rev, List.filter_In in Hin as [Hin Hn].
    exfalso. apply (H r Hin Hn). apply String.eqb_eq, Hd.
Qed.

(** A pass over the items of a lookup map, filtered by designator. *)
Lemma keyed_pass_for (g : string -> runway -> list RunwayChange)
    (dct : PyDict.dict runway) (d : string) :
  List.NoDup (PyDict.keys dct) ->
  (forall k v c, In c (g k v) -> rc_designator c = k) ->
  runway_changes_for d (flat_map (fun '(k, v) => g k v) (PyDict.items dct)) =
  match PyDict.get d dct with
  | Some v => g d v
  | None => []
  end.
Proof.
  intros Hnd Hg. unfold runway_changes_for. rewrite filter_flat_map.
  fold (runway_changes_for d).
  destruct (PyDict.get d dct) as [v|] eqn:E.
  - rewrite (flat_map_single _ (PyDict.items dct) (d, v)).
    + apply keyed_pass_same. intros c. apply Hg.
    + apply NoDup_items, Hnd.
    + apply get_In, E.
    + intros [k w] Hin Hne.
      apply (keyed_pass_other d (fun '(k, v) => g k v) (k, w)).
      * intros c. apply Hg.
      * simpl. intros ->. apply Hne. f_equal.
        apply (In_get d w dct Hnd) in Hin. congruence.
  - apply flat_map_nil_all. intros [k w] Hin.
    apply (keyed_pass_other d (fun '(k, v) => g k v) (k, w)).
    + intros c. apply Hg.
    + simpl. intros ->. apply (In_get d w dct Hnd) in Hin. congruence.
Qed.

(** What is reported for one designator, whichever side knows it. *)
Lemma changes_for_cases (old_runways new_runways : list runway) (d : string) :
  runway_changes_for d (compare_runway_dimensions old_runways new_runways) =
  match last_named d new_runways, last_named d old_runways with
  | Some n, Some o => dimension_changes d o n
  | Some n, None => [runway_added d n]
  | None, Some o => [runway_removed d o]
  | None, None => []
  end.
Proof.
  unfold compare_runway_dimensions. cbv zeta.
  set (old_by := by_designator old_runways).
  set (new_by := by_designator new_runways).
  unfold runway_changes_for at 1. rewrite !List.filter_app.
  fold (runway_changes_for d).
  pose proof (keyed_pass_for
                (fun designator rwy =>
                   if negb (PyDict.contains designator old_by)
                   then [runway_added designator rwy] else []) new_by d
                (NoDup_by_designator new_runways)) as E1.
  pose proof (keyed_pass_for
                (fun designator rwy =>
                   if negb (PyDict.contains designator new_by)
                   then [runway_removed designator rwy] else []) old_by d
                (NoDup_by_designator old_runways)) as E2.
  pose proof (keyed_pass_for
                (fun designator new_rwy =>
                   match PyDict.get designator old_by with
                   | Some old_rwy => dimension_changes designator old_rwy new_rwy
                   | None => []
                   end) new_by d
                (NoDup_by_designator new_runways)) as E3.
  cbv beta in E1, E2, E3. unfold runway_changes_for in E1, E2, E3.
  rewrite E1, E2, E3; clear E1 E2 E3.
  2:{ intros k v c. destruct (PyDict.get k old_by); [|intros []].
      apply dimension_changes_designator. }
  2:{ intros k v c. destruct (negb _); [intros [<-|[]]; reflexivity|intros []]. }
  2:{ intros k v c. destruct (negb _); [intros [<-|[]]; reflexivity|intros []]. }
  unfold PyDict.contains. subst old_by new_by. rewrite !get_by_designator.
  destruct (last_named d new_runways), (last_named d old_runways); simpl;
    rewrite ?app_nil_r; reflexivity.
Qed.


Lemma knows_last_named (runways : list runway) (d : string) :
  knows runways d <-> exists r, last_named d runways = Some r.
Proof.
  split.
  - intros (r & Hin & Hn & Hd).
    destruct (last_named d runways) as [r'|] eqn:E; [eauto|].
    exfalso. exact (proj1 (last_named_none d runways) E r Hin Hn Hd).
  - intros (r & E). exists r. apply last_named_some, E.
Qed.

Lemma not_knows_last_named (runways : list runway) (d : string) :
  ~ knows runways d <-> last_named d runways = None.
Proof.
  rewrite knows_last_named. destruct (last_named d runways) as [r|].
  - split; [intros H; exfalso; apply H; eauto|discriminate].
  - split; [reflexivity|intros _ [r [=]]].
Qed.

(** X6: a runway is reported RUNWAY_ADDED exactly when some record of
    the new list, and none of the old one, is compared under its
    designator, and RUNWAY_REMOVED in the mirrored case; the entry is
    then the only one for that designator and carries the dimensions of
    the last such record. *)
Theorem runway_added_or_removed (old_runways new_runways : list runway) (d : string) :
  let changes := compare_runway_dimensions old_runways new_runways in
  (reports RUNWAY_ADDED d changes <-> knows new_runways d /\ ~ knows old_runways d) /\
  (reports RUNWAY_REMOVED d changes <-> knows old_runways d /\ ~ knows new_runways d) /\
  (knows new_runways d -> ~ knows old_runways d ->
   exists n, last_named d new_runways = Some n /\
     runway_changes_for d changes =
       [mkRunwayChange RUNWAY_ADDED d 0 (get_length n) 0 (get_width n)
          0%Q 0%Q (get_x n) (get_y n)
          ("New runway " ++ d ++ ": " ++ str_of_int (get_length n)
             ++ " x " ++ str_of_int (get_width n) ++ " ft")]) /\
  (knows old_runways d -> ~ knows new_runways d ->
   exists o, last_named d old_runways = Some o /\
     runway_changes_for d changes =
       [mkRunwayChange RUNWAY_REMOVED d (get_length o) 0 (get_width o) 0
          (get_x o) (get_y o) 0%Q 0%Q
          ("Runway " ++ d ++ " removed (was " ++ str_of_int (get_length o)
             ++ " x " ++ str_of_int (get_width o) ++ " ft)")]).
Proof.
  intros changes. subst changes.
  rewrite !reports_for, changes_for_cases, !not_knows_last_named, !knows_last_named.
  destruct (last_named d new_runways) as [n|], (last_named d old_runways) as [o|].
  - split; [|split; [|split]].
    + split; [|intros [_ [=]]].
      intros (c & Hc & Hk). exfalso.
      assert (H : exists c, In c (dimension_changes d o n) /\ rc_change_type c = RUNWAY_ADDED)
        by eauto.
      apply reports_dimension_changes in H as [[[=] _]|[[=] _]].
    + split; [|intros [_ [=]]].
      intros (c & Hc & Hk). exfalso.
      assert (H : exists c, In c (dimension_changes d o n) /\ rc_change_type c = RUNWAY_REMOVED)
        by eauto.
      apply reports_dimension_changes in H as [[[=] _]|[[=] _]].
    + intros _ [=].
    + intros _ [=].
  - split; [|split; [|split]].
    + split; [eauto|]. intros _. exists (runway_added d n). split; [now left|reflexivity].
    + split; [intros (c & [<-|[]] & [=])|intros [[r [=]] _]].
    + intros _ _. exists n. split; reflexivity.
    + intros [r [=]].
  - split; [|split; [|split]].
    + split; [intros (c & [<-|[]] & [=])|intros [[r [=]] _]].
    + split; [eauto|]. intros _. exists (runway_removed d o). split; [now left|reflexivity].
    + intros [r [=]].
    + intros _ _. exists o. split; reflexivity.
  - split; [|split; [|split]].
    + split; [intros (c & [] & _)|intros [[r [=]] _]].
    + split; [intros (c & [] & _)|intros [[r [=]] _]].
    + intros [r [=]].
    + intros [r [=]].
Qed.

Lemma runway_added_or_removed_witness :
  let rwy := fun d l w => mkRunway (Some d) (Some l) (Some w) None None None None in
  let old_runways := [rwy "4L/22R" 8000 150] in
  let new_runways := [rwy "4l-22r" 8000 150; rwy "27-9" 5000 100; rwy "9/27" 5200 100] in
  exists n, last_named "9/27" new_runways = Some n /\
    runway_changes_for "9/27" (compare_runway_dimensions old_runways new_runways) =
      [mkRunwayChange RUNWAY_ADDED "9/27" 0 (get_length n) 0 (get_width n)
         0%Q 0%Q (get_x n) (get_y n)
         ("New runway " ++ "9/27" ++ ": " ++ str_of_int (get_length n)
            ++ " x " ++ str_of_int (get_width n) ++ " ft")].
Proof.
  intros rwy old_runways new_runways.
  apply (runway_added_or_removed old_runways new_runways "9/27").
  - exists (rwy "9/27" 5200 100). split; [right; right; left; reflexivity|].
    split; vm_compute; reflexivity.
  - intros (r & [<-|[]] & _ & E). vm_compute in E. discriminate.
Defined.

(** X7: where several records are compared under one designator, the
    lookup map holds the last of them: a record followed by no other
    record of its designator is the one compared. *)
Theorem duplicate_designator_last_wins
    (before after : list runway) (r : runway) :
  is_named r = true ->
  Forall (fun r' => is_named r' = true ->
                    normalized_designator r' <> normalized_designator r) after ->
  PyDict.get (normalized_designator r) (by_designator (before ++ r :: after)) = Some r.
Proof.
  intros Hn Hafter. rewrite get_by_designator. unfold last_named.
  rewrite List.filter_app. cbn [List.filter]. rewrite Hn.
  rewrite rev_app_distr. cbn [rev]. rewrite <- !app_assoc. cbn [app].
  assert (H : find (fun r0 => String.eqb (normalized_designator r0) (normalized_designator r))
                   (rev (List.filter is_named after)) = None).
  { destruct (find _ _) as [x|] eqn:E; [|reflexivity].
    apply find_some in E as [Hin Hd].
    apply in_rev, List.filter_In in Hin as [Hin Hx].
    apply String.eqb_eq in Hd.
    exfalso. exact (proj1 (List.Forall_forall _ _) Hafter x Hin Hx Hd). }
  revert H. generalize (rev (List.filter is_named after)) as l.
  induction l as [|x l IH]; cbn [find app].
  - intros _. rewrite String.eqb_refl. reflexivity.
  - destruct (String.eqb (normalized_designator x) (normalized_designator r));
      [discriminate|exact IH].
Qed.

Lemma duplicate_designator_last_wins_witness :
  let rwy := fun d l w => mkRunway (Some d) (Some l) (Some w) None None None None in
  PyDict.get "9/27"
    (by_designator [rwy "27-9" 5000 100; rwy "9/27" 5200 100; rwy "4L/22R" 8000 150])
  = Some (rwy "9/27" 5200 100).
Proof.
  intros rwy.
  apply (duplicate_designator_last_wins [rwy "27-9" 5000 100] [rwy "4L/22R" 8000 150]
           (rwy "9/27" 5200 100)).
  - reflexivity.
  - constructor; [|constructor]. intros _ E. vm_compute in E. discriminate.
Defined.

Lemma by_designator_named (runways : list runway) :
  by_designator (List.filter is_named runways) = by_designator runways.
Proof.
  rewrite !by_designator_fold. generalize ([] : PyDict.dict runway) as acc.
  induction runways as [|r runways IH]; intros acc; [reflexivity|].
  cbn [List.filter fold_left]. destruct (is_named r) eqn:E.
  - cbn [fold_left]. rewrite E. apply IH.
  - apply IH.
Qed.

Lemma normalize_unknown (s : string) :
  upper s = "UNKNOWN" -> normalize_runway_designator s = "UNKNOWN".
Proof.
  intros Hs.
  assert (Hd : has_char "-" s = false)
    by (rewrite <- has_char_upper_dash, Hs; reflexivity).
  assert (Hl : has_char "/" s = false)
    by (rewrite <- has_char_upper_slash, Hs; reflexivity).
  rewrite normalize_other; rewrite (replace_absent "-" "/" s Hd).
  - exact Hs.
  - rewrite (split_absent "/" s Hl). discriminate.
Qed.

(** X8: records without a usable designator take no part in the runway
    comparison: one whose designator is missing, empty or, in any
    spelling of upper and lower case, the word unknown can be dropped
    from either list without changing the report. *)
Theorem unnamed_records_ignored :
  (forall old_runways new_runways : list runway,
     compare_runway_dimensions (List.filter is_named old_runways)
                               (List.filter is_named new_runways)
     = compare_runway_dimensions old_runways new_runways) /\
  (forall r : runway,
     rw_designator r = None \/ rw_designator r = Some "" \/
     (exists s, rw_designator r = Some s /\ upper s = "UNKNOWN") ->
     is_named r = false).
Proof.
  split.
  - intros old_runways new_runways. unfold compare_runway_dimensions.
    rewrite !by_designator_named. reflexivity.
  - intros r [E|[E|(s & E & Hs)]]; unfold is_named.
    + unfold normalized_designator. rewrite E. reflexivity.
    + unfold normalized_designator. rewrite E. reflexivity.
    + assert (N : normalized_designator r = "UNKNOWN")
        by (unfold normalized_designator; rewrite E; exact (normalize_unknown s Hs)).
      rewrite N. reflexivity.
Qed.


Lemma unnamed_records_ignored_witness :
  is_named (mkRunway (Some "Unknown") (Some 8000) (Some 150) None None None None) = false.
Proof.
  apply (proj2 unnamed_records_ignored). right. right.
  exists "Unknown". split; reflexivity.
Defined.

Lemma is_named_true (r : runway) :
  is_named r = true <->
  normalized_designator r <> "" /\ normalized_designator r <> "UNKNOWN".
Proof.
  unfold is_named. rewrite andb_true_iff, !negb_true_iff, !String.eqb_neq. reflexivity.
Qed.

(** X9: every entry of the runway report stands under a designator in
    normal form that is neither empty nor UNKNOWN and under which a
    record of one of the two lists is compared, and no designator has
    more than two entries. *)
Theorem reported_runway_designators
    (old_runways new_runways : list runway) (c : RunwayChange) :
  let changes := compare_runway_dimensions old_runways new_runways in
  In c changes ->
  rc_designator c <> "" /\ rc_designator c <> "UNKNOWN" /\
  normalize_runway_designator (rc_designator c) = rc_designator c /\
  (knows old_runways (rc_designator c) \/ knows new_runways (rc_designator c)) /\
  (length (runway_changes_for (rc_designator c) changes) <= 2)%nat.
Proof.
  intros changes Hc. subst changes.
  set (d := rc_designator c).
  assert (Hin : In c (runway_changes_for d
                        (compare_runway_dimensions old_runways new_runways))).
  { apply List.filter_In. split; [exact Hc|apply String.eqb_refl]. }
  assert (Hk : exists r, (last_named d old_runways = Some r \/
                          last_named d new_runways = Some r)).
  { rewrite changes_for_cases in Hin.
    destruct (last_named d new_runways) as [n|]; [eauto|].
    destruct (last_named d old_runways) as [o|]; [eauto|destruct Hin]. }
  destruct Hk as (r & Hr).
  assert (Hn : In r (old_runways ++ new_runways) /\ is_named r = true /\
               normalized_designator r = d).
  { destruct Hr as [Hr|Hr]; apply last_named_some in Hr as (H1 & H2 & H3);
      (split; [apply in_app_iff; auto|auto]). }
  destruct Hn as (_ & Hn & Hd). apply is_named_true in Hn as [N1 N2].
  rewrite Hd in N1, N2.
  split; [exact N1|]. split; [exact N2|]. split; [|split].
  - rewrite <- Hd. apply normalize_idempotent.
  - destruct Hr as [Hr|Hr]; [left|right]; apply knows_last_named; eauto.
  - rewrite changes_for_cases.
    destruct (last_named d new_runways) as [n|], (last_named d old_runways) as [o|];
      cbn [length]; try lia.
    unfold dimension_changes.
    destruct (dimension_differs _ _), (dimension_differs _ _); cbn; lia.
Qed.

Lemma reported_runway_designators_witness :
  let rwy := fun d l w => mkRunway (Some d) (Some l) (Some w) None None None None in
  let changes := compare_runway_dimensions [rwy "22r-4l" 8000 150] [rwy "4L/22R" 8400 200] in
  let c := length_changed "4L/22R" (rwy "22r-4l" 8000 150) (rwy "4L/22R" 8400 200) in
  normalize_runway_designator (rc_designator c) = rc_designator c /\
  (length (runway_changes_for (rc_designator c) changes) <= 2)%nat.
Proof.
  intros rwy changes c.
  destruct (reported_runway_designators [rwy "22r-4l" 8000 150] [rwy "4L/22R" 8400 200] c)
    as (_ & _ & H3 & _ & H5).
  - vm_compute. left. reflexivity.
  - split; [exact H3|exact H5].
Defined.

End RunwayReportFacts.

(* ===================================================================== *)
(** ** Order, neighbourhood and the flattened list *)
(* ===================================================================== *)

Module ReportFacts.
Import PyStr Comparator Spec ListFacts TaxiwayFacts TaxiwayReportFacts.

(** X10: the taxiway report is grouped by kind: the ADDED entries come
    first, the REMOVED entries next, the RENAMED entries last. *)
Theorem changes_ordered_by_kind
    (old_labels new_labels : list label) (i j : nat) (ci cj : TaxiwayChange) :
  let changes := compare_taxiway_labels old_labels new_labels in
  changes !! i = Some ci -> changes !! j = Some cj -> (i <= j)%nat ->
  (kind_rank (tc_change_type ci) <= kind_rank (tc_change_type cj))%nat.
Proof.
  intros changes. subst changes.
  destruct (compare_taxiway_labels_passes old_labels new_labels)
    as (A & R & N & -> & _ & _ & kA & kR & kN).
  intros Hi Hj Hij.
  assert (K : forall (l : list TaxiwayChange) k n c,
            (forall c, In c l -> tc_change_type c = k) ->
            l !! n = Some c -> tc_change_type c = k).
  { intros l k n c Hl Hn. apply Hl, list_elem_of_In, (list_elem_of_lookup_2 l n), Hn. }
  apply lookup_app_Some in Hi as [Hi|[Li Hi]];
    [|apply lookup_app_Some in Hi as [Hi|[Li' Hi]]];
    (apply lookup_app_Some in Hj as [Hj|[Lj Hj]];
     [|apply lookup_app_Some in Hj as [Hj|[Lj' Hj]]]);
    try (pose proof (lookup_lt_Some _ _ _ Hi)); try (pose proof (lookup_lt_Some _ _ _ Hj));
    try lia;
    repeat match goal with
           | H : A !! _ = Some ?c |- _ => rewrite (K A ADDED _ c kA H); clear H
           | H : R !! _ = Some ?c |- _ => rewrite (K R REMOVED _ c kR H); clear H
           | H : N !! _ = Some ?c |- _ => rewrite (K N RENAMED _ c kN H); clear H
           end; cbn; lia.
Qed.

Lemma changes_ordered_by_kind_witness :
  let o := mkLabel "A" 0 0 (0, 0, 0, 0)%Q in
  let n := mkLabel "B" 1 0 (0, 0, 0, 0)%Q in
  (kind_rank (tc_change_type (added_change "B" n))
   <= kind_rank (tc_change_type (renamed_change o n)))%nat.
Proof.
  intros o n.
  apply (changes_ordered_by_kind [o] [n] 0 2); [reflexivity|reflexivity|lia].
Defined.




Lemma box_at_not_origin (x y : Q) : box_at x y <> no_position.
Proof.
  unfold box_at, no_position. intros [= -> _ H _]. vm_compute in H. discriminate.
Qed.

(** X12: the flattened list of [to_dict] keeps the order taxiway,
    runway, geometry and the descriptions; a taxiway entry has its box
    on one side only, the old side for REMOVED and the new side for
    ADDED and RENAMED, while runway and geometry entries carry no
    position at all; for a result of [compare_extractions] the list has
    as many entries as the summary counts changes. *)
Theorem flattened_changes :
  (forall result : ComparisonResult,
     let d := to_dict result in
     map fc_description (rd_changes d)
       = (map tc_description (rd_taxiway_changes d)
          ++ map rc_description (rd_runway_changes d)
          ++ map gc_description (rd_geometry_changes d))%list /\
     Forall (fun e =>
               fc_category e = "taxiway" ->
               (fc_change_type e = "REMOVED" /\ fc_new_position e = no_position /\
                fc_old_position e <> no_position) \/
               (fc_change_type e <> "REMOVED" /\ fc_old_position e = no_position /\
                fc_new_position e <> no_position))
            (rd_changes d) /\
     Forall (fun e =>
               fc_category e <> "taxiway" ->
               fc_old_position e = no_position /\ fc_new_position e = no_position)
            (rd_changes d)) /\
  (forall old_data new_data : extraction,
     let d := to_dict (compare_extractions old_data new_data) in
     length (rd_changes d) = total_changes (rd_summary d)).
Proof.
  split.
  - intros result d. subst d. unfold to_dict. cbn [rd_changes rd_taxiway_changes
      rd_runway_changes rd_geometry_changes].
    split; [|split].
    + rewrite !map_app, !map_map. reflexivity.
    + rewrite !List.Forall_app, !List.Forall_map. split; [|split].
      * apply List.Forall_forall. intros c _ _. unfold flat_taxiway, is_taxiway_kind.
        cbn. destruct (tc_change_type c); cbn.
        -- right. split; [discriminate|]. split; [reflexivity|apply box_at_not_origin].
        -- left. split; [reflexivity|]. split; [reflexivity|apply box_at_not_origin].
        -- right. split; [discriminate|]. split; [reflexivity|apply box_at_not_origin].
      * apply List.Forall_forall. intros c _. cbn. discriminate.
      * apply List.Forall_forall. intros c _. cbn. discriminate.
    + rewrite !List.Forall_app, !List.Forall_map. split; [|split].
      * apply List.Forall_forall. intros c _ H. cbn in H. congruence.
      * apply List.Forall_forall. intros c _ _. split; reflexivity.
      * apply List.Forall_forall. intros c _ _. split; reflexivity.
  - intros old_data new_data d. subst d. unfold to_dict. cbn.
    rewrite !List.length_app, !List.length_map. lia.
Qed.

Lemma flattened_changes_witness :
  let o := mkLabel "A" 0 0 (0, 0, 0, 0)%Q in
  let d := to_dict (mkComparisonResult "JFK" "2513" "2601"
                      [removed_change "A" o] [] []
                      (mkSummary 1 0 1 0 0 0 0 0 1 0 1 0 0 0)) in
  map fc_new_position (rd_changes d) = [no_position].
Proof.
  intros o d.
  destruct (proj1 flattened_changes
              (mkComparisonResult "JFK" "2513" "2601"
                 [removed_change "A" o] [] []
                 (mkSummary 1 0 1 0 0 0 0 0 1 0 1 0 0 0))) as (_ & H & _).
  apply List.Forall_inv in H.
  destruct (H eq_refl) as [(_ & E & _)|(N & _)].
  - exact (f_equal (fun p => [p]) E).
  - exfalso. apply N. reflexivity.
Defined.

End ReportFacts.

(* ===================================================================== *)
(** ** Bounds, labels and paths of a diagram *)
(* ===================================================================== *)

Module DiagramFacts.
Import PyStr Re PdfExtractor Spec ListFacts PyStrFacts TaxiwayLabelFacts.



(** X13: the vector paths are the line items with both ends strictly
    inside the bounds, each with the width of its drawing, or 1 where
    the drawing has none; drawings without items and items of other
    kinds give nothing. *)
Theorem extract_vector_paths_lines (drawings : list drawing) (b : bounds) :
  (forall s,
     In s (extract_vector_paths drawings b) <->
     exists d items p1 p2,
       In d drawings /\ dr_items d = Some items /\ In (Line p1 p2) items /\
       inside b (pt_x p1) (pt_y p1) = true /\ inside b (pt_x p2) (pt_y p2) = true /\
       s = segment_of d p1 p2) /\
  (length (extract_vector_paths drawings b) <= length (line_items drawings))%nat.
Proof.
  destruct b as [[[x_min y_min] x_max] y_max].
  assert (I : forall d it s,
            In s (item_paths (x_min, y_min, x_max, y_max) d it) <->
            exists p1 p2, it = Line p1 p2 /\
              inside (x_min, y_min, x_max, y_max) (pt_x p1) (pt_y p1) = true /\
              inside (x_min, y_min, x_max, y_max) (pt_x p2) (pt_y p2) = true /\
              s = segment_of d p1 p2).
  { intros d it s. unfold item_paths.
    destruct it as [p1 p2| | |].
    2-4: split; [intros []|intros (p1 & p2 & [=] & _)].
    assert (C : Qltb x_min (pt_x p1) && Qltb (pt_x p1) x_max
                && Qltb x_min (pt_x p2) && Qltb (pt_x p2) x_max
                && Qltb y_min (pt_y p1) && Qltb (pt_y p1) y_max
                && Qltb y_min (pt_y p2) && Qltb (pt_y p2) y_max
                = inside (x_min, y_min, x_max, y_max) (pt_x p1) (pt_y p1)
                  && inside (x_min, y_min, x_max, y_max) (pt_x p2) (pt_y p2)).
    { unfold inside.
      destruct (Qltb x_min (pt_x p1)), (Qltb (pt_x p1) x_max),
               (Qltb x_min (pt_x p2)), (Qltb (pt_x p2) x_max),
               (Qltb y_min (pt_y p1)), (Qltb (pt_y p1) y_max),
               (Qltb y_min (pt_y p2)), (Qltb (pt_y p2) y_max); reflexivity. }
    rewrite C. split.
    - destruct (inside _ (pt_x p1) (pt_y p1)) eqn:E1,
               (inside _ (pt_x p2) (pt_y p2)) eqn:E2; cbn [andb];
        intros H; try destruct H as [<-|[]]; try destruct H.
      exists p1, p2. auto.
    - intros (q1 & q2 & [= <- <-] & -> & -> & ->). left. reflexivity. }
  split.
  - intros s. unfold extract_vector_paths. rewrite in_flat_map. split.
    + intros (d & Hd & Hs). destruct (dr_items d) as [items|] eqn:E; [|destruct Hs].
      apply in_flat_map in Hs as (it & Hit & Hs).
      apply I in Hs as (p1 & p2 & -> & H1 & H2 & ->).
      exists d, items, p1, p2. auto 10.
    + intros (d & items & p1 & p2 & Hd & E & Hit & H1 & H2 & ->).
      exists d. split; [exact Hd|]. rewrite E. apply in_flat_map.
      exists (Line p1 p2). split; [exact Hit|]. apply I. eauto 10.
  - unfold extract_vector_paths, line_items.
    induction drawings as [|d drawings IH]; [reflexivity|].
    cbn [flat_map]. rewrite !List.length_app.
    apply Nat.add_le_mono; [|exact IH].
    destruct (dr_items d) as [items|]; [|apply Nat.le_0_l].
    change (default [] (Some items)) with items.
    clear IH. induction items as [|it items IH]; [reflexivity|].
    cbn [flat_map List.filter]. rewrite List.length_app.
    destruct it as [p1 p2| | |]; cbn [length item_paths]; try exact IH.
    destruct (_ && _); cbn [length]; lia.
Qed.

End DiagramFacts.

(* ===================================================================== *)
(** ** What an extraction holds *)
(* ===================================================================== *)

Module ExtractionFacts.
Import PyStr Re PdfExtractor Spec ListFacts PyStrFacts TaxiwayLabelFacts DiagramFacts.

Lemma fold_left_invariant {A B : Type} (f : A -> B -> A) (P : A -> Prop)
    (l : list B) (a : A) :
  (forall a b, P a -> P (f a b)) -> P a -> P (fold_left f l a).
Proof.
  intros Hf. revert a. induction l as [|b l IH]; intros a Ha; [exact Ha|].
  cbn [fold_left]. apply IH, Hf, Ha.
Qed.






Lemma NoDup_snoc {A : Type} (l : list A) (x : A) :
  List.NoDup l -> ~ In x l -> List.NoDup (l ++ [x]).
Proof.
  induction l as [|a l IH]; cbn [app]; intros Hn Hx.
  - constructor; [intros []|constructor].
  - inversion Hn as [|a' l' Ha Hl]; subst. constructor.
    + rewrite in_app_iff. intros [H|[H|[]]]; [exact (Ha H)|].
      subst. apply Hx. now left.
    + apply IH; [exact Hl|]. intros H. apply Hx. now right.
Qed.

Lemma span_step_cases (b : bounds) (labels : list TaxiwayLabel)
    (seen : gset (Z * Z)) (sp : span) :
  span_step b (labels, seen) sp = (labels, seen) \/
  (span_step b (labels, seen) sp
     = ((labels ++ [label_of sp])%list, {[pos_key sp]} ∪ seen) /\
   inside b (x_center sp) (y_center sp) = true /\
   passes_test sp = true /\ pos_key sp ∉ seen).
Proof.
  destruct (inside b (x_center sp) (y_center sp)) eqn:I.
  - rewrite (span_step_inside b labels seen sp I).
    destruct (passes_test sp) eqn:P; [|left; reflexivity].
    case_bool_decide as S; [left; reflexivity|]. right. auto.
  - left. unfold span_step. rewrite I. reflexivity.
Qed.

Lemma label_state_step (b : bounds) (done : list span) (st : scan_state) (sp : span) :
  label_state_ok b done st -> label_state_ok b (done ++ [sp]) (span_step b st sp).
Proof.
  destruct st as [labels seen]. intros (Hl & Hs & Hn & Hlen).
  assert (Hl' : Forall (fun l => exists sp0, In sp0 (done ++ [sp]) /\ l = label_of sp0 /\
                          inside b (x_center sp0) (y_center sp0) = true /\
                          passes_test sp0 = true) labels).
  { eapply List.Forall_impl; [|exact Hl]. intros l (sp0 & H0 & H1).
    exists sp0. split; [apply in_app_iff; now left|exact H1]. }
  destruct (span_step_cases b labels seen sp) as [->|(-> & I & P & S)].
  - split; [exact Hl'|]. split; [exact Hs|]. split; [exact Hn|].
    rewrite List.length_app. cbn. lia.
  - split; [|split; [|split]].
    + apply List.Forall_app. split; [exact Hl'|]. constructor; [|constructor].
      exists sp. split; [apply in_app_iff; right; now left|auto].
    + intros k. rewrite map_app, in_app_iff, elem_of_union, elem_of_singleton, Hs.
      cbn. change (label_key (label_of sp)) with (pos_key sp).
      split; [intros [->|H]; auto|intros [H|[<-|[]]]; auto].
    + rewrite map_app. apply NoDup_snoc; [exact Hn|].
      change (label_key (label_of sp)) with (pos_key sp).
      intros H. apply S, Hs, H.
    + rewrite !List.length_app. cbn. lia.
Qed.

Lemma label_state_fold (b : bounds) (spans done : list span) (st : scan_state) :
  label_state_ok b done st ->
  label_state_ok b (done ++ spans) (fold_left (span_step b) spans st).
Proof.
  revert done st. induction spans as [|sp spans IH]; intros done st H.
  - rewrite app_nil_r. exact H.
  - cbn [fold_left].
    replace (done ++ sp :: spans)%list with ((done ++ [sp]) ++ spans)%list
      by (rewrite <- app_assoc; reflexivity).
    apply IH, label_state_step, H.
Qed.

Lemma passes_test_parts (sp : span) :
  passes_test sp = true ->
  (4 <= sp_size sp)%Q /\ (sp_size sp <= 10)%Q /\
  code_shape (upper (strip (sp_text sp))) = true.
Proof.
  unfold passes_test. rewrite !andb_true_iff, !Qle_bool_iff. tauto.
Qed.

(** X15: every taxiway label extracted comes from a span of the page
    whose centre lies strictly inside the bounds and whose font size is
    between 4 and 10; its designator is one taxiway letter, or one
    followed by a capital letter; no two labels share a position rounded
    to whole points; and there are no more labels than spans. *)
Theorem extracted_labels (blocks : list block) (b : bounds) :
  let labels := extract_taxiway_labels blocks b in
  Forall (fun l =>
            inside b (tl_x l) (tl_y l) = true /\
            code_shape (tl_designator l) = true /\
            exists sp, In sp (all_spans blocks) /\ l = label_of sp /\
                       (4 <= sp_size sp)%Q /\ (sp_size sp <= 10)%Q)
         labels /\
  List.NoDup (map label_key labels) /\
  (length labels <= length (all_spans blocks))%nat.
Proof.
  intros labels. subst labels. rewrite extract_as_fold.
  pose proof (label_state_fold b (all_spans blocks) [] ([], ∅)) as H.
  cbn [app] in H.
  destruct (fold_left (span_step b) (all_spans blocks) ([], ∅)) as [labels seen].
  destruct H as (Hl & _ & Hn & Hlen).
  { split; [constructor|]. split; [|split; [constructor|cbn; lia]].
    intros k. cbn. split; [intros H; apply elem_of_empty in H; destruct H|intros []]. }
  cbn [fst]. split; [|split; assumption].
  eapply List.Forall_impl; [|exact Hl].
  intros l (sp & Hin & -> & I & P). apply passes_test_parts in P as (P1 & P2 & P3).
  split; [exact I|]. split; [exact P3|]. exists sp. auto.
Qed.

Lemma is_valid_normal (text : string) :
  is_valid_taxiway_designator (upper (strip text)) = is_valid_taxiway_designator text.
Proof.
  unfold is_valid_taxiway_designator. rewrite upper_strip_fixed. reflexivity.
Qed.

(** X16: the designator test looks at the text only after stripping
    blanks and raising it to upper case, and accepts it exactly when
    what remains is one taxiway letter, or one followed by a capital
    letter; none of the excluded words has that shape, so the list of
    excluded words never decides the answer. *)
Theorem designator_test_is_shape_test :
  (forall text,
     is_valid_taxiway_designator text = code_shape (upper (strip text))) /\
  (forall text,
     is_valid_taxiway_designator (upper (strip text)) = is_valid_taxiway_designator text) /\
  (forall t, In t false_positives -> code_shape t = false).
Proof.
  split; [|split].
  - intros text. rewrite <- is_valid_normal. apply is_valid_text.
  - apply is_valid_normal.
  - intros t Ht. destruct (code_shape t) eqn:E; [|reflexivity].
    exfalso. exact (code_shape_not_excluded t E Ht).
Qed.

Lemma designator_test_is_shape_test_witness : code_shape "TWY" = false.
Proof.
  apply (proj2 (proj2 designator_test_is_shape_test)). left. reflexivity.
Defined.

Lemma record_dimension_keeps (line_spans : list span) (d : positions) (m : rmatch)
    (key : Z * Z) (c : Q * Q) :
  d !! key = Some c -> record_dimension line_spans d m !! key = Some c.
Proof.
  intros H. unfold record_dimension. cbv zeta. unfold positions in *.
  destruct (int (group 1 m) >=? 2000); [|exact H].
  destruct (line_center line_spans) as [center|]; [|exact H].
  destruct (d !! (int (group 1 m), int (group 2 m))) as [c'|] eqn:E; [exact H|].
  rewrite lookup_insert_ne; [exact H|]. intros <-. congruence.
Qed.

Lemma record_dimension_sized (line_spans : list span) (d : positions) (m : rmatch) :
  (forall key c, d !! key = Some c -> 2000 <= fst key) ->
  forall key c, record_dimension line_spans d m !! key = Some c -> 2000 <= fst key.
Proof.
  intros H key c. unfold record_dimension. cbv zeta. unfold positions in *.
  destruct (int (group 1 m) >=? 2000) eqn:L; [|apply H].
  destruct (line_center line_spans) as [center|]; [|apply H].
  destruct (d !! (int (group 1 m), int (group 2 m))) as [c'|] eqn:E; [apply H|].
  destruct (decide ((int (group 1 m), int (group 2 m)) = key)) as [<-|N].
  - intros _. cbn [fst]. apply Z.geb_le in L. exact L.
  - rewrite lookup_insert_ne by exact N. apply H.
Qed.

Lemma block_dimensions_invariant (P : positions -> Prop) :
  (forall line_spans d m, P d -> P (record_dimension line_spans d m)) ->
  forall d bl, P d -> P (block_dimensions d bl).
Proof.
  intros H d bl Hd. unfold block_dimensions.
  destruct (bl_lines bl) as [lines|]; [|exact Hd].
  apply fold_left_invariant; [|exact Hd].
  intros d' ln Hd'. unfold line_dimensions.
  apply fold_left_invariant; [|exact Hd']. intros d'' m. apply H.
Qed.

(** X17: the table of dimension positions only has keys whose length is
    at least 2000, and the first line showing a pair of length and width
    fixes its position: blocks that follow never change an entry. *)
Theorem dimension_positions_first_wins
    (blocks more : list block) (key : Z * Z) (c : Q * Q) :
  dimension_positions blocks !! key = Some c ->
  2000 <= fst key /\ dimension_positions (blocks ++ more) !! key = Some c.
Proof.
  intros H. split.
  - revert key c H. unfold dimension_positions.
    apply (fold_left_invariant block_dimensions
             (fun d => forall key c, d !! key = Some c -> 2000 <= fst key)).
    + intros d bl.
      apply (block_dimensions_invariant
               (fun d => forall key c, d !! key = Some c -> 2000 <= fst key)).
      intros line_spans d' m. apply record_dimension_sized.
    + intros key c E. change ((∅ : gmap (Z * Z) (Q * Q)) !! key = Some c) in E.
      rewrite lookup_empty in E. discriminate.
  - unfold dimension_positions in *. rewrite fold_left_app.
    apply (fold_left_invariant block_dimensions (fun d => d !! key = Some c)); [|exact H].
    intros d bl. apply (block_dimensions_invariant (fun d => d !! key = Some c)).
    intros line_spans d' m. apply record_dimension_keeps.
Qed.

Lemma dimension_positions_first_wins_witness :
  let sp := fun t x => mkSpan t (inject_Z x, 0, inject_Z x + 40, 10)%Q 8 in
  let first := [mkBlock (Some [mkLine [sp "12000 X 150" 100]])] in
  let more := [mkBlock None; mkBlock (Some [mkLine [sp "12000 X 150" 300]])] in
  dimension_positions (first ++ more) !! (12000, 150)
  = dimension_positions first !! (12000, 150) /\
  dimension_positions first !! (12000, 150) <> None.
Proof.
  intros sp first more.
  destruct (dimension_positions first !! (12000, 150)) as [c|] eqn:E.
  - destruct (dimension_positions_first_wins first more (12000, 150) c E) as [_ H].
    split; [exact H|discriminate].
  - vm_compute in E. discriminate.
Defined.

(** X18: the airport code and the cycle are the first two parts of the
    file name between underscores: a name made of a code, an underscore
    and a cycle gives back both, whatever follows a second underscore is
    ignored, and a name without underscore is taken whole as the airport
    code, with UNKNOWN for the cycle. *)
Theorem file_name_parts (source_file : string) (p : page) (drawings : list drawing) :
  (forall airport cycle,
     has_char "_" airport = false -> has_char "_" cycle = false ->
     let data := extract_from_pdf source_file (airport ++ "_" ++ cycle) p drawings in
     ed_airport_code data = airport /\ ed_cycle data = cycle) /\
  (forall airport cycle rest,
     has_char "_" airport = false -> has_char "_" cycle = false ->
     let data :=
       extract_from_pdf source_file (airport ++ "_" ++ cycle ++ "_" ++ rest) p drawings in
     ed_airport_code data = airport /\ ed_cycle data = cycle) /\
  (forall name,
     has_char "_" name = false ->
     let data := extract_from_pdf source_file name p drawings in
     ed_airport_code data = name /\ ed_cycle data = "UNKNOWN").
Proof.
  assert (A : forall s t, (s ++ "_" ++ t) = (s ++ String "_" t)) by reflexivity.
  split; [|split].
  - intros airport cycle Ha Hc data. subst data. unfold extract_from_pdf.
    rewrite A, (split_app_sep "_" airport cycle Ha), (split_absent "_" cycle Hc).
    destruct (extract_runway_info p). split; reflexivity.
  - intros airport cycle rest Ha Hc data. subst data. unfold extract_from_pdf.
    rewrite A, (split_app_sep "_" airport _ Ha), A, (split_app_sep "_" cycle rest Hc).
    destruct (extract_runway_info p).
    pose proof (split_not_nil "_" rest) as N.
    destruct (split "_" rest); [contradiction|]. split; reflexivity.
  - intros name Hn data. subst data. unfold extract_from_pdf.
    rewrite (split_absent "_" name Hn).
    destruct (extract_runway_info p). split; reflexivity.
Qed.

Lemma file_name_parts_witness :
  let data := extract_from_pdf "data/JFK_2601.pdf" "JFK_2601" (mkPage 600 800 "" []) [] in
  ed_airport_code data = "JFK" /\ ed_cycle data = "2601".
Proof.
  apply (proj1 (file_name_parts "data/JFK_2601.pdf" (mkPage 600 800 "" []) [])
           "JFK" "2601"); reflexivity.
Defined.

Lemma zipped_dimensions (designators : list string) (dimensions : list (Z * Z * Q * Q)) :
  map dimension_of (zipped_runways designators dimensions) = dimensions.
Proof.
  unfold zipped_runways. revert dimensions.
  induction designators as [|x designators IH]; intros dimensions.
  - cbn. rewrite drop_0. induction dimensions as [|[[[l w] px] py] dimensions IH];
      [reflexivity|]. cbn. rewrite IH. reflexivity.
  - destruct dimensions as [|[[[l w] px] py] dimensions]; [reflexivity|].
    cbn [combine map app length drop]. cbn [app]. rewrite <- (IH dimensions) at 3.
    reflexivity.
Qed.

Lemma zipped_designators (designators : list string) (dimensions : list (Z * Z * Q * Q)) :
  map ri_designator (zipped_runways designators dimensions) =
  (take (length dimensions) designators
   ++ List.repeat "Unknown" (length dimensions - length designators))%list.
Proof.
  unfold zipped_runways. revert dimensions.
  induction designators as [|x designators IH]; intros dimensions.
  - cbn [combine map app length drop]. rewrite take_nil, Nat.sub_0_r, drop_0. cbn [app].
    induction dimensions as [|[[[l w] px] py] dimensions IH];
      [reflexivity|]. cbn. rewrite IH. reflexivity.
  - destruct dimensions as [|[[[l w] px] py] dimensions]; [reflexivity|].
    cbn [combine map app length drop take Nat.sub]. cbn [app].
    rewrite <- (IH dimensions). reflexivity.
Qed.

(** X19: method 2 gives one record per runway-sized dimension, in the
    order of the text and with its length, width and position: the
    designators are handed out in order as far as they go, the records
    beyond them are named Unknown, and designators beyond the number of
    dimensions are dropped. *)
Theorem method2_follows_dimensions
    (designators : list string) (dimensions : list (Z * Z * Q * Q)) :
  map dimension_of (method2 designators dimensions) = dimensions /\
  map ri_designator (method2 designators dimensions) =
    (take (length dimensions) designators
     ++ List.repeat "Unknown" (length dimensions - length designators))%list /\
  length (method2 designators dimensions) = length dimensions.
Proof.
  rewrite RunwayInfoFacts.method2_zipped.
  split; [apply zipped_dimensions|]. split; [apply zipped_designators|].
  rewrite <- (zipped_dimensions designators dimensions) at 2.
  rewrite List.length_map. reflexivity.
Qed.

End ExtractionFacts.

(* ===================================================================== *)
(** ** From the page to the report *)
(* ===================================================================== *)

Module PipelineFacts.
Import PyStr Comparator Spec ListFacts PyStrFacts TaxiwayFacts RunwayFacts
       GeometryFacts RunwayReportFacts.

Lemma extract_from_pdf_fields (source_file filename : string)
    (p : PdfExtractor.page) (drawings : list PdfExtractor.drawing) :
  let data := PdfExtractor.extract_from_pdf source_file filename p drawings in
  let b := PdfExtractor.extract_diagram_bounds p in
  PdfExtractor.ed_taxiway_labels data
    = PdfExtractor.extract_taxiway_labels (PdfExtractor.pg_blocks p) b /\
  PdfExtractor.ed_runway_info data = fst (PdfExtractor.extract_runway_info p) /\
  PdfExtractor.ed_paths data = PdfExtractor.extract_vector_paths drawings b /\
  PdfExtractor.ed_airport_code data
    = (if (1 <=? length (split "_" filename))%nat
       then nth 0 (split "_" filename) "" else "UNKNOWN") /\
  PdfExtractor.ed_cycle data
    = (if (2 <=? length (split "_" filename))%nat
       then nth 1 (split "_" filename) "" else "UNKNOWN").
Proof.
  cbv zeta. unfold PdfExtractor.extract_from_pdf.
  destruct (PdfExtractor.extract_runway_info p). repeat split; reflexivity.
Qed.

Lemma compare_geometry_same_length (old_paths new_paths : list path) :
  length old_paths = length new_paths -> compare_geometry old_paths new_paths = [].
Proof.
  intros E. rewrite compare_geometry_cases. unfold path_diff. rewrite E.
  rewrite Z.sub_diag. reflexivity.
Qed.

(** X20: two extractions of one and the same page, filed under
    different cycles, compare as unchanged: no taxiway, runway or
    geometry change and a total of zero, with the airport code and the
    two cycles read from the file names. *)
Theorem same_page_compares_unchanged
    (old_file new_file airport old_cycle new_cycle : string)
    (p : PdfExtractor.page) (drawings : list PdfExtractor.drawing) :
  has_char "_" airport = false ->
  has_char "_" old_cycle = false -> has_char "_" new_cycle = false ->
  let old_data :=
    PdfExtractor.to_dict
      (PdfExtractor.extract_from_pdf old_file (airport ++ "_" ++ old_cycle) p drawings) in
  let new_data :=
    PdfExtractor.to_dict
      (PdfExtractor.extract_from_pdf new_file (airport ++ "_" ++ new_cycle) p drawings) in
  let result := compare_extractions old_data new_data in
  taxiway_changes result = [] /\ runway_changes result = [] /\
  geometry_changes result = [] /\ total_changes (summary result) = 0%nat /\
  Comparator.airport_code result = airport /\
  Comparator.old_cycle result = old_cycle /\ Comparator.new_cycle result = new_cycle.
Proof.
  intros Ha Ho Hn old_data new_data result.
  destruct (extract_from_pdf_fields old_file (airport ++ "_" ++ old_cycle) p drawings)
    as (L1 & R1 & P1 & A1 & C1).
  destruct (extract_from_pdf_fields new_file (airport ++ "_" ++ new_cycle) p drawings)
    as (L2 & R2 & P2 & A2 & C2).
  cbv zeta in *.
  change (airport ++ "_" ++ old_cycle) with (airport ++ String "_" old_cycle) in *.
  change (airport ++ "_" ++ new_cycle) with (airport ++ String "_" new_cycle) in *.
  rewrite (split_app_sep "_" airport old_cycle Ha), (split_absent "_" old_cycle Ho) in A1, C1.
  rewrite (split_app_sep "_" airport new_cycle Ha), (split_absent "_" new_cycle Hn) in A2, C2.
  subst result old_data new_data. unfold compare_extractions, PdfExtractor.to_dict.
  cbn [ex_taxiway_labels ex_runway_info ex_paths ex_airport_code ex_cycle default
       taxiway_changes runway_changes geometry_changes summary total_changes
       Comparator.airport_code Comparator.old_cycle Comparator.new_cycle].
  rewrite L1, L2, R1, R2, P1, P2, A2, C1, C2.
  rewrite compare_taxiway_labels_self, compare_runway_dimensions_self.
  rewrite compare_geometry_same_length by reflexivity.
  repeat split; reflexivity.
Qed.

Lemma same_page_compares_unchanged_witness :
  let p := PdfExtractor.mkPage 600 800 "RWY 04L-22R 12000 X 150"
             [PdfExtractor.mkBlock
                (Some [PdfExtractor.mkLine
                         [PdfExtractor.mkSpan "A" (300, 400, 304, 408)%Q 6]])] in
  let old_data :=
    PdfExtractor.to_dict (PdfExtractor.extract_from_pdf "JFK_2513.pdf" "JFK_2513" p []) in
  let new_data :=
    PdfExtractor.to_dict (PdfExtractor.extract_from_pdf "JFK_2601.pdf" "JFK_2601" p []) in
  total_changes (summary (compare_extractions old_data new_data)) = 0%nat /\
  Comparator.old_cycle (compare_extractions old_data new_data) = "2513".
Proof.
  intros p old_data new_data.
  destruct (same_page_compares_unchanged "JFK_2513.pdf" "JFK_2601.pdf" "JFK" "2513" "2601"
              p []) as (_ & _ & _ & H & _ & C & _); try reflexivity.
  split; [exact H|exact C].
Defined.


Lemma unnamed_page (p : PdfExtractor.page) :
  PdfExtractor.method1 (PdfExtractor.dimension_positions (PdfExtractor.pg_blocks p))
                       (PdfExtractor.pg_text p) = [] ->
  PdfExtractor.all_designators (PdfExtractor.pg_text p) = [] ->
  Forall (fun r => PdfExtractor.ri_designator r = "Unknown")
         (fst (PdfExtractor.extract_runway_info p)).
Proof.
  intros H1 H2. unfold PdfExtractor.extract_runway_info. cbv zeta. cbn [fst].
  rewrite H1, H2. cbn [PdfExtractor.is_empty app].
  rewrite RunwayInfoFacts.method2_zipped. unfold zipped_runways.
  cbn [combine map app length]. rewrite drop_0.
  assert (U : Forall (fun r => PdfExtractor.ri_designator r = "Unknown")
                (map PdfExtractor.unknown_runway
                   (PdfExtractor.all_dimensions
                      (PdfExtractor.dimension_positions (PdfExtractor.pg_blocks p))
                      (PdfExtractor.pg_text p)))).
  { apply List.Forall_map, List.Forall_forall. intros [[[l w] x] y] _. reflexivity. }
  destruct (PdfExtractor.is_empty _); [|exact U].
  apply List.Forall_app. split; [exact U|].
  eapply List.Forall_impl; [|apply RunwayInfoFacts.method3_unknown].
  intros r [E _]. exact E.
Qed.

Lemma by_designator_unnamed (runways : list runway) :
  Forall (fun r => is_named r = false) runways -> by_designator runways = [].
Proof.
  intros H. rewrite <- by_designator_named.
  rewrite (filter_nil_all is_named runways); [reflexivity|].
  apply List.Forall_forall, H.
Qed.

(** X21: where the text of a page names no runway (the combined pattern
    matches nowhere and no designator follows RWY), all its records are
    called Unknown, and between two such pages no runway change is
    reported, whatever dimensions they show. *)
Theorem unnamed_runways_never_compared
    (old_file old_name new_file new_name : string)
    (old_page new_page : PdfExtractor.page)
    (old_drawings new_drawings : list PdfExtractor.drawing) :
  PdfExtractor.method1
    (PdfExtractor.dimension_positions (PdfExtractor.pg_blocks old_page))
    (PdfExtractor.pg_text old_page) = [] ->
  PdfExtractor.all_designators (PdfExtractor.pg_text old_page) = [] ->
  PdfExtractor.method1
    (PdfExtractor.dimension_positions (PdfExtractor.pg_blocks new_page))
    (PdfExtractor.pg_text new_page) = [] ->
  PdfExtractor.all_designators (PdfExtractor.pg_text new_page) = [] ->
  let old_data :=
    PdfExtractor.to_dict
      (PdfExtractor.extract_from_pdf old_file old_name old_page old_drawings) in
  let new_data :=
    PdfExtractor.to_dict
      (PdfExtractor.extract_from_pdf new_file new_name new_page new_drawings) in
  runway_changes (compare_extractions old_data new_data) = [] /\
  sum_runway_changes (summary (compare_extractions old_data new_data)) = 0%nat.
Proof.
  intros O1 O2 N1 N2 old_data new_data.
  destruct (extract_from_pdf_fields old_file old_name old_page old_drawings)
    as (_ & R1 & _).
  destruct (extract_from_pdf_fields new_file new_name new_page new_drawings)
    as (_ & R2 & _).
  cbv zeta in R1, R2.
  assert (U : forall rs,
            Forall (fun r => PdfExtractor.ri_designator r = "Unknown") rs ->
            by_designator
              (map (fun r => mkRunway
                              (Some (PdfExtractor.ri_designator r))
                              (Some (PdfExtractor.ri_length_ft r))
                              (Some (PdfExtractor.ri_width_ft r))
                              (Some (PdfExtractor.ri_x r)) (Some (PdfExtractor.ri_y r))
                              (Some (PdfExtractor.ri_surface r))
                              (Some (PdfExtractor.ri_raw_text r))) rs) = []).
  { intros rs H. apply by_designator_unnamed, List.Forall_map.
    eapply List.Forall_impl; [|exact H]. intros r E. cbn beta.
    unfold is_named, normalized_designator. cbn [rw_designator]. rewrite E. reflexivity. }
  assert (E : runway_changes (compare_extractions old_data new_data) = []).
  { subst old_data new_data. unfold compare_extractions, PdfExtractor.to_dict.
    cbn [ex_runway_info runway_changes]. rewrite R1, R2.
    repeat match goal with
           | |- context [default ?d (Some ?x)] => change (default d (Some x)) with x
           end.
    unfold compare_runway_dimensions.
    rewrite (U _ (unnamed_page old_page O1 O2)), (U _ (unnamed_page new_page N1 N2)).
    reflexivity. }
  split; [exact E|].
  change (sum_runway_changes (summary (compare_extractions old_data new_data)))
    with (length (runway_changes (compare_extractions old_data new_data))).
  rewrite E. reflexivity.
Qed.

Lemma unnamed_runways_never_compared_witness :
  let old_page := PdfExtractor.mkPage 600 800 "ELEV 13 12000 X 150" [] in
  let new_page := PdfExtractor.mkPage 600 800 "ELEV 13 11000 X 200" [] in
  let old_data :=
    PdfExtractor.to_dict (PdfExtractor.extract_from_pdf "a" "JFK_2513" old_page []) in
  let new_data :=
    PdfExtractor.to_dict (PdfExtractor.extract_from_pdf "b" "JFK_2601" new_page []) in
  runway_changes (compare_extractions old_data new_data) = [] /\
  map PdfExtractor.ri_length_ft (fst (PdfExtractor.extract_runway_info old_page)) = [12000] /\
  map PdfExtractor.ri_length_ft (fst (PdfExtractor.extract_runway_info new_page)) = [11000].
Proof.
  intros old_page new_page old_data new_data.
  split; [|split; vm_compute; reflexivity].
  apply (unnamed_runways_never_compared "a" "JFK_2513" "b" "JFK_2601"
           old_page new_page [] []); vm_compute; reflexivity.
Defined.

End PipelineFacts.

(* ===================================================================== *)
(** ** Cycle codes *)
(* ===================================================================== *)

Module CycleFacts.
Import PyStr Downloader Spec ListFacts.

Lemma forall_below (P : Z -> bool) (n : nat) :
  forallb P (below n) = true -> forall z, 0 <= z < Z.of_nat n -> P z = true.
Proof.
  intros H z Hz. rewrite forallb_forall in H. apply H. unfold below.
  apply in_map_iff. exists (Z.to_nat z). split; [lia|]. apply in_seq. lia.
Qed.

(** The loop of the year rollover, run to its end. *)
Lemma rollover_closed (rounds : nat) (cycle year : Z) :
  1 <= cycle -> (Z.to_nat cycle <= rounds)%nat ->
  rollover rounds cycle year = (1 + (cycle - 1) mod 13, year + (cycle - 1) / 13).
Proof.
  revert cycle year. induction rounds as [|rounds IH]; intros cycle year H1 H2; [lia|].
  cbn [rollover]. destruct (cycle >? 13) eqn:G.
  - apply Z.gtb_lt in G. rewrite IH by lia.
    replace (cycle - 13 - 1) with (cycle - 1 + (-1) * 13) by lia.
    rewrite Z.mod_add, Z.div_add by lia. f_equal. lia.
  - assert (L : cycle <= 13) by (destruct (Z.gtb_spec cycle 13); [discriminate|lia]).
    rewrite Z.mod_small, Z.div_small by lia. f_equal; lia.
Qed.

Lemma current_cycle_and_year_closed (days : Z) :
  0 <= days ->
  current_cycle_and_year days = (1 + (days / 28) mod 13, 26 + (days / 28) / 13).
Proof.
  intros H. unfold current_cycle_and_year. cbv zeta.
  assert (N : 0 <= days / 28) by (apply Z.div_pos; lia).
  rewrite rollover_closed by lia.
  replace (1 + days / 28 - 1) with (days / 28) by lia. reflexivity.
Qed.

Lemma get_current_cycle_code (days : Z) :
  get_current_cycle days =
  cycle_code (snd (current_cycle_and_year days)) (fst (current_cycle_and_year days)).
Proof.
  unfold get_current_cycle. destruct (current_cycle_and_year days). reflexivity.
Qed.

Lemma length_append (s t : string) :
  String.length (s ++ t) = (String.length s + String.length t)%nat.
Proof.
  induction s as [|c s IH]; [reflexivity|].
  change (String c s ++ t) with (String c (s ++ t)). cbn [String.length].
  rewrite IH. reflexivity.
Qed.

Lemma fmt02d_two_digits (n : Z) : 0 <= n < 100 -> String.length (fmt02d n) = 2%nat.
Proof.
  intros H.
  apply Nat.eqb_eq.
  apply (forall_below (fun n => Nat.eqb (String.length (fmt02d n)) 2) 100);
    [vm_compute; reflexivity|lia].
Qed.

(** X22: from the reference date on, [get_current_cycle] gives cycle
    number [1 + n mod 13] of year [26 + n / 13] (two-digit years), [n]
    being the number of whole 28-day periods since 2025-12-26: the cycle
    number stays between 1 and 13 and the year advances every 13 cycles,
    that is every 364 days; the code has four characters as long as the
    year stays below 100.  Before the reference date nothing rolls back:
    the year stays 26 and the cycle number is zero or negative. *)
Theorem current_cycle_number (days : Z) :
  (0 <= days ->
   let n := days / 28 in
   current_cycle_and_year days = (1 + n mod 13, 26 + n / 13) /\
   1 <= fst (current_cycle_and_year days) <= 13 /\
   get_current_cycle days = cycle_code (26 + n / 13) (1 + n mod 13) /\
   (days < 26936 -> String.length (get_current_cycle days) = 4%nat)) /\
  (days < 0 ->
   current_cycle_and_year days = (1 + days / 28, 26) /\
   fst (current_cycle_and_year days) <= 0 /\
   get_current_cycle days = cycle_code 26 (1 + days / 28)).
Proof.
  split.
  - intros H n. subst n.
    pose proof (current_cycle_and_year_closed days H) as E.
    pose proof (Z.mod_pos_bound (days / 28) 13 ltac:(lia)) as M.
    assert (N : 0 <= days / 28) by (apply Z.div_pos; lia).
    assert (C : get_current_cycle days
                = cycle_code (26 + days / 28 / 13) (1 + (days / 28) mod 13))
      by (rewrite get_current_cycle_code, E; reflexivity).
    split; [exact E|]. split; [rewrite E; cbn [fst]; lia|]. split; [exact C|].
    intros L. rewrite C. unfold cycle_code.
    assert (Q : days / 28 / 13 < 74).
    { apply Z.div_lt_upper_bound; [lia|]. apply Z.div_lt_upper_bound; lia. }
    assert (Q0 : 0 <= days / 28 / 13) by (apply Z.div_pos; lia).
    rewrite length_append, !fmt02d_two_digits by lia. reflexivity.
  - intros H.
    assert (N : days / 28 < 0) by (apply Z.div_lt_upper_bound; lia).
    assert (E : current_cycle_and_year days = (1 + days / 28, 26)).
    { unfold current_cycle_and_year. cbv zeta.
      replace (Z.to_nat (1 + days / 28)) with 0%nat by lia. reflexivity. }
    split; [exact E|]. split; [rewrite E; cbn [fst]; lia|].
    rewrite get_current_cycle_code, E. reflexivity.
Qed.

Lemma current_cycle_number_witness :
  get_current_cycle 400 = cycle_code 27 2 /\ String.length (get_current_cycle 400) = 4%nat.
Proof.
  destruct (proj1 (current_cycle_number 400)) as (_ & _ & C & L); [lia|].
  split; [exact C|apply L; lia].
Defined.


Lemma previous_table (year cycle : Z) :
  0 <= year < 100 -> 0 <= cycle < 100 -> previous_agrees year cycle = true.
Proof.
  intros Hy Hc.
  assert (T : forallb (fun y => forallb (previous_agrees y) (below 100)) (below 100) = true)
    by (vm_compute; reflexivity).
  apply (forall_below (previous_agrees year) 100); [|lia].
  apply (forall_below (fun y => forallb (previous_agrees y) (below 100)) 100 T). lia.
Qed.

Lemma get_previous_cycle_code (year cycle : Z) :
  0 <= year < 100 -> 0 <= cycle < 100 ->
  get_previous_cycle (cycle_code year cycle) =
  Some (cycle_code (fst (cycle_before year cycle)) (snd (cycle_before year cycle))).
Proof.
  intros Hy Hc. pose proof (previous_table year cycle Hy Hc) as T.
  unfold previous_agrees in T.
  destruct (get_previous_cycle (cycle_code year cycle)) as [s|]; [|discriminate].
  apply String.eqb_eq in T. rewrite T. reflexivity.
Qed.

Lemma previous_of_current (days : Z) :
  28 <= days < 26936 ->
  get_previous_cycle (get_current_cycle days) = Some (get_current_cycle (days - 28)).
Proof.
  intros H.
  rewrite !get_current_cycle_code, !current_cycle_and_year_closed by lia.
  cbn [fst snd].
  replace ((days - 28) / 28) with (days / 28 - 1)
    by (replace (days - 28) with (days + (-1) * 28) by lia;
        rewrite Z.div_add by lia; lia).
  assert (N : 1 <= days / 28 < 962).
  { split; [apply Z.div_le_lower_bound; lia|apply Z.div_lt_upper_bound; lia]. }
  generalize dependent (days / 28). intros n N. clear H days.
  rewrite get_previous_cycle_code.
  2:{ split; [|apply (Z.lt_le_trans _ (26 + 74)); [apply Z.add_lt_mono_l|lia]].
      - assert (0 <= n / 13) by (apply Z.div_pos; lia). lia.
      - apply Z.div_lt_upper_bound; lia. }
  2:{ pose proof (Z.mod_pos_bound n 13 ltac:(lia)). lia. }
  unfold cycle_before.
  destruct (Z.eqb_spec (1 + n mod 13) 1) as [E|E]; cbn [fst snd];
    do 2 f_equal; Z.div_mod_to_equations; lia.
Qed.







End CycleFacts.

(* ===================================================================== *)
(** ** The search for the last change *)
(* ===================================================================== *)

Module HistoryFacts.
Import PyStr Comparator Downloader Historical Spec ListFacts TaxiwayFacts
       TaxiwayReportFacts CycleFacts.

Section Search.
Variable get_extraction : string -> string -> option extraction.
Variable airport_code current_cycle : string.
Variable current_data : extraction.

Lemma nth_previous_step (i : nat) (cycle cycle' : string) :
  get_previous_cycle cycle = Some cycle' ->
  nth_previous (S i) cycle = nth_previous i cycle'.
Proof. intros E. cbn [nth_previous]. rewrite E. reflexivity. Qed.

(** How the search loop ends, counted from the cycle it starts at. *)
Lemma search_outcome (rounds : nat) (searched : Z) (cycle : string) (out : outcome) :
  search get_extraction airport_code current_cycle current_data rounds searched cycle
    = Some out ->
  (exists i last old_data,
     (i < rounds)%nat /\
     out = found current_cycle last (searched + Z.of_nat i + 1) old_data current_data /\
     nth_previous i cycle = Some last /\
     get_extraction airport_code last = Some old_data /\
     differs old_data current_data = true /\
     forall j, (j < i)%nat ->
       same_as_current get_extraction airport_code current_data cycle j) \/
  (out = not_found current_cycle (searched + Z.of_nat rounds) /\
   forall j, (j < rounds)%nat ->
     same_as_current get_extraction airport_code current_data cycle j) \/
  (exists i cycle_i,
     (i < rounds)%nat /\
     out = not_found current_cycle (searched + Z.of_nat i + 1) /\
     nth_previous i cycle = Some cycle_i /\
     get_extraction airport_code cycle_i = None /\
     forall j, (j < i)%nat ->
       same_as_current get_extraction airport_code current_data cycle j).
Proof.
  revert searched cycle. induction rounds as [|rounds IH]; intros searched cycle H.
  - cbn [search] in H. injection H as <-. right. left.
    split; [f_equal; lia|]. intros j Hj. lia.
  - cbn [search] in H.
    destruct (get_extraction airport_code cycle) as [old_data|] eqn:G.
    + destruct (differs old_data current_data) eqn:D.
      * injection H as <-. left. exists 0%nat, cycle, old_data.
        split; [lia|]. split; [f_equal; lia|]. split; [reflexivity|].
        split; [exact G|]. split; [exact D|]. intros j Hj. lia.
      * destruct (get_previous_cycle cycle) as [cycle'|] eqn:P; [|discriminate].
        assert (S0 : same_as_current get_extraction airport_code current_data cycle 0)
          by (exists cycle, old_data; auto).
        assert (SS : forall j n,
                  (forall j, (j < n)%nat ->
                     same_as_current get_extraction airport_code current_data cycle' j) ->
                  (j < S n)%nat ->
                  same_as_current get_extraction airport_code current_data cycle j).
        { intros [|j] n Hn Hj; [exact S0|].
          destruct (Hn j ltac:(lia)) as (cj & dj & N & R).
          exists cj, dj. rewrite (nth_previous_step j cycle cycle' P). auto. }
        apply IH in H as [(i & last & od & Hi & -> & N & Ge & Df & Hs)
                         |[(-> & Hs)|(i & ci & Hi & -> & N & Ge & Hs)]].
        -- left. exists (S i), last, od. split; [lia|]. split; [f_equal; lia|].
           split; [rewrite (nth_previous_step i cycle cycle' P); exact N|].
           split; [exact Ge|]. split; [exact Df|]. intros j. apply SS, Hs.
        -- right. left. split; [f_equal; lia|]. intros j. apply SS, Hs.
        -- right. right. exists (S i), ci. split; [lia|]. split; [f_equal; lia|].
           split; [rewrite (nth_previous_step i cycle cycle' P); exact N|].
           split; [exact Ge|]. intros j. apply SS, Hs.
    + injection H as <-. right. right. exists 0%nat, cycle.
      split; [lia|]. split; [f_equal; lia|]. split; [reflexivity|].
      split; [exact G|]. intros j Hj. lia.
Qed.

End Search.

(** The search loop comes to an end without raising as long as the
    cycles it steps through lie on or after the reference date. *)
Lemma search_returns (get_extraction : string -> string -> option extraction)
    (airport_code current_cycle : string) (current_data : extraction)
    (rounds : nat) (searched days : Z) :
  28 * Z.of_nat rounds <= days < 26936 ->
  exists out,
    search get_extraction airport_code current_cycle current_data rounds searched
      (get_current_cycle days) = Some out.
Proof.
  revert searched days. induction rounds as [|rounds IH]; intros searched days H.
  - eexists. reflexivity.
  - cbn [search].
    destruct (get_extraction airport_code (get_current_cycle days)) as [old_data|];
      [|eexists; reflexivity].
    destruct (differs old_data current_data); [eexists; reflexivity|].
    rewrite previous_of_current by lia. apply IH. lia.
Qed.

(** X25: how [find_last_change] ends.  It fails for an airport that is
    not in the table (the code is compared in upper case) or when the
    current cycle has no extraction.  Otherwise it steps back from the
    current cycle one cycle at a time: when it reports a change, the
    cycle reported is the first one back, within [max_cycles] steps,
    whose extraction the quick check finds different, every cycle in
    between having an extraction found no different, and
    [cycles_searched] is the number of steps; when it reports none,
    either all [max_cycles] cycles were found no different, or the
    search stopped at the first cycle without extraction, which is
    counted in [cycles_searched].  From 28 times [max_cycles + 1] days
    after the reference date on, it always returns. *)
Theorem find_last_change_outcome
    (get_extraction : string -> string -> option extraction)
    (days : Z) (airport_code : string) (max_cycles : Z) :
  let code := upper airport_code in
  let current := get_current_cycle days in
  (forall out,
     find_last_change get_extraction days airport_code max_cycles = Some out ->
     (PyDict.contains code AIRPORTS = false /\
      out = Failed ("Unknown airport: " ++ code)) \/
     (PyDict.contains code AIRPORTS = true /\
      get_extraction code current = None /\
      out = Failed "Could not extract current diagram") \/
     (PyDict.contains code AIRPORTS = true /\
      exists current_data,
        get_extraction code current = Some current_data /\
        let same := same_as_current get_extraction code current_data current in
        ((exists k last old_data,
            (1 <= k)%nat /\ Z.of_nat k <= max_cycles /\
            out = found current last (Z.of_nat k) old_data current_data /\
            nth_previous k current = Some last /\
            get_extraction code last = Some old_data /\
            differs old_data current_data = true /\
            forall j, (1 <= j < k)%nat -> same j) \/
         (out = not_found current (Z.max 0 max_cycles) /\
          forall j, (1 <= j)%nat -> Z.of_nat j <= max_cycles -> same j) \/
         (exists k cycle_k,
            (1 <= k)%nat /\ Z.of_nat k <= max_cycles /\
            out = not_found current (Z.of_nat k) /\
            nth_previous k current = Some cycle_k /\
            get_extraction code cycle_k = None /\
            forall j, (1 <= j < k)%nat -> same j)))) /\
  (28 * (Z.max 0 max_cycles + 1) <= days < 26936 ->
   exists out, find_last_change get_extraction days airport_code max_cycles = Some out).
Proof.
  intros code current. split.
  - intros out H. unfold find_last_change in H. fold code current in H.
    destruct (PyDict.contains code AIRPORTS) eqn:K; cbn [negb] in H.
    2:{ left. injection H as <-. auto. }
    right. destruct (get_extraction code current) as [current_data|] eqn:G.
    2:{ left. injection H as <-. auto. }
    right. split; [reflexivity|]. exists current_data. split; [reflexivity|].
    destruct (get_previous_cycle current) as [cycle|] eqn:P; [|discriminate].
    cbv zeta.
    assert (SS : forall j,
              (1 <= j)%nat ->
              same_as_current get_extraction code current_data cycle (j - 1) ->
              same_as_current get_extraction code current_data current j).
    { intros [|j] Hj (cj & dj & N & R); [lia|].
      replace (S j - 1)%nat with j in N by lia.
      exists cj, dj. rewrite (nth_previous_step j current cycle P). auto. }
    apply search_outcome in H as [(i & last & od & Hi & -> & N & Ge & Df & Hs)
                                 |[(-> & Hs)|(i & ci & Hi & -> & N & Ge & Hs)]].
    + left. exists (S i), last, od. split; [lia|]. split; [lia|].
      split; [f_equal; lia|].
      split; [rewrite (nth_previous_step i current cycle P); exact N|].
      split; [exact Ge|]. split; [exact Df|].
      intros j Hj. apply SS; [lia|]. apply Hs. lia.
    + right. left. split; [f_equal; lia|].
      intros j Hj Hm. apply SS; [lia|]. apply Hs. lia.
    + right. right. exists (S i), ci. split; [lia|]. split; [lia|].
      split; [f_equal; lia|].
      split; [rewrite (nth_previous_step i current cycle P); exact N|].
      split; [exact Ge|]. intros j Hj. apply SS; [lia|]. apply Hs. lia.
  - intros H. unfold find_last_change. fold code current.
    destruct (PyDict.contains code AIRPORTS); cbn [negb]; [|eexists; reflexivity].
    destruct (get_extraction code current) as [current_data|]; [|eexists; reflexivity].
    unfold current. rewrite previous_of_current by lia.
    apply search_returns. lia.
Qed.


Lemma find_last_change_outcome_witness :
  let data := fun labels => mkExtraction (Some "JFK") None (Some labels) None None in
  let get_extraction := fun (code cycle : string) =>
    if String.eqb cycle "2606"
    then Some (data [mkLabel "A" 100 100 (0, 0, 0, 0)%Q])
    else Some (data [mkLabel "B" 100 100 (0, 0, 0, 0)%Q]) in
  exists out, find_last_change get_extraction 200 "jfk" 5 = Some out.
Proof.
  intros data get_extraction.
  apply (proj2 (find_last_change_outcome get_extraction 200 "jfk" 5)). lia.
Defined.

Lemma elements_difference (X Y : gset string) (d : string) :
  In d (elements (X ∖ Y)) <-> d ∈ X ∖ Y.
Proof. rewrite <- list_elem_of_In, elem_of_elements. reflexivity. Qed.

(** X26: what a found change lists for the taxiways agrees with the full
    comparison it carries: [taxiways_added] holds, each once, the
    designators of the ADDED entries of the comparison, as many as its
    summary counts, and [taxiways_removed] those of the REMOVED entries;
    and the two lists are both empty exactly when the comparison has no
    taxiway change at all, renames included. *)
Theorem found_taxiways_agree (old_data current_data : extraction) :
  let result := compare_extractions old_data current_data in
  let added := elements (designators current_data ∖ designators old_data) in
  let removed := elements (designators old_data ∖ designators current_data) in
  (forall current last k,
     found current last k old_data current_data =
     Found current last k added removed
       (runway_notes (runway_dimensions old_data) (runway_dimensions current_data))
       (to_dict result)) /\
  (forall d, In d added <->
     exists c, In c (taxiway_changes result) /\
               tc_change_type c = ADDED /\ tc_designator c = d) /\
  (forall d, In d removed <->
     exists c, In c (taxiway_changes result) /\
               tc_change_type c = REMOVED /\ tc_designator c = d) /\
  List.NoDup added /\ List.NoDup removed /\
  length added = taxiways_added (summary result) /\
  length removed = taxiways_removed (summary result) /\
  (added = [] /\ removed = [] <-> taxiway_changes result = []).
Proof.
  intros result added removed. subst result added removed.
  unfold designators. cbn [taxiway_changes summary taxiways_added taxiways_removed
                           compare_extractions].
  set (old_labels := default [] (ex_taxiway_labels old_data)).
  set (new_labels := default [] (ex_taxiway_labels current_data)).
  destruct (taxiway_counts old_labels new_labels) as (Ca & Cr & _). cbv zeta in Ca, Cr.
  assert (A : forall d,
            In d (elements (designator_set new_labels ∖ designator_set old_labels)) <->
            exists c, In c (compare_taxiway_labels old_labels new_labels) /\
                      tc_change_type c = ADDED /\ tc_designator c = d).
  { intros d. rewrite elements_difference. split.
    - intros Hd.
      destruct (first_label_found d new_labels) as [l Hl];
        [apply elem_of_difference in Hd; apply Hd|].
      destruct (proj2 (reports_added_iff old_labels new_labels d (lbl_x l) (lbl_y l)))
        as (c & Hc & Hk & Hdes & _); [eauto 6|]. eauto.
    - intros (c & Hc & Hk & <-).
      apply in_compare_kind in Hc as [[_ H]|[[K _]|[K _]]]; [exact H| |]; congruence. }
  assert (R : forall d,
            In d (elements (designator_set old_labels ∖ designator_set new_labels)) <->
            exists c, In c (compare_taxiway_labels old_labels new_labels) /\
                      tc_change_type c = REMOVED /\ tc_designator c = d).
  { intros d. rewrite elements_difference. split.
    - intros Hd.
      destruct (first_label_found d old_labels) as [l Hl];
        [apply elem_of_difference in Hd; apply Hd|].
      destruct (proj2 (reports_removed_iff old_labels new_labels d (lbl_x l) (lbl_y l)))
        as (c & Hc & Hk & Hdes & _); [eauto 6|]. eauto.
    - intros (c & Hc & Hk & <-).
      apply in_compare_kind in Hc as [[K _]|[[_ H]|[K _]]]; [|exact H|]; congruence. }
  split; [reflexivity|]. split; [exact A|]. split; [exact R|].
  split; [apply NoDup_ListNoDup, NoDup_elements|].
  split; [apply NoDup_ListNoDup, NoDup_elements|].
  split; [rewrite Ca; reflexivity|]. split; [rewrite Cr; reflexivity|].
  split.
  - intros [Ea Er].
    destruct (compare_taxiway_labels old_labels new_labels) as [|c l] eqn:E; [reflexivity|].
    exfalso.
    assert (Hc : In c (compare_taxiway_labels old_labels new_labels))
      by (rewrite E; now left).
    pose proof (in_compare_kind old_labels new_labels c Hc) as [[_ H]|[[_ H]|[_ [H _]]]];
      apply (proj2 (elements_difference _ _ _)) in H.
    + rewrite Ea in H. destruct H.
    + rewrite Er in H. destruct H.
    + rewrite Er in H. destruct H.
  - intros E.
    assert (N : forall l : list string, (forall d, ~ In d l) -> l = []).
    { intros [|x l] H; [reflexivity|]. exfalso. apply (H x). now left. }
    split; apply N; intros d Hd.
    + apply A in Hd as (c & Hc & _). rewrite E in Hc. destruct Hc.
    + apply R in Hd as (c & Hc & _). rewrite E in Hc. destruct Hc.
Qed.

End HistoryFacts.

(* ===================================================================== *)
(** ** Quick check and alerts *)
(* ===================================================================== *)

Module AlertFacts.
Import PyStr Comparator Downloader Historical ScheduledCheck Spec ListFacts
       PyDictFacts TaxiwayFacts RunwayFacts GeometryFacts.

Lemma NoDup_runway_dimensions (data : extraction) :
  List.NoDup (PyDict.keys (runway_dimensions data)).
Proof.
  unfold runway_dimensions.
  generalize (default [] (ex_runway_info data)) as runways.
  assert (G : forall (runways : list runway) (acc : PyDict.dict (Z * Z)),
            List.NoDup (PyDict.keys acc) ->
            List.NoDup (PyDict.keys
              (fold_left
                 (fun (d : PyDict.dict (Z * Z)) (rwy : runway) =>
                    let designator := default "" (rw_designator rwy) in
                    if negb (String.eqb designator "Unknown")
                    then PyDict.set designator (get_length rwy, get_width rwy) d
                    else d)
                 runways acc))).
  { induction runways as [|r runways IH]; intros acc Hacc; cbn [fold_left]; [exact Hacc|].
    apply IH. cbv zeta. destruct (negb _); [apply NoDup_keys_set|]; exact Hacc. }
  intros runways. apply G. constructor.
Qed.

Lemma runway_notes_self (d : PyDict.dict (Z * Z)) :
  List.NoDup (PyDict.keys d) -> runway_notes d d = [].
Proof.
  intros Hd. unfold runway_notes.
  rewrite (flat_map_nil_all (dimension_notes d) (PyDict.items d)).
  - replace (key_set d ∖ key_set d) with (∅ : gset string)
      by (symmetry; apply leibniz_equiv, difference_diag).
    rewrite elements_empty. reflexivity.
  - intros [k [l w]] Hin. unfold dimension_notes.
    rewrite (In_get k (l, w) d Hd Hin). rewrite !Z.eqb_refl. reflexivity.
Qed.

(** X27: the quick check of [find_last_change] never takes an
    extraction for different from itself, so a search through cycles
    whose extractions all equal the current one ends without a change
    found. *)
Theorem quick_check_self :
  (forall data, differs data data = false) /\
  (forall (get_extraction : string -> string -> option extraction)
          (airport_code current_cycle : string) (data : extraction)
          (rounds : nat) (searched days : Z),
     (forall cycle, get_extraction airport_code cycle = Some data) ->
     28 * Z.of_nat rounds <= days < 26936 ->
     search get_extraction airport_code current_cycle data rounds searched
            (get_current_cycle days)
     = Some (not_found current_cycle (searched + Z.of_nat rounds))).
Proof.
  assert (D : forall data, differs data data = false).
  { intros data. unfold differs.
    replace (designators data ∖ designators data) with (∅ : gset string)
      by (symmetry; apply leibniz_equiv, difference_diag).
    rewrite elements_empty, runway_notes_self by apply NoDup_runway_dimensions.
    reflexivity. }
  split; [exact D|].
  intros get_extraction airport_code current_cycle data rounds.
  induction rounds as [|rounds IH]; intros searched days G H.
  - cbn [search]. do 2 f_equal. lia.
  - cbn [search]. rewrite G, D, CycleFacts.previous_of_current by lia.
    rewrite IH by (auto || lia). do 2 f_equal. lia.
Qed.

Lemma quick_check_self_witness :
  let data := mkExtraction (Some "JFK") None
                (Some [mkLabel "A" 100 100 (0, 0, 0, 0)%Q])
                (Some [mkRunway (Some "4L/22R") (Some 8000) (Some 150) None None None None])
                None in
  search (fun _ _ => Some data) "JFK" "2608" data 3 0 (get_current_cycle 172)
  = Some (not_found "2608" 3).
Proof.
  intros data.
  apply (proj2 quick_check_self (fun _ _ => Some data) "JFK" "2608" data 3%nat 0 172).
  - reflexivity.
  - lia.
Defined.

(** X28: the scheduled check raises an alert exactly when the
    comparison holds a taxiway or a runway change; whenever it records
    an error it reports no change; and a difference in geometry alone
    never raises one: for two extractions with the same labels and the
    same runway records there is no alert, though the comparison itself
    counts one change as soon as the numbers of paths differ by more
    than 50. *)
Theorem alert_ignores_geometry
    (airport_code : string) (days : Z) (extracted : string -> option extraction) :
  let r := check_airport_for_changes airport_code days extracted in
  (cr_has_changes r = true <-> cr_taxiway_changes r <> [] \/ cr_runway_changes r <> []) /\
  (cr_error r <> NoError ->
   cr_has_changes r = false /\ cr_taxiway_changes r = [] /\ cr_runway_changes r = []) /\
  (forall previous old_data new_data,
     get_previous_cycle (get_current_cycle days) = Some previous ->
     extracted (get_current_cycle days) = Some new_data ->
     extracted previous = Some old_data ->
     ex_taxiway_labels old_data = ex_taxiway_labels new_data ->
     ex_runway_info old_data = ex_runway_info new_data ->
     cr_has_changes r = false /\ cr_error r = NoError /\
     (50 < Z.abs (path_diff (default [] (ex_paths old_data))
                            (default [] (ex_paths new_data))) ->
      total_changes (summary (compare_extractions old_data new_data)) = 1%nat)).
Proof.
  intros r. subst r. unfold check_airport_for_changes. cbv zeta.
  assert (L : forall (A B : Type) (l : list A) (l' : list B),
            (0 <? length l)%nat || (0 <? length l')%nat = true <-> l <> [] \/ l' <> []).
  { intros A B [|a l] [|b l']; cbn; split; intros H; try discriminate; auto;
      try (destruct H as [H|H]; congruence). }
  split; [|split].
  - destruct (get_previous_cycle (get_current_cycle days)) as [previous|].
    2:{ cbn. split; [discriminate|intros [H|H]; congruence]. }
    destruct (extracted (get_current_cycle days)) as [new_data|],
             (extracted previous) as [old_data|]; cbn [cr_has_changes
               cr_taxiway_changes cr_runway_changes];
      try (split; [discriminate|intros [H|H]; congruence]).
    apply L.
  - destruct (get_previous_cycle (get_current_cycle days)) as [previous|].
    2:{ intros _. cbn. auto. }
    destruct (extracted (get_current_cycle days)) as [new_data|],
             (extracted previous) as [old_data|]; cbn [cr_error cr_has_changes
               cr_taxiway_changes cr_runway_changes]; auto.
    intros H. congruence.
  - intros previous old_data new_data P N O El Er. rewrite P, N, O.
    cbn [cr_has_changes cr_error to_dict rd_taxiway_changes rd_runway_changes].
    unfold compare_extractions.
    cbn [taxiway_changes runway_changes summary total_changes].
    rewrite El, Er, compare_taxiway_labels_self, compare_runway_dimensions_self.
    split; [reflexivity|]. split; [reflexivity|].
    intros G. rewrite compare_geometry_cases.
    destruct (Z.ltb_spec 50 (path_diff (default [] (ex_paths old_data))
                                       (default [] (ex_paths new_data)))); [reflexivity|].
    destruct (Z.ltb_spec (path_diff (default [] (ex_paths old_data))
                                    (default [] (ex_paths new_data))) (-50));
      [reflexivity|lia].
Qed.

Lemma alert_ignores_geometry_witness :
  let seg := mkPath 0 0 1 1 1 in
  let old_data := mkExtraction (Some "JFK") (Some "2607") None None
                    (Some (repeat seg 10)) in
  let new_data := mkExtraction (Some "JFK") (Some "2608") None None
                    (Some (repeat seg 70)) in
  let extracted := fun cycle => if String.eqb cycle "2608" then Some new_data
                                else Some old_data in
  cr_has_changes (check_airport_for_changes "JFK" 200 extracted) = false /\
  total_changes (summary (compare_extractions old_data new_data)) = 1%nat.
Proof.
  intros seg old_data new_data extracted.
  destruct (alert_ignores_geometry "JFK" 200 extracted) as (_ & _ & H).
  destruct (H "2607" old_data new_data) as (H1 & _ & H2); try reflexivity.
  split; [exact H1|]. apply H2. vm_compute. reflexivity.
Defined.

End AlertFacts.
